(** * TodoApp: a shallow embedding of the client's data, reminder and report logic

    The development follows the sources of the application:
    - [src/types/index.ts]: the persisted records;
    - [src/contexts/DataContext.tsx]: CRUD on the remote tables and the
      wholesale reload;
    - [src/services/notifications.ts], [src/contexts/NotificationsContext.tsx]:
      local reminders;
    - [src/components/TaskDialog.tsx] (the notification-aware revisions):
      lead-time options, auto-adjustment and submission;
    - [src/screens/ReportsScreen.tsx]: completion analytics;
    - [src/components/TaskCard.tsx], [src/screens/HomeScreen.tsx],
      [src/screens/TasksScreen.tsx]: badges, counters, filters and views;
    - [src/components/CategoryManager.tsx]: the handlers of the category
      manager;
    - the registration for push notifications of the notification service
      and its provider.

    Conventions of the embedding.
    - An instant (a JavaScript [Date], or the ISO-8601 string that carries it in
      a row) is the integer number of milliseconds since the epoch.
    - Integral JavaScript numbers (minutes, indices, counts) are [Z]; where the
      program divides, a number is the rational value of an IEEE 754 binary64
      and every operation rounds to nearest, ties to even ([JsNumber]).
    - Asynchronous functions run to completion one at a time; a program is a
      function from the state of the world to an outcome and a new state, and
      an exception keeps the effects performed before it.
    - The remote service and the notification centre are third-party: they are
      modelled as tables and a list of pending requests.  A request either is
      applied or fails, as dictated by a schedule of faults carried by the
      world ([faults]); an empty schedule is a reliable environment. *)

From Stdlib Require Import ZArith List String Ascii Bool Lia Arith DecimalString.
From Stdlib Require Import QArith Qround Qpower Lqa SpecFloat.
From Stdlib Require Import Permutation.
Import ListNotations.

#[local] Open Scope string_scope.
#[local] Open Scope list_scope.
#[local] Open Scope Z_scope.

Set Implicit Arguments.

(* ================================================================= *)
(** ** Persisted records ([src/types/index.ts]) *)

Inductive TaskStatus : Type := upcoming | overdue | completed | canceled.

Definition TaskStatus_eqb (a b : TaskStatus) : bool :=
  match a, b with
  | upcoming, upcoming | overdue, overdue
  | completed, completed | canceled, canceled => true
  | _, _ => false
  end.

Module Category.
Record t : Type := mk {
  id : string;
  name : string;
  color : string;
  user_id : string;
  created_at : Z;
  is_default : bool
}.
End Category.

Module Task.
Record t : Type := mk {
  id : string;
  title : string;
  description : option string;
  status : TaskStatus;
  category_id : string;
  user_id : string;
  due_date : option Z;
  created_at : Z;
  updated_at : Z;
  order_index : Z;
  notification_minutes_before : option Z;
  enable_notification : option bool
}.
End Task.

(** [Partial<Category>]: an absent property is [None]. *)
Module CategoryUpdates.
Record t : Type := mk {
  id : option string;
  name : option string;
  color : option string;
  user_id : option string;
  created_at : option Z;
  is_default : option bool
}.
Definition empty : t := mk None None None None None None.
End CategoryUpdates.

(** [Partial<Task>]: an absent property is [None]; a nullable column that is
    present carries [Some None] for [null]. *)
Module TaskUpdates.
Record t : Type := mk {
  id : option string;
  title : option string;
  description : option (option string);
  status : option TaskStatus;
  category_id : option string;
  user_id : option string;
  due_date : option (option Z);
  created_at : option Z;
  updated_at : option Z;
  order_index : option Z;
  notification_minutes_before : option (option Z);
  enable_notification : option (option bool)
}.
Definition empty : t :=
  mk None None None None None None None None None None None None.
End TaskUpdates.

(** [Omit<Task, "id" | "user_id" | "created_at" | "updated_at" | "order_index">],
    the argument of [addTask]. *)
Module NewTask.
Record t : Type := mk {
  title : string;
  description : option string;
  status : TaskStatus;
  category_id : string;
  due_date : option Z;
  notification_minutes_before : option Z;
  enable_notification : option bool
}.
End NewTask.

(* ================================================================= *)
(** ** Local notifications (the requests kept by the notification centre) *)

Inductive Trigger : Type :=
| DateTrigger (date : Z)
| DailyTrigger (hour minute : Z).

Module Notification.
Record t : Type := mk {
  identifier : string;
  content_title : string;
  content_body : string;
  data_taskId : option string;
  data_type : option string;
  trigger : Trigger
}.
End Notification.

(* ================================================================= *)
(** ** The task dialog's props and state ([TaskDialog.tsx]) *)

Module Dialog.
Record t : Type := mk {
  task : option Task.t;                 (* prop: the task being edited *)
  title : string;
  description : string;
  categoryId : string;
  status : TaskStatus;
  dueDate : option Z;
  loading : bool;
  enableNotification : bool;
  notificationMinutesBefore : Z;
  minutesUntilDue : option Z            (* useMemo over [dueDate] *)
}.
End Dialog.

(* ================================================================= *)
(** ** Observable effects, in the order they happen *)

Inductive Table : Type := TasksTable | CategoriesTable.

Inductive Event : Type :=
| EvSelect (tbl : Table)
| EvInsert (tbl : Table)
| EvUpdate (tbl : Table) (id : string)
| EvDelete (tbl : Table) (id : string)
| EvGetScheduled
| EvSchedule (taskId : string) (date : Z)
| EvCancel (identifier : string)
| EvAlert (title message : string)
| EvDismiss.

(* ================================================================= *)
(** ** The world *)

Record World : Type := mkWorld {
  (* the remote service *)
  tasks_tbl : list Task.t;
  categories_tbl : list Category.t;
  (* the notification centre of the device *)
  scheduled : list Notification.t;
  (* outcome of the coming external requests: [true] is a failure *)
  faults : list bool;
  (* wall clock, epoch milliseconds *)
  clock : Z;
  (* what happened so far *)
  trace : list Event;
  (* AuthContext *)
  user : option string;
  (* DataContext state *)
  tasks : list Task.t;
  categories : list Category.t;
  loading : bool;
  (* NotificationsContext *)
  isRegistered : bool;
  (* TaskDialog *)
  dialog : Dialog.t
}.

Definition set_tasks_tbl (v : list Task.t) (w : World) : World :=
  mkWorld v (categories_tbl w) (scheduled w) (faults w) (clock w) (trace w)
          (user w) (tasks w) (categories w) (loading w) (isRegistered w) (dialog w).
Definition set_categories_tbl (v : list Category.t) (w : World) : World :=
  mkWorld (tasks_tbl w) v (scheduled w) (faults w) (clock w) (trace w)
          (user w) (tasks w) (categories w) (loading w) (isRegistered w) (dialog w).
Definition set_scheduled (v : list Notification.t) (w : World) : World :=
  mkWorld (tasks_tbl w) (categories_tbl w) v (faults w) (clock w) (trace w)
          (user w) (tasks w) (categories w) (loading w) (isRegistered w) (dialog w).
Definition set_faults (v : list bool) (w : World) : World :=
  mkWorld (tasks_tbl w) (categories_tbl w) (scheduled w) v (clock w) (trace w)
          (user w) (tasks w) (categories w) (loading w) (isRegistered w) (dialog w).
Definition set_trace (v : list Event) (w : World) : World :=
  mkWorld (tasks_tbl w) (categories_tbl w) (scheduled w) (faults w) (clock w) v
          (user w) (tasks w) (categories w) (loading w) (isRegistered w) (dialog w).
Definition set_tasks (v : list Task.t) (w : World) : World :=
  mkWorld (tasks_tbl w) (categories_tbl w) (scheduled w) (faults w) (clock w) (trace w)
          (user w) v (categories w) (loading w) (isRegistered w) (dialog w).
Definition set_categories (v : list Category.t) (w : World) : World :=
  mkWorld (tasks_tbl w) (categories_tbl w) (scheduled w) (faults w) (clock w) (trace w)
          (user w) (tasks w) v (loading w) (isRegistered w) (dialog w).
Definition set_loading (v : bool) (w : World) : World :=
  mkWorld (tasks_tbl w) (categories_tbl w) (scheduled w) (faults w) (clock w) (trace w)
          (user w) (tasks w) (categories w) v (isRegistered w) (dialog w).
Definition set_dialog (v : Dialog.t) (w : World) : World :=
  mkWorld (tasks_tbl w) (categories_tbl w) (scheduled w) (faults w) (clock w) (trace w)
          (user w) (tasks w) (categories w) (loading w) (isRegistered w) v.

Definition emit (e : Event) (w : World) : World := set_trace (trace w ++ [e]) w.

(* ================================================================= *)
(** ** Programs: state and exceptions *)

Inductive Outcome (A : Type) : Type :=
| Returned (a : A)
| Thrown (message : string).
Arguments Thrown {A} message.

Definition Prog (A : Type) : Type := World -> Outcome A * World.

Definition ret {A} (a : A) : Prog A := fun w => (Returned a, w).
Definition throw {A} (message : string) : Prog A := fun w => (Thrown message, w).
Definition bind {A B} (m : Prog A) (k : A -> Prog B) : Prog B :=
  fun w => match m w with
           | (Returned a, w') => k a w'
           | (Thrown e, w') => (Thrown e, w')
           end.
Definition get {A} (f : World -> A) : Prog A := fun w => (Returned (f w), w).
Definition modify (f : World -> World) : Prog unit := fun w => (Returned tt, f w).

Declare Scope prog_scope.
Delimit Scope prog_scope with prog.
Notation "x <- m ;; k" := (bind m (fun x => k))
  (at level 61, m at next level, right associativity) : prog_scope.
Notation "m ;; k" := (bind m (fun _ => k))
  (at level 61, right associativity) : prog_scope.
#[local] Open Scope prog_scope.

(** [try { body } catch (e) { handler e }] *)
Definition try_catch {A} (body : Prog A) (handler : string -> Prog A) : Prog A :=
  fun w => match body w with
           | (Thrown e, w') => handler e w'
           | r => r
           end.

(** [try { body } finally { fin }]; [fin] does not throw in this program. *)
Definition try_finally {A} (body : Prog A) (fin : World -> World) : Prog A :=
  fun w => let (o, w') := body w in (o, fin w').

(** [for (const x of xs) { body x }] *)
Fixpoint for_of {A} (xs : list A) (body : A -> Prog unit) : Prog unit :=
  match xs with
  | [] => ret tt
  | x :: rest => body x ;; for_of rest body
  end.

(* ================================================================= *)
(** ** External requests *)

(** What the SDK of the remote service resolves to: it never throws. *)
Record Response (A : Type) : Type := mkResponse {
  data : option A;
  error : option string
}.

Definition request_failed : string := "request failed".

(** One external request: it is logged, consumes one entry of the fault
    schedule, and is applied unless that entry is a failure. *)
Definition external {A} (e : Event) (failed : A) (apply : World -> A * World)
  : World -> A * World :=
  fun w =>
    let w1 := emit e w in
    match faults w1 with
    | true :: fs => (failed, set_faults fs w1)
    | false :: fs => apply (set_faults fs w1)
    | [] => apply w1
    end.

(** A key that occurs in none of [used]: longer than each of them.  The
    generator of the service is opaque to the client; any source of fresh
    keys would do. *)
Fixpoint fresh_key (used : list string) : string :=
  match used with
  | [] => "k"
  | s :: rest => String.append s (fresh_key rest)
  end.

Definition await {A} (e : Event) (failed : A) (apply : World -> A * World)
  : Prog A :=
  fun w => let (a, w') := external e failed apply w in (Returned a, w').

Definition failed_response {A} : Response A :=
  mkResponse None (Some request_failed).

(* ================================================================= *)
(** ** The query builder of the remote service, as the client uses it *)

Definition or_else {A} (o : option A) (d : A) : A :=
  match o with Some a => a | None => d end.

(** [.order(column, { ascending: false })] *)
Fixpoint insert_desc {A} (key : A -> Z) (x : A) (l : list A) : list A :=
  match l with
  | [] => [x]
  | y :: rest => if key y <=? key x then x :: y :: rest
                 else y :: insert_desc key x rest
  end.

Definition order_desc {A} (key : A -> Z) (l : list A) : list A :=
  fold_right (insert_desc key) [] l.

(** [.maybeSingle()]: the row when there is exactly one, [null] when there is
    none, an error (and [null]) when there are several. *)
Definition maybeSingle {A} (rows : list A) : Response A :=
  match rows with
  | [] => mkResponse None None
  | [r] => mkResponse (Some r) None
  | _ :: _ :: _ => mkResponse None (Some "multiple rows returned")
  end.

Definition owned_default (userId : string) (c : Category.t) : bool :=
  String.eqb (Category.user_id c) userId && Category.is_default c.

(** [from('categories').select('*').eq('user_id', u).eq('is_default', true).maybeSingle()] *)
Definition select_default_category (userId : string) : Prog (Response Category.t) :=
  await (EvSelect CategoriesTable) failed_response
        (fun w => (maybeSingle (filter (owned_default userId) (categories_tbl w)), w)).

(** [from('categories').select('*').eq('user_id', u).order('is_default', { ascending: false })] *)
Definition categories_of (userId : string) (tbl : list Category.t) : list Category.t :=
  order_desc (fun c => if Category.is_default c then 1 else 0)
             (filter (fun c => String.eqb (Category.user_id c) userId) tbl).

Definition select_categories (userId : string) : Prog (Response (list Category.t)) :=
  await (EvSelect CategoriesTable) failed_response
        (fun w => (mkResponse (Some (categories_of userId (categories_tbl w))) None, w)).

(** [from('tasks').select('*').eq('user_id', u).order('created_at', { ascending: false })] *)
Definition tasks_of (userId : string) (tbl : list Task.t) : list Task.t :=
  order_desc Task.created_at
             (filter (fun t => String.eqb (Task.user_id t) userId) tbl).

Definition select_tasks (userId : string) : Prog (Response (list Task.t)) :=
  await (EvSelect TasksTable) failed_response
        (fun w => (mkResponse (Some (tasks_of userId (tasks_tbl w))) None, w)).

(** [from('categories').insert({ name, color, user_id, is_default })]; the
    service fills the key and the creation time.  With [.select().single()]
    ([returning]) the stored row comes back. *)
Definition insert_category (returning : bool)
    (name color userId : string) (is_default : bool)
  : Prog (Response Category.t) :=
  await (EvInsert CategoriesTable) failed_response
        (fun w =>
           let row := Category.mk (fresh_key (map Category.id (categories_tbl w)))
                                  name color userId (clock w) is_default in
           (mkResponse (if returning then Some row else None) None,
            set_categories_tbl (categories_tbl w ++ [row]) w)).

(** [from('tasks').insert({ ...task, user_id, order_index })].  A column the
    payload leaves out takes its default: [enable_notification] defaults to
    [true] (the migration that adds the column), the others to [NULL]. *)
Definition new_task_row (key : string) (now : Z) (task : NewTask.t)
    (userId : string) (order_index : Z) : Task.t :=
  Task.mk key (NewTask.title task) (NewTask.description task)
          (NewTask.status task) (NewTask.category_id task) userId
          (NewTask.due_date task) now now order_index
          (NewTask.notification_minutes_before task)
          (Some (or_else (NewTask.enable_notification task) true)).

Definition insert_task (returning : bool) (task : NewTask.t)
    (userId : string) (order_index : Z) : Prog (Response Task.t) :=
  await (EvInsert TasksTable) failed_response
        (fun w =>
           let row := new_task_row (fresh_key (map Task.id (tasks_tbl w)))
                                   (clock w) task userId order_index in
           (mkResponse (if returning then Some row else None) None,
            set_tasks_tbl (tasks_tbl w ++ [row]) w)).

Definition apply_task_updates (u : TaskUpdates.t) (t : Task.t) : Task.t :=
  Task.mk (or_else (TaskUpdates.id u) (Task.id t))
          (or_else (TaskUpdates.title u) (Task.title t))
          (or_else (TaskUpdates.description u) (Task.description t))
          (or_else (TaskUpdates.status u) (Task.status t))
          (or_else (TaskUpdates.category_id u) (Task.category_id t))
          (or_else (TaskUpdates.user_id u) (Task.user_id t))
          (or_else (TaskUpdates.due_date u) (Task.due_date t))
          (or_else (TaskUpdates.created_at u) (Task.created_at t))
          (or_else (TaskUpdates.updated_at u) (Task.updated_at t))
          (or_else (TaskUpdates.order_index u) (Task.order_index t))
          (or_else (TaskUpdates.notification_minutes_before u)
                   (Task.notification_minutes_before t))
          (or_else (TaskUpdates.enable_notification u) (Task.enable_notification t)).

Definition apply_category_updates (u : CategoryUpdates.t) (c : Category.t)
  : Category.t :=
  Category.mk (or_else (CategoryUpdates.id u) (Category.id c))
              (or_else (CategoryUpdates.name u) (Category.name c))
              (or_else (CategoryUpdates.color u) (Category.color c))
              (or_else (CategoryUpdates.user_id u) (Category.user_id c))
              (or_else (CategoryUpdates.created_at u) (Category.created_at c))
              (or_else (CategoryUpdates.is_default u) (Category.is_default c)).

(** [from('tasks').update(updates).eq('id', id)] *)
Definition update_tasks_where (id : string) (u : TaskUpdates.t)
    (tbl : list Task.t) : list Task.t :=
  map (fun t => if String.eqb (Task.id t) id then apply_task_updates u t else t) tbl.

Definition update_task (id : string) (u : TaskUpdates.t) : Prog (Response unit) :=
  await (EvUpdate TasksTable id) failed_response
        (fun w => (mkResponse None None,
                   set_tasks_tbl (update_tasks_where id u (tasks_tbl w)) w)).

(** [from('tasks').delete().eq('id', id)] *)
Definition delete_task (id : string) : Prog (Response unit) :=
  await (EvDelete TasksTable id) failed_response
        (fun w => (mkResponse None None,
                   set_tasks_tbl
                     (filter (fun t => negb (String.eqb (Task.id t) id)) (tasks_tbl w)) w)).

(** [from('categories').update(updates).eq('id', id)] *)
Definition update_categories_where (id : string) (u : CategoryUpdates.t)
    (tbl : list Category.t) : list Category.t :=
  map (fun c => if String.eqb (Category.id c) id
                then apply_category_updates u c else c) tbl.

Definition update_category (id : string) (u : CategoryUpdates.t)
  : Prog (Response unit) :=
  await (EvUpdate CategoriesTable id) failed_response
        (fun w => (mkResponse None None,
                   set_categories_tbl
                     (update_categories_where id u (categories_tbl w)) w)).

(** [from('categories').delete().eq('id', id)] *)
Definition delete_category (id : string) : Prog (Response unit) :=
  await (EvDelete CategoriesTable id) failed_response
        (fun w => (mkResponse None None,
                   set_categories_tbl
                     (filter (fun c => negb (String.eqb (Category.id c) id))
                             (categories_tbl w)) w)).

(* ================================================================= *)
(** ** [DataProvider] ([src/contexts/DataContext.tsx]) *)

Definition ensureDefaultCategory (userId : string) : Prog unit :=
  try_catch
    (r <- select_default_category userId ;;
     match data r with
     | Some _ => ret tt
     | None =>
         r' <- insert_category true "General" "#3b82f6" userId true ;;
         match data r' with
         | Some newCategory =>
             modify (fun w => set_categories (newCategory :: categories w) w)
         | None => ret tt
         end
     end)
    (fun _ => ret tt).

Definition loadData : Prog unit :=
  u <- get user ;;
  match u with
  | None =>
      modify (fun w => set_loading false (set_categories [] (set_tasks [] w)))
  | Some userId =>
      try_finally
        (try_catch
           (ensureDefaultCategory userId ;;
            rc <- select_categories userId ;;
            match data rc with
            | Some catData => modify (set_categories catData)
            | None => ret tt
            end ;;
            rt <- select_tasks userId ;;
            match data rt with
            | Some taskData => modify (set_tasks taskData)
            | None => ret tt
            end)
           (fun _ => ret tt))
        (set_loading false)
  end.

Definition refreshData : Prog unit := loadData.

(** The callback registered on both realtime channels. *)
Definition on_postgres_changes (tbl : Table) : Prog unit :=
  match tbl with
  | TasksTable => loadData
  | CategoriesTable => loadData
  end.

Definition throw_on_error {A} (r : Response A) : Prog unit :=
  match error r with
  | Some e => throw e
  | None => ret tt
  end.

(** [addTask] as in [DataContext.tsx]. *)
Definition addTask (task : NewTask.t) : Prog unit :=
  u <- get user ;;
  match u with
  | None => throw "User not authenticated"
  | Some userId =>
      n <- get (fun w => Z.of_nat (List.length (tasks w))) ;;
      r <- insert_task false task userId n ;;
      throw_on_error r ;;
      refreshData
  end.

Definition updateTask (id : string) (updates : TaskUpdates.t) : Prog unit :=
  r <- update_task id updates ;;
  throw_on_error r ;;
  refreshData.

Definition deleteTask (id : string) : Prog unit :=
  r <- delete_task id ;;
  throw_on_error r ;;
  refreshData.

Definition addCategory (name color : string) : Prog unit :=
  u <- get user ;;
  match u with
  | None => throw "User not authenticated"
  | Some userId =>
      r <- insert_category false name color userId false ;;
      throw_on_error r ;;
      refreshData
  end.

(** [const { is_default, ...safeUpdates } = updates] *)
Definition safeUpdates (updates : CategoryUpdates.t) : CategoryUpdates.t :=
  CategoryUpdates.mk (CategoryUpdates.id updates) (CategoryUpdates.name updates)
                     (CategoryUpdates.color updates) (CategoryUpdates.user_id updates)
                     (CategoryUpdates.created_at updates) None.

Definition updateCategory (id : string) (updates : CategoryUpdates.t) : Prog unit :=
  r <- update_category id (safeUpdates updates) ;;
  throw_on_error r ;;
  refreshData.

Definition move_to (categoryId : string) : TaskUpdates.t :=
  TaskUpdates.mk None None None None (Some categoryId) None None None None None
                 None None.

Definition deleteCategory (id : string) : Prog unit :=
  cats <- get categories ;;
  match find (fun c => String.eqb (Category.id c) id) cats with
  | None => throw "Category not found"
  | Some category =>
      if Category.is_default category
      then throw "Cannot delete default category"
      else
        match find Category.is_default cats with
        | None => throw "Default category not found"
        | Some defaultCategory =>
            ts <- get tasks ;;
            let tasksToMove :=
              filter (fun t => String.eqb (Task.category_id t) id) ts in
            for_of tasksToMove
                   (fun task =>
                      _ <- update_task (Task.id task)
                                       (move_to (Category.id defaultCategory)) ;;
                      ret tt) ;;
            r <- delete_category id ;;
            throw_on_error r ;;
            refreshData
        end
  end.

(* ================================================================= *)
(** ** JavaScript strings

    A string is the sequence of bytes of its UTF-8 encoding. *)

Definition bytes (l : list nat) : string :=
  fold_right (fun n s => String (ascii_of_nat n) s) EmptyString l.

Definition quote : string := bytes [34%nat].

(** White space and line terminators of ECMAScript, UTF-8 encoded:
    U+0009..U+000D, U+0020, U+00A0, U+1680, U+2000..U+200A, U+2028, U+2029,
    U+202F, U+205F, U+3000, U+FEFF. *)
Definition white_space : list (list nat) :=
  ([[9]; [10]; [11]; [12]; [13]; [32]; [194; 160]; [225; 154; 128];
    [226; 128; 128]; [226; 128; 129]; [226; 128; 130]; [226; 128; 131];
    [226; 128; 132]; [226; 128; 133]; [226; 128; 134]; [226; 128; 135];
    [226; 128; 136]; [226; 128; 137]; [226; 128; 138];
    [226; 128; 168]; [226; 128; 169]; [226; 128; 175]; [226; 129; 159];
    [227; 128; 128]; [239; 187; 191]])%nat.

Fixpoint strip_prefix (p : list nat) (s : list nat) : option (list nat) :=
  match p, s with
  | [], _ => Some s
  | a :: p', b :: s' => if Nat.eqb a b then strip_prefix p' s' else None
  | _ :: _, [] => None
  end.

Fixpoint strip_any (ps : list (list nat)) (s : list nat) : option (list nat) :=
  match ps with
  | [] => None
  | p :: rest => match strip_prefix p s with
                 | Some s' => Some s'
                 | None => strip_any rest s
                 end
  end.

Fixpoint strip_all (fuel : nat) (ps : list (list nat)) (s : list nat) : list nat :=
  match fuel with
  | O => s
  | S fuel' => match strip_any ps s with
               | Some s' => strip_all fuel' ps s'
               | None => s
               end
  end.

Definition codes (s : string) : list nat := map nat_of_ascii (list_ascii_of_string s).

(** [String.prototype.trim] *)
Definition trim (s : string) : string :=
  let front := strip_all (String.length s) white_space (codes s) in
  let back := strip_all (String.length s) (map (@rev nat) white_space) (rev front) in
  bytes (rev back).

(** [String(n)] for an integral number. *)
Definition number_to_string (n : Z) : string := NilZero.string_of_int (Z.to_int n).

(** Truthiness of a string. *)
Definition truthy (s : string) : bool := negb (String.eqb s "").

Definition is_some {A} (o : option A) : bool :=
  match o with Some _ => true | None => false end.

(* ================================================================= *)
(** ** The notification centre, as the client uses it *)

(** A call that rejects (throws) when it fails. *)
Definition await_or_throw {A} (e : Event) (apply : World -> A * World) : Prog A :=
  external e (Thrown request_failed)
           (fun w => let (a, w') := apply w in (Returned a, w')).

(** [Notifications.scheduleNotificationAsync({ content, trigger })] *)
Definition scheduleNotificationAsync (title body taskId type : string) (date : Z)
  : Prog string :=
  await_or_throw (EvSchedule taskId date)
    (fun w =>
       let identifier := fresh_key (map Notification.identifier (scheduled w)) in
       (identifier,
        set_scheduled
          (scheduled w ++ [Notification.mk identifier title body (Some taskId)
                                           (Some type) (DateTrigger date)]) w)).

(** [Notifications.cancelScheduledNotificationAsync(identifier)] *)
Definition cancelScheduledNotificationAsync (identifier : string) : Prog unit :=
  await_or_throw (EvCancel identifier)
    (fun w =>
       (tt, set_scheduled
              (filter (fun n => negb (String.eqb (Notification.identifier n) identifier))
                      (scheduled w)) w)).

(** [Notifications.getAllScheduledNotificationsAsync()] *)
Definition getAllScheduledNotificationsAsync : Prog (list Notification.t) :=
  await_or_throw EvGetScheduled (fun w => (scheduled w, w)).

(* ================================================================= *)
(** ** [NotificationsService] ([src/services/notifications.ts]) *)

Module NotificationsService.

Definition scheduleTaskNotification (taskId taskTitle : string) (dueDate : Z)
    (minutesBefore : option Z) : Prog (option string) :=
  let minutesBefore := or_else minutesBefore 60 in
  try_catch
    (now <- get clock ;;
     let triggerDate := dueDate - minutesBefore * 60000 in
     if triggerDate <=? now
     then ret None
     else
       notificationId <-
         scheduleNotificationAsync
           "⏰ Task Reminder"
           (quote ++ taskTitle ++ quote ++ " expiră în "
              ++ number_to_string minutesBefore ++ " minute!")%string
           taskId "task_reminder" triggerDate ;;
       ret (Some notificationId))
    (fun _ => ret None).

Definition cancelNotification (notificationId : string) : Prog unit :=
  try_catch (cancelScheduledNotificationAsync notificationId) (fun _ => ret tt).

Definition getScheduledNotifications : Prog (list Notification.t) :=
  try_catch getAllScheduledNotificationsAsync (fun _ => ret []).

End NotificationsService.

(** The wrappers of [NotificationsProvider]. *)
Definition scheduleTaskReminder (taskId taskTitle : string) (dueDate : Z)
    (minutesBefore : option Z) : Prog (option string) :=
  NotificationsService.scheduleTaskNotification
    taskId taskTitle dueDate (Some (or_else minutesBefore 60)).

Definition cancelNotification (notificationId : string) : Prog unit :=
  NotificationsService.cancelNotification notificationId.

(* ================================================================= *)
(** ** The task dialog ([src/components/TaskDialog.tsx]) *)

(** A property of an object literal: left out or [undefined], [null], or a
    value. *)
Inductive Field (A : Type) : Type :=
| Undefined
| Null
| Value (a : A).
Arguments Undefined {A}.
Arguments Null {A}.

Definition field_to_option {A} (f : Field A) : option A :=
  match f with Value a => Some a | _ => None end.

(** In the body of an update, [undefined] is dropped and [null] is sent. *)
Definition field_to_update {A} (f : Field A) : option (option A) :=
  match f with
  | Undefined => None
  | Null => Some None
  | Value a => Some (Some a)
  end.

Definition optional {A} (o : option A) : Field A :=
  match o with Some a => Value a | None => Undefined end.

(** The [taskData] literal built by [handleSubmit]. *)
Module TaskData.
Record t : Type := mk {
  title : string;
  description : string;
  category_id : string;
  status : TaskStatus;
  due_date : Field Z;
  enable_notification : Field bool;
  notification_minutes_before : Field Z
}.
End TaskData.

(** [taskData as Partial<Task>] *)
Definition as_updates (d : TaskData.t) : TaskUpdates.t :=
  TaskUpdates.mk None (Some (TaskData.title d)) (Some (Some (TaskData.description d)))
                 (Some (TaskData.status d)) (Some (TaskData.category_id d)) None
                 (field_to_update (TaskData.due_date d)) None None None
                 (field_to_update (TaskData.notification_minutes_before d))
                 (field_to_update (TaskData.enable_notification d)).

(** [taskData as Omit<Task, ...>] *)
Definition as_new_task (d : TaskData.t) : NewTask.t :=
  NewTask.mk (TaskData.title d) (Some (TaskData.description d)) (TaskData.status d)
             (TaskData.category_id d) (field_to_option (TaskData.due_date d))
             (field_to_option (TaskData.notification_minutes_before d))
             (field_to_option (TaskData.enable_notification d)).

(** [{ ...task, ...taskData }] *)
Definition spread (task : Task.t) (d : TaskData.t) : Task.t :=
  Task.mk (Task.id task) (TaskData.title d) (Some (TaskData.description d))
          (TaskData.status d) (TaskData.category_id d) (Task.user_id task)
          (field_to_option (TaskData.due_date d)) (Task.created_at task)
          (Task.updated_at task) (Task.order_index task)
          (field_to_option (TaskData.notification_minutes_before d))
          (field_to_option (TaskData.enable_notification d)).

Definition setLoading (b : bool) (w : World) : World :=
  let d := dialog w in
  set_dialog (Dialog.mk (Dialog.task d) (Dialog.title d) (Dialog.description d)
                        (Dialog.categoryId d) (Dialog.status d) (Dialog.dueDate d)
                        b (Dialog.enableNotification d)
                        (Dialog.notificationMinutesBefore d)
                        (Dialog.minutesUntilDue d)) w.

(** [resetForm], with the [categories] of the render that created it.  The
    memo over [dueDate] is recomputed by the render that follows. *)
Definition resetForm (categories : list Category.t) (w : World) : World :=
  let d := dialog w in
  set_dialog (Dialog.mk (Dialog.task d) "" ""
                        (match find Category.is_default categories with
                         | Some defaultCategory => Category.id defaultCategory
                         | None => Dialog.categoryId d
                         end)
                        upcoming None (Dialog.loading d) true 60 None) w.

Definition alert (title message : string) : Prog unit :=
  modify (emit (EvAlert title message)).

Definition onDismiss : Prog unit := modify (emit EvDismiss).

(** [differenceInMinutes] of date-fns: full minutes, truncated towards zero. *)
Definition differenceInMinutes (dateLeft dateRight : Z) : Z :=
  Z.quot (dateLeft - dateRight) 60000.

(** *** First revision: no reminders *)
Module TaskDialogBasic.

Definition handleSubmit : Prog unit :=
  d <- get dialog ;;
  cats <- get categories ;;
  if negb (truthy (trim (Dialog.title d))) || negb (truthy (Dialog.categoryId d))
  then ret tt
  else
    try_finally
      (try_catch
         (modify (setLoading true) ;;
          let taskData :=
            TaskData.mk (trim (Dialog.title d)) (trim (Dialog.description d))
                        (Dialog.categoryId d) (Dialog.status d)
                        (optional (Dialog.dueDate d)) Undefined Undefined in
          match Dialog.task d with
          | Some task => updateTask (Task.id task) (as_updates taskData)
          | None => addTask (as_new_task taskData)
          end ;;
          onDismiss ;;
          modify (resetForm cats))
         (fun _ => ret tt))
      (setLoading false).

End TaskDialogBasic.

(** *** Second revision ("UPDATED with Notifications"): reminders are
    reconciled on every save *)
Module TaskDialogUpdated.

Definition taskData (d : Dialog.t) : TaskData.t :=
  TaskData.mk (trim (Dialog.title d)) (trim (Dialog.description d))
              (Dialog.categoryId d) (Dialog.status d)
              (optional (Dialog.dueDate d))
              (Value (Dialog.enableNotification d))
              (if Dialog.enableNotification d
               then Value (Dialog.notificationMinutesBefore d)
               else Undefined).

(** The [if (task) ... else ...] that saves and yields [savedTaskId].  For a
    new task, [addTask] of the provider resolves to [undefined], so reading
    [newTask.id] throws once the task is stored. *)
Definition save (d : Dialog.t) : Prog string :=
  match Dialog.task d with
  | Some task =>
      updateTask (Task.id task) (as_updates (taskData d)) ;;
      ret (Task.id task)
  | None =>
      addTask (as_new_task (taskData d)) ;;
      throw "TypeError: Cannot read properties of undefined"
  end.

Definition cancel_if_for (savedTaskId : string) (notification : Notification.t)
  : Prog unit :=
  match Notification.data_taskId notification with
  | Some taskId =>
      if String.eqb taskId savedTaskId
      then cancelNotification (Notification.identifier notification)
      else ret tt
  | None => ret tt
  end.

(** The block that manages the reminders of the saved task. *)
Definition reconcile (d : Dialog.t) (registered : bool) (savedTaskId : string)
  : Prog unit :=
  if truthy savedTaskId && registered
  then
    scheduled <- NotificationsService.getScheduledNotifications ;;
    for_of scheduled (cancel_if_for savedTaskId) ;;
    match Dialog.enableNotification d, Dialog.dueDate d with
    | true, Some dueDate =>
        _ <- scheduleTaskReminder
               savedTaskId (trim (Dialog.title d)) dueDate
               (Some (Dialog.notificationMinutesBefore d)) ;;
        ret tt
    | _, _ => ret tt
    end
  else ret tt.

Definition handleSubmit : Prog unit :=
  d <- get dialog ;;
  cats <- get categories ;;
  registered <- get isRegistered ;;
  if negb (truthy (trim (Dialog.title d))) || negb (truthy (Dialog.categoryId d))
  then ret tt
  else
    try_finally
      (try_catch
         (modify (setLoading true) ;;
          savedTaskId <- save d ;;
          reconcile d registered savedTaskId ;;
          onDismiss ;;
          modify (resetForm cats))
         (fun _ => alert "Error" "Failed to save task. Please try again."))
      (setLoading false).

End TaskDialogUpdated.

(** *** Final revision ("FINAL with Persistent Notification Preferences") *)
Module NotificationOption.
Record t : Type := mk { label : string; value : Z }.
End NotificationOption.

Module TaskDialog.

Definition compute_minutesUntilDue (dueDate : option Z) (now : Z) : option Z :=
  match dueDate with
  | None => None
  | Some d => Some (differenceInMinutes d now)
  end.

Definition allOptions : list NotificationOption.t :=
  [ NotificationOption.mk "5 min" 5;
    NotificationOption.mk "15 min" 15;
    NotificationOption.mk "30 min" 30;
    NotificationOption.mk "1 oră" 60;
    NotificationOption.mk "2 ore" 120;
    NotificationOption.mk "1 zi" 1440 ].

(** [!minutesUntilDue]: [null] and [0] are falsy. *)
Definition falsy_number (n : option Z) : bool :=
  match n with
  | None => true
  | Some m => m =? 0
  end.

Definition validNotificationOptions (minutesUntilDue : option Z)
  : list NotificationOption.t :=
  if falsy_number minutesUntilDue
     || match minutesUntilDue with Some m => m <=? 0 | None => false end
  then allOptions
  else
    let m := or_else minutesUntilDue 0 in
    let validOptions :=
      filter (fun opt => NotificationOption.value opt <? m) allOptions in
    if (0 <? List.length validOptions)%nat
    then validOptions
    else [ NotificationOption.mk "1 min" 1 ].

Definition isNotificationValid (d : Dialog.t) : bool :=
  if negb (is_some (Dialog.dueDate d)) || falsy_number (Dialog.minutesUntilDue d)
  then false
  else Dialog.notificationMinutesBefore d <? or_else (Dialog.minutesUntilDue d) 0.

Definition setNotificationMinutesBefore (v : Z) (d : Dialog.t) : Dialog.t :=
  Dialog.mk (Dialog.task d) (Dialog.title d) (Dialog.description d)
            (Dialog.categoryId d) (Dialog.status d) (Dialog.dueDate d)
            (Dialog.loading d) (Dialog.enableNotification d) v
            (Dialog.minutesUntilDue d).

(** The effect that re-validates the selected lead time. *)
Definition autoAdjust (d : Dialog.t) : Dialog.t :=
  match Dialog.dueDate d, Dialog.minutesUntilDue d with
  | Some _, Some minutesUntilDue =>
      if 0 <? minutesUntilDue
      then
        if minutesUntilDue <=? Dialog.notificationMinutesBefore d
        then
          let options := validNotificationOptions (Dialog.minutesUntilDue d) in
          match nth_error options (List.length options - 1) with
          | Some maxValid =>
              setNotificationMinutesBefore (NotificationOption.value maxValid) d
          | None => d
          end
        else d
      else d
  | _, _ => d
  end.

Definition isOverdue (d : Dialog.t) : bool :=
  match Dialog.minutesUntilDue d with
  | Some m => m <=? 0
  | None => false
  end.

Definition taskData (d : Dialog.t) : TaskData.t :=
  TaskData.mk (trim (Dialog.title d)) (trim (Dialog.description d))
              (Dialog.categoryId d) (Dialog.status d)
              (optional (Dialog.dueDate d))
              (Value (Dialog.enableNotification d && negb (isOverdue d)))
              (if Dialog.enableNotification d && negb (isOverdue d)
               then Value (Dialog.notificationMinutesBefore d)
               else Null).

Definition invalid_notification_message (d : Dialog.t) : string :=
  ("Nu poți seta o notificare cu "
     ++ number_to_string (Dialog.notificationMinutesBefore d)
     ++ " minute înainte când task-ul expiră în doar "
     ++ number_to_string (or_else (Dialog.minutesUntilDue d) 0)
     ++ " minute." ++ bytes [10; 10]%nat
     ++ "Alege o valoare mai mică sau schimbă due date-ul.")%string.

(** The [if (task) ... else ...] that saves and yields [savedTask].  For a
    new task, [addTask] of the provider resolves to [undefined], and that is
    what [savedTask] holds: [None]. *)
Definition save (d : Dialog.t) : Prog (option Task.t) :=
  match Dialog.task d with
  | Some task =>
      updateTask (Task.id task) (as_updates (taskData d)) ;;
      ret (Some (spread task (taskData d)))
  | None =>
      addTask (as_new_task (taskData d)) ;;
      ret None
  end.

(** The block that schedules the reminder of the saved task. *)
Definition remind (d : Dialog.t) (registered : bool) (savedTask : option Task.t)
  : Prog unit :=
  match Dialog.enableNotification d && registered, Dialog.dueDate d with
  | true, Some dueDate =>
      match savedTask with
      | None => throw "TypeError: Cannot read properties of undefined"
      | Some savedTask =>
          if truthy (Task.id savedTask) && isNotificationValid d
             && match Dialog.minutesUntilDue d with
                | Some m => 0 <? m
                | None => false
                end
          then
            _ <- scheduleTaskReminder
                   (Task.id savedTask) (trim (Dialog.title d)) dueDate
                   (Some (Dialog.notificationMinutesBefore d)) ;;
            ret tt
          else ret tt
      end
  | _, _ => ret tt
  end.

Definition handleSubmit : Prog unit :=
  d <- get dialog ;;
  cats <- get categories ;;
  registered <- get isRegistered ;;
  if negb (truthy (trim (Dialog.title d))) || negb (truthy (Dialog.categoryId d))
  then ret tt
  else if Dialog.enableNotification d && is_some (Dialog.dueDate d)
          && negb (isOverdue d) && negb (isNotificationValid d)
  then alert "Invalid Notification" (invalid_notification_message d)
  else
    try_finally
      (try_catch
         (modify (setLoading true) ;;
          savedTask <- save d ;;
          remind d registered savedTask ;;
          onDismiss ;;
          modify (resetForm cats))
         (fun _ => alert "Error" "Failed to save task. Please try again."))
      (setLoading false).

End TaskDialog.

(* ================================================================= *)
(** ** JavaScript numbers

    A finite number is the rational it denotes.  The result of an arithmetic
    operation is the exact result rounded to the nearest number with a 53-bit
    significand, ties to even; exponents are not bounded (the quotients and
    products of this program are far from the subnormal and overflow ranges). *)

Module JsNumber.

(** [floor (log2 x)] for [x > 0]. *)
Definition binade (x : Q) : Z :=
  let k := (Z.log2 (Qnum x) - Z.log2 (Zpos (Qden x)))%Z in
  if Qle_bool (2 ^ k) x then k else (k - 1)%Z.

(** Nearest integer, ties to even. *)
Definition round_half_even (y : Q) : Z :=
  let q := Qfloor y in
  match Qcompare (y - inject_Z q) (1 # 2) with
  | Lt => q
  | Gt => (q + 1)%Z
  | Eq => if Z.even q then q else (q + 1)%Z
  end.

(** Nearest multiple of [2 ^ (binade x - 52)], for [x > 0]. *)
Definition round53 (x : Q) : Q :=
  let e := (binade x - 52)%Z in
  (inject_Z (round_half_even (x / 2 ^ e)) * 2 ^ e)%Q.

Definition fl (x : Q) : Q :=
  match Qcompare x 0 with
  | Eq => 0%Q
  | Gt => round53 x
  | Lt => (- round53 (- x))%Q
  end.

Definition div (a b : Q) : Q := fl (a / b)%Q.
Definition mul (a b : Q) : Q := fl (a * b)%Q.

(** [Math.round]: the nearest integer, ties towards positive infinity. *)
Definition Math_round (x : Q) : Z := Qfloor (x + (1 # 2))%Q.

(** [Math.round((c / t) * 100)] for counts [c <= t]. *)
Definition rate (c t : Z) : Z :=
  Math_round (mul (div (inject_Z c) (inject_Z t)) 100%Q).

(** The exact quotient [100 c / t] rounded half up. *)
Definition exact_rate (c t : Z) : Z := ((200 * c + t) / (2 * t))%Z.

(** The unit roundoff of binary64, [2 ^ -53]. *)
Definition unit_roundoff : Q := 1 # 9007199254740992.

(** The same operations in the reference formalisation of IEEE 754 of the
    standard library, for comparison. *)
Definition of_spec (f : spec_float) : Q :=
  match f with
  | S754_finite s m e => ((if s then -1 else 1) * inject_Z (Zpos m) * 2 ^ e)%Q
  | _ => 0%Q
  end.

Definition spec_of_Z (z : Z) : spec_float := binary_normalize 53 1024 z 0 false.

Definition agrees_with_spec (c t : Z) : bool :=
  let q := SFdiv 53 1024 (spec_of_Z c) (spec_of_Z t) in
  Qeq_bool (div (inject_Z c) (inject_Z t)) (of_spec q)
  && Qeq_bool (mul (div (inject_Z c) (inject_Z t)) 100)
              (of_spec (SFmul 53 1024 q (spec_of_Z 100))).

End JsNumber.

(* ================================================================= *)
(** ** [ReportsScreen] ([src/screens/ReportsScreen.tsx])

    The counters of the day, the week and the month depend on the local
    calendar and are left out. *)

Module Stats.
Record t : Type := mk { total : Z; completed : Z; active : Z }.
End Stats.

Module ReportsScreen.

Definition is_completed (t : Task.t) : bool :=
  TaskStatus_eqb (Task.status t) completed.

Definition is_active (t : Task.t) : bool :=
  TaskStatus_eqb (Task.status t) upcoming || TaskStatus_eqb (Task.status t) overdue.

Definition stats (tasks : list Task.t) : Stats.t :=
  Stats.mk (Z.of_nat (List.length tasks))
           (Z.of_nat (List.length (filter is_completed tasks)))
           (Z.of_nat (List.length (filter is_active tasks))).

(** [stats.total > 0 ? Math.round((stats.completed / stats.total) * 100) : 0] *)
Definition completionRate (tasks : list Task.t) : Z :=
  let s := stats tasks in
  if 0 <? Stats.total s
  then JsNumber.Math_round
         (JsNumber.mul (JsNumber.div (inject_Z (Stats.completed s))
                                     (inject_Z (Stats.total s)))
                       100)
  else 0.

End ReportsScreen.

(* ================================================================= *)
(** ** Calendar days ([date-fns])

    The functions of [date-fns] that compare calendar days work in the time
    zone of the device.  [dayOf] numbers the local days: two instants are on
    the same day when [dayOf] agrees on them, and the day after day [n] is
    day [n + 1]. *)

Section Calendar.

Variable dayOf : Z -> Z.

Definition isSameDay (dateLeft dateRight : Z) : bool :=
  dayOf dateLeft =? dayOf dateRight.

(** [isToday(date)], evaluated at the instant [now]. *)
Definition isToday (now date : Z) : bool := isSameDay date now.

(** [isTomorrow(date)], evaluated at the instant [now]. *)
Definition isTomorrow (now date : Z) : bool := dayOf date =? dayOf now + 1.

End Calendar.

(** [isPast(date)], evaluated at the instant [now]. *)
Definition isPast (now date : Z) : bool := date <? now.

(** [task.due_date && p(new Date(task.due_date))] *)
Definition due (p : Z -> bool) (task : Task.t) : bool :=
  match Task.due_date task with
  | Some d => p d
  | None => false
  end.

(** [task.status === s] *)
Definition has_status (s : TaskStatus) (task : Task.t) : bool :=
  TaskStatus_eqb (Task.status task) s.

(* ================================================================= *)
(** ** [TaskCard] ([src/components/TaskCard.tsx]) *)

Module Badge.
Record t : Type := mk { text : string; color : string }.
End Badge.

Module TaskCard.

(** The literal [{ status: s }]. *)
Definition status_update (s : TaskStatus) : TaskUpdates.t :=
  TaskUpdates.mk None None None (Some s) None None None None None None None None.

Definition handleStatusChange (task : Task.t) : Prog unit :=
  updateTask (Task.id task)
             (status_update (if has_status completed task then upcoming
                             else completed)).

Definition handleDelete (task : Task.t) : Prog unit := deleteTask (Task.id task).

Definition isCompleted (task : Task.t) : bool := has_status completed task.
Definition isCanceled (task : Task.t) : bool := has_status canceled task.

(** A press on the [Checkbox] of the card: [onPress={handleStatusChange}]
    under [disabled={isCanceled}], so that the press of a disabled checkbox
    runs nothing. *)
Definition pressCheckbox (task : Task.t) : Prog unit :=
  if isCanceled task then ret tt else handleStatusChange task.

Definition getStatusBadge (dayOf : Z -> Z) (now : Z) (task : Task.t)
  : option Badge.t :=
  if isCompleted task then None
  else if isCanceled task then Some (Badge.mk "CANCELED" "#6b7280")
  else
    match Task.due_date task with
    | Some dueDate =>
        if isPast now dueDate && negb (isToday dayOf now dueDate)
           && has_status upcoming task
        then Some (Badge.mk "OVERDUE" "#ef4444")
        else Some (Badge.mk "UPCOMING" "#3b82f6")
    | None => Some (Badge.mk "UPCOMING" "#3b82f6")
    end.

End TaskCard.

(* ================================================================= *)
(** ** [HomeScreen] ([src/screens/HomeScreen.tsx]) *)

Module HomeStats.
Record t : Type := mk {
  total : Z;
  today : Z;
  overdue : Z;
  completed : Z;
  tomorrow : Z
}.
End HomeStats.

(** [TopCategory]: a category and its number of open tasks. *)
Module TopCategory.
Record t : Type := mk { category : Category.t; count : Z }.
End TopCategory.

Module HomeScreen.

(** [task.status === "upcoming" || task.status === "overdue"] *)
Definition open (task : Task.t) : bool :=
  has_status upcoming task || has_status overdue task.

Definition count_of (p : Task.t -> bool) (tasks : list Task.t) : Z :=
  Z.of_nat (List.length (filter p tasks)).

Definition stats (dayOf : Z -> Z) (now : Z) (tasks : list Task.t) : HomeStats.t :=
  HomeStats.mk
    (count_of open tasks)
    (count_of (fun task => open task && due (isToday dayOf now) task) tasks)
    (count_of (fun task =>
                 has_status upcoming task
                 && due (fun d => isPast now d && negb (isToday dayOf now d)) task)
              tasks)
    (count_of (has_status completed) tasks)
    (count_of (fun task => open task && due (isTomorrow dayOf now) task) tasks).

(** [categories.map(...).filter((cat) => cat.count > 0)
      .sort((a, b) => b.count - a.count).slice(0, 5)] *)
Definition topCategories (tasks : list Task.t) (categories : list Category.t)
  : list TopCategory.t :=
  firstn 5
    (order_desc TopCategory.count
       (filter (fun cat => 0 <? TopCategory.count cat)
          (map (fun cat =>
                  TopCategory.mk cat
                    (count_of (fun t => String.eqb (Task.category_id t) (Category.id cat)
                                        && open t) tasks))
               categories))).

End HomeScreen.

(* ================================================================= *)
(** ** [TasksScreen] ([src/screens/TasksScreen.tsx]) *)

Module KanbanFilter.
Inductive t : Type := all | upcoming | completed | canceled.
End KanbanFilter.

Module TasksScreen.

Definition filteredTasks (dayOf : Z -> Z) (now : Z) (selectedFilter : string)
    (tasks : list Task.t) : list Task.t :=
  if String.eqb selectedFilter "completed"
  then filter (has_status completed) tasks
  else if String.eqb selectedFilter "canceled"
  then filter (has_status canceled) tasks
  else if String.eqb selectedFilter "all"
  then tasks
  else if String.eqb selectedFilter "today"
  then filter (due (isToday dayOf now)) tasks
  else if String.eqb selectedFilter "overdue"
  then filter (fun t =>
                 has_status upcoming t
                 && due (fun d => isPast now d && negb (isToday dayOf now d)) t)
              tasks
  else filter (fun t => String.eqb (Task.category_id t) selectedFilter) tasks.

(** The tasks of the day picked in the month view. *)
Definition selectedDayTasks (dayOf : Z -> Z) (selectedDay : option Z)
    (filtered : list Task.t) : list Task.t :=
  match selectedDay with
  | Some day => filter (due (fun d => isSameDay dayOf d day)) filtered
  | None => []
  end.

Definition getTitle (selectedFilter : string) (categories : list Category.t)
  : string :=
  if String.eqb selectedFilter "all" then "All Tasks"
  else if String.eqb selectedFilter "today" then "Today"
  else if String.eqb selectedFilter "completed" then "Completed"
  else if String.eqb selectedFilter "canceled" then "Canceled"
  else if String.eqb selectedFilter "overdue" then "Overdue"
  else
    match find (fun c => String.eqb (Category.id c) selectedFilter) categories with
    | Some category =>
        if truthy (Category.name category) then Category.name category
        else "My Tasks"
    | None => "My Tasks"
    end.

(** The three columns of the Kanban view: "To Do", "Completed", "Canceled". *)
Definition kanbanColumns (kanbanFilter : KanbanFilter.t) (filtered : list Task.t)
  : list Task.t * list Task.t * list Task.t :=
  let upcoming_ := filter (has_status upcoming) filtered in
  let completed_ := filter (has_status completed) filtered in
  let canceled_ := filter (has_status canceled) filtered in
  match kanbanFilter with
  | KanbanFilter.all => (upcoming_, completed_, canceled_)
  | KanbanFilter.upcoming => (upcoming_, [], [])
  | KanbanFilter.completed => ([], completed_, [])
  | KanbanFilter.canceled => ([], [], canceled_)
  end.

End TasksScreen.

(* ================================================================= *)
(** ** The category statistics of [ReportsScreen]
    ([src/screens/ReportsScreen.tsx]) *)

Module CategoryStats.
Record t : Type := mk {
  category : Category.t;
  total : Z;
  completed : Z;
  completionRate : Z
}.
End CategoryStats.

Module ReportsCategories.

Definition categoryTasks (tasks : list Task.t) (cat : Category.t) : list Task.t :=
  filter (fun t => String.eqb (Task.category_id t) (Category.id cat)) tasks.

Definition stats_of (tasks : list Task.t) (cat : Category.t) : CategoryStats.t :=
  let total := Z.of_nat (List.length (categoryTasks tasks cat)) in
  let completed :=
    Z.of_nat (List.length (filter (has_status completed) (categoryTasks tasks cat))) in
  CategoryStats.mk cat total completed
                   (if 0 <? total then JsNumber.rate completed total else 0).

(** [categories.map(...).sort((a, b) => b.total - a.total)] *)
Definition categoryStats (tasks : list Task.t) (categories : list Category.t)
  : list CategoryStats.t :=
  order_desc CategoryStats.total (map (stats_of tasks) categories).

End ReportsCategories.

(* ================================================================= *)
(** ** The task dialog, continued ([src/components/TaskDialog.tsx], final
    revision) *)

Module TaskDialogForm.

(** The effect that fills the form when the dialog is shown for [task], at
    the instant [now].  The colour of the selected category only serves the
    presentation and is left out. *)
Definition fill (now : Z) (task : option Task.t) (categories : list Category.t)
    (d : Dialog.t) : Dialog.t :=
  match task with
  | Some task =>
      Dialog.mk (Some task) (Task.title task) (or_else (Task.description task) "")
                (Task.category_id task) (Task.status task) (Task.due_date task)
                (Dialog.loading d)
                (or_else (Task.enable_notification task) true)
                (or_else (Task.notification_minutes_before task) 60)
                (TaskDialog.compute_minutesUntilDue (Task.due_date task) now)
  | None =>
      Dialog.mk None "" ""
                (match find Category.is_default categories with
                 | Some defaultCategory => Category.id defaultCategory
                 | None => Dialog.categoryId d
                 end)
                upcoming None (Dialog.loading d) true 60 None
  end.

(** Opening the dialog: the fill effect sets [dueDate], and the effect that
    adjusts the lead time, which depends on [dueDate] and [minutesUntilDue],
    runs on the form that the fill has produced. *)
Definition opened (now : Z) (task : option Task.t) (categories : list Category.t)
    (d : Dialog.t) : Dialog.t :=
  TaskDialog.autoAdjust (fill now task categories d).

(** The condition under which the section "Reminder Notification", with the
    toggle and the lead times, is rendered. *)
Definition notificationSectionShown (d : Dialog.t) (registered : bool) : bool :=
  is_some (Dialog.dueDate d) && registered
  && negb (TaskDialog.falsy_number (Dialog.minutesUntilDue d))
  && match Dialog.minutesUntilDue d with
     | Some m => 1 <? m
     | None => false
     end.

End TaskDialogForm.

(* ================================================================= *)
(** ** [CategoryManager] ([src/components/CategoryManager.tsx])

    The state of the component is threaded through its handlers. *)

Module CategoryManager.

Record State : Type := mk {
  name : string;
  selectedColor : string;
  loading : bool;
  editingId : option string;
  editName : string;
  editColor : string
}.

Definition COLORS : list string :=
  ["#3b82f6"; "#ef4444"; "#10b981"; "#f59e0b"; "#8b5cf6";
   "#ec4899"; "#14b8a6"; "#f97316"; "#06b6d4"; "#84cc16"].

Definition setLoading (b : bool) (s : State) : State :=
  mk (name s) (selectedColor s) b (editingId s) (editName s) (editColor s).

Definition resetNew (s : State) : State :=
  mk "" (hd "" COLORS) (loading s) (editingId s) (editName s) (editColor s).

Definition startEdit (category : Category.t) (s : State) : State :=
  mk (name s) (selectedColor s) (loading s) (Some (Category.id category))
     (Category.name category) (Category.color category).

Definition cancelEdit (s : State) : State :=
  mk (name s) (selectedColor s) (loading s) None "" "".

Definition handleAdd (s : State) : Prog State :=
  if negb (truthy (trim (name s))) then ret s
  else
    s' <- try_catch
            (addCategory (trim (name s)) (selectedColor s) ;;
             ret (resetNew (setLoading true s)))
            (fun _ =>
               alert "Error" "Failed to add category. Please try again." ;;
               ret (setLoading true s)) ;;
    ret (setLoading false s').

(** [error?.message || "Failed to delete category. Please try again."] *)
Definition delete_message (message : string) : string :=
  if truthy message then message
  else "Failed to delete category. Please try again.".

Definition handleDelete (id : string) (s : State) : Prog State :=
  s' <- try_catch
          (deleteCategory id ;; ret (setLoading true s))
          (fun message =>
             alert "Error" (delete_message message) ;;
             ret (setLoading true s)) ;;
  ret (setLoading false s').

(** The literal [{ name: editName.trim(), color: editColor }]. *)
Definition edited (s : State) : CategoryUpdates.t :=
  CategoryUpdates.mk None (Some (trim (editName s))) (Some (editColor s))
                     None None None.

Definition handleUpdate (id : string) (s : State) : Prog State :=
  if negb (truthy (trim (editName s))) then ret s
  else
    s' <- try_catch
            (updateCategory id (edited s) ;;
             ret (cancelEdit (setLoading true s)))
            (fun _ =>
               alert "Error" "Failed to update category. Please try again." ;;
               ret (setLoading true s)) ;;
    ret (setLoading false s').

End CategoryManager.

(* ================================================================= *)
(** ** Registering for push notifications
    ([src/services/notifications.ts], [src/contexts/NotificationsContext.tsx])

    What the device and the push service answer is given by [Push.Device]; a
    call is recorded when it is made. *)

Module Push.

Inductive PermissionStatus : Type := granted | denied | undetermined.
Inductive OS : Type := ios | android | web.

Inductive Call : Type :=
| GetPermissions
| RequestPermissions
| SetNotificationChannel
| GetExpoPushToken
| SavePushToken (userId token : string).

(** An answer of [None] is a promise that rejects. *)
Record Device : Type := mk {
  isDevice : bool;
  platform : OS;
  getPermissionsAsync : option PermissionStatus;
  requestPermissionsAsync : option PermissionStatus;
  setNotificationChannelAsync : option unit;
  getExpoPushTokenAsync : option string
}.

Definition is_granted (s : PermissionStatus) : bool :=
  match s with granted => true | _ => false end.

Definition is_android (p : OS) : bool :=
  match p with android => true | _ => false end.

(** [NotificationsService.registerForPushNotifications]: the token or [null],
    and the calls made. *)
Definition registerForPushNotifications (dev : Device) : option string * list Call :=
  if negb (isDevice dev) then (None, [])
  else
    match getPermissionsAsync dev with
    | None => (None, [GetPermissions])
    | Some existingStatus =>
        let asked :=
          if negb (is_granted existingStatus)
          then [GetPermissions; RequestPermissions] else [GetPermissions] in
        match (if negb (is_granted existingStatus)
               then requestPermissionsAsync dev else Some existingStatus) with
        | None => (None, asked)
        | Some finalStatus =>
            if negb (is_granted finalStatus) then (None, asked)
            else
              let channel :=
                if is_android (platform dev) then [SetNotificationChannel] else [] in
              match (if is_android (platform dev)
                     then setNotificationChannelAsync dev else Some tt) with
              | None => (None, asked ++ channel)
              | Some _ =>
                  (getExpoPushTokenAsync dev, asked ++ channel ++ [GetExpoPushToken])
              end
        end
    end.

(** The state of [NotificationsProvider] that registration writes. *)
Record State : Type := mkState {
  expoPushToken : option string;
  isRegistered : bool
}.

Definition initial : State := mkState None false.

(** The effect of [NotificationsProvider] that runs when the user changes.
    [savePushToken] catches what it throws. *)
Definition onUserChange (user : option string) (dev : Device) (s : State)
  : State * list Call :=
  match user with
  | None => (mkState None false, [])
  | Some userId =>
      match registerForPushNotifications dev with
      | (Some token, calls) =>
          if truthy token
          then (mkState (Some token) true, calls ++ [SavePushToken userId token])
          else (s, calls)
      | (None, calls) => (s, calls)
      end
  end.

End Push.

(* ================================================================= *)
(** * Vocabulary of the statements *)

(** ** Reloading *)

Definition count_defaults (u : string) (tbl : list Category.t) : nat :=
  List.length (filter (owned_default u) tbl).

Definition general_row (u : string) (tbl : list Category.t) (now : Z) : Category.t :=
  Category.mk (fresh_key (map Category.id tbl)) "General" "#3b82f6" u now true.

(** What a reload does to the remote categories: nothing when the user has
    exactly one default, one more default otherwise. *)
Definition ensured (u : string) (tbl : list Category.t) (now : Z) : list Category.t :=
  if (count_defaults u tbl =? 1)%nat then tbl else tbl ++ [general_row u tbl now].

(** The state a reload by user [u] leaves, in a reliable environment. *)
Record reloaded (u : string) (w w' : World) : Prop := mkReloaded {
  rl_tasks_tbl : tasks_tbl w' = tasks_tbl w;
  rl_categories_tbl :
    categories_tbl w' = ensured u (categories_tbl w) (clock w);
  rl_scheduled : scheduled w' = scheduled w;
  rl_faults : faults w' = [];
  rl_clock : clock w' = clock w;
  rl_user : user w' = user w;
  rl_tasks : tasks w' = tasks_of u (tasks_tbl w');
  rl_categories : categories w' = categories_of u (categories_tbl w');
  rl_loading : loading w' = false;
  rl_isRegistered : isRegistered w' = isRegistered w;
  rl_dialog : dialog w' = dialog w
}.

Definition local_state (w : World) : list Task.t * list Category.t :=
  (tasks w, categories w).

(** A step that talks to the outside without touching the provider's state
    or the session. *)
Definition remote_only {A} (p : Prog A) : Prop :=
  forall w, local_state (snd (p w)) = local_state w /\ user (snd (p w)) = user w.

(** Requests do not lengthen the schedule of faults. *)
Definition keeps_reliable {A} (p : Prog A) : Prop :=
  forall w, faults w = [] -> faults (snd (p w)) = [].

(** ** Mutations *)

(** The mutations offered by the provider. *)
Inductive Mutation : Type :=
| MAddTask (task : NewTask.t)
| MUpdateTask (id : string) (updates : TaskUpdates.t)
| MDeleteTask (id : string)
| MAddCategory (name color : string)
| MUpdateCategory (id : string) (updates : CategoryUpdates.t)
| MDeleteCategory (id : string).

Definition run_mutation (m : Mutation) : Prog unit :=
  match m with
  | MAddTask task => addTask task
  | MUpdateTask id updates => updateTask id updates
  | MDeleteTask id => deleteTask id
  | MAddCategory name color => addCategory name color
  | MUpdateCategory id updates => updateCategory id updates
  | MDeleteCategory id => deleteCategory id
  end.

(** After a reload the provider holds exactly the user's rows (reliable
    environment), or nothing when nobody is signed in. *)
Definition remote_view (w : World) : list Task.t * list Category.t :=
  match user w with
  | Some u => (tasks_of u (tasks_tbl w), categories_of u (categories_tbl w))
  | None => ([], [])
  end.

(** ** Sample data *)

Module Sample.

Definition general : Category.t :=
  Category.mk "c1" "General" "#3b82f6" "alice" 1000 true.
Definition work : Category.t :=
  Category.mk "c2" "Work" "#ef4444" "alice" 2000 false.

Definition report : Task.t :=
  Task.mk "t1" "Write report" None upcoming "c2" "alice" (Some 7200000)
          3000 3000 0 (Some 60) (Some true).
Definition groceries : Task.t :=
  Task.mk "t2" "Groceries" None completed "c1" "alice" None
          4000 4000 1 None (Some false).

Definition blank : Dialog.t :=
  Dialog.mk None "" "" "c1" upcoming None false true 60 None.

(** Alice is signed in, her rows are loaded, nothing is scheduled. *)
Definition world : World :=
  mkWorld [report; groceries] [general; work] [] [] 5000 []
          (Some "alice") [groceries; report] [general; work] false true blank.

End Sample.

(** ** Deleting a category *)

Definition by_id (id : string) (c : Category.t) : bool := String.eqb (Category.id c) id.

Definition in_category (id : string) (t : Task.t) : bool :=
  String.eqb (Task.category_id t) id.

Definition move_body (target : string) (task : Task.t) : Prog unit :=
  _ <- update_task (Task.id task) (move_to target) ;; ret tt.


Definition listed (ts : list Task.t) (t : Task.t) : bool :=
  existsb (fun t0 => String.eqb (Task.id t) (Task.id t0)) ts.


(** ** The default category *)


(** The operations of the provider that write categories. *)
Inductive CategoryOp : Type :=
| OpEnsureDefault (userId : string)
| OpAddCategory (name color : string)
| OpUpdateCategory (id : string) (updates : CategoryUpdates.t)
| OpDeleteCategory (id : string).

Definition run_category_op (op : CategoryOp) : Prog unit :=
  match op with
  | OpEnsureDefault userId => ensureDefaultCategory userId
  | OpAddCategory name color => addCategory name color
  | OpUpdateCategory id updates => updateCategory id updates
  | OpDeleteCategory id => deleteCategory id
  end.






(** An attempt to demote Alice's default category through [updateCategory]. *)
Definition demote_general : CategoryOp :=
  OpUpdateCategory "c1"
    (CategoryUpdates.mk None (Some "Main") None None None (Some false)).

(** ** Reminders and lead times *)

(** [n] is a reminder for [taskId] firing at [date]. *)
Definition reminder_at (taskId : string) (date : Z) (n : Notification.t) : Prop :=
  Notification.trigger n = DateTrigger date
  /\ Notification.data_taskId n = Some taskId
  /\ Notification.data_type n = Some "task_reminder".

Definition one_minute : NotificationOption.t := NotificationOption.mk "1 min" 1.

(** The standard options that are strictly shorter than [m] minutes. *)
Definition shorter_than (m : Z) : list NotificationOption.t :=
  filter (fun opt => NotificationOption.value opt <? m) TaskDialog.allOptions.

Definition last_option (l : list NotificationOption.t) : option NotificationOption.t :=
  nth_error l (List.length l - 1).

(** One hour was selected; the due date is moved to 45 minutes from now. *)
Definition due_in_45_minutes : Dialog.t :=
  Dialog.mk None "Call back" "" "c1" upcoming (Some 2700000) false true 60 (Some 45).

(** A title of blanks only. *)
Definition blank_title : World :=
  set_dialog (Dialog.mk None "   " "notes" "c1" upcoming (Some 7200000)
                        false true 60 (Some 120))
             Sample.world.

(** ** Submitting the dialog *)

(** The part of the world that belongs to the device and the dialog. *)
Record same_device (w w' : World) : Prop := mkSameDevice {
  sd_scheduled : scheduled w' = scheduled w;
  sd_clock : clock w' = clock w;
  sd_user : user w' = user w;
  sd_isRegistered : isRegistered w' = isRegistered w;
  sd_dialog : dialog w' = dialog w
}.

Definition keeps_scheduled {A} (p : Prog A) : Prop :=
  forall w, scheduled (snd (p w)) = scheduled w.

(** The rows that a submission of [d] writes, in a reliable environment. *)
Definition saved_rows (w : World) (d : Dialog.t) (w' : World) : Prop :=
  match Dialog.task d with
  | Some task =>
      tasks_tbl w'
      = update_tasks_where (Task.id task) (as_updates (TaskDialog.taskData d))
                           (tasks_tbl w)
  | None =>
      forall u, user w = Some u ->
        tasks_tbl w'
        = tasks_tbl w
            ++ [new_task_row (fresh_key (map Task.id (tasks_tbl w))) (clock w)
                             (as_new_task (TaskDialog.taskData d)) u
                             (Z.of_nat (List.length (tasks w)))]
  end.

Definition notification_off (t : Task.t) : Prop :=
  Task.enable_notification t = Some false
  /\ Task.notification_minutes_before t = None.

(** The toggle is on, one hour is selected, but the task was due at the
    epoch, 83 minutes ago. *)
Definition overdue_submission : World :=
  set_dialog (Dialog.mk None "Pay rent" "" "c1" upcoming (Some 0)
                        false true 60 (Some (-83)))
             (mkWorld [Sample.report; Sample.groceries]
                      [Sample.general; Sample.work] [] [] 5000000 []
                      (Some "alice") [Sample.groceries; Sample.report]
                      [Sample.general; Sample.work] false true Sample.blank).

(** ** Reconciling reminders *)

Definition for_task (taskId : string) (n : Notification.t) : bool :=
  match Notification.data_taskId n with
  | Some t => String.eqb t taskId
  | None => false
  end.

Definition reminders_for (taskId : string) (w : World) : list Notification.t :=
  filter (for_task taskId) (scheduled w).

Definition without (identifier : string) (sch : list Notification.t)
  : list Notification.t :=
  filter (fun n => negb (String.eqb (Notification.identifier n) identifier)) sch.

(** The pending requests after the cancellation loop has run over [ns]. *)
Fixpoint cancel_all (taskId : string) (ns sch : list Notification.t)
  : list Notification.t :=
  match ns with
  | [] => sch
  | n :: rest =>
      cancel_all taskId rest
                 (if for_task taskId n then without (Notification.identifier n) sch
                  else sch)
  end.

(** The world once the reminders of [taskId] have been listed and cancelled. *)
Definition cancelled (taskId : string) (w : World) : World :=
  set_trace (trace w ++ [EvGetScheduled]
                     ++ map (fun n => EvCancel (Notification.identifier n))
                            (reminders_for taskId w))
            (set_scheduled (cancel_all taskId (scheduled w) (scheduled w)) w).

(** Alice edits "Write report", for which a reminder is pending, and moves
    its due date three hours ahead. *)
Definition old_reminder : Notification.t :=
  Notification.mk "n1" "Task Reminder" "Write report" (Some "t1")
                  (Some "task_reminder") (DateTrigger 3600000).

Definition editing_report : World :=
  mkWorld [Sample.report; Sample.groceries] [Sample.general; Sample.work]
          [old_reminder] [] 5000 []
          (Some "alice") [Sample.groceries; Sample.report]
          [Sample.general; Sample.work] false true
          (Dialog.mk (Some Sample.report) "Write report" "" "c2" upcoming
                     (Some 10800000) false true 60 (Some 179)).

(** ** Completion analytics *)

(** The number of tasks of a status, by recursion on the list. *)
Fixpoint count_status (s : TaskStatus) (tasks : list Task.t) : nat :=
  match tasks with
  | [] => 0%nat
  | t :: rest =>
      ((if TaskStatus_eqb (Task.status t) s then 1 else 0) + count_status s rest)%nat
  end.

(** The completion rate as the specification words it:
    [round (100 * completed / total)] on the exact quotient, [0] for no task. *)
Definition specified_rate (tasks : list Task.t) : Z :=
  let s := ReportsScreen.stats tasks in
  if 0 <? Stats.total s
  then JsNumber.Math_round
         (inject_Z (100 * Stats.completed s) / inject_Z (Stats.total s))%Q
  else 0.

(** [100 * c / t] lies exactly half way between two integers. *)
Definition half_way (c t : Z) : Prop := (200 * c + t) mod (2 * t) = 0.

Definition done_task : Task.t :=
  Task.mk "d" "done" None completed "c1" "alice" None 0 0 0 None None.

Definition open_task : Task.t :=
  Task.mk "o" "open" None upcoming "c1" "alice" None 0 0 0 None None.

(** Forty tasks, twenty-three of them completed: 57.5 per cent. *)
Definition twenty_three_of_forty : list Task.t :=
  repeat done_task 23 ++ repeat open_task 17.

(** ** Screens *)

(** The calendar days of UTC. *)
Definition utc_day (t : Z) : Z := t / 86400000.

(** The row [t] with another status. *)
Definition with_status (s : TaskStatus) (t : Task.t) : Task.t :=
  Task.mk (Task.id t) (Task.title t) (Task.description t) s (Task.category_id t)
          (Task.user_id t) (Task.due_date t) (Task.created_at t) (Task.updated_at t)
          (Task.order_index t) (Task.notification_minutes_before t)
          (Task.enable_notification t).

(** The status that a tap on the checkbox of a card asks for. *)
Definition tapped (s : TaskStatus) : TaskStatus :=
  if TaskStatus_eqb s completed then upcoming else completed.

Definition overdue_badge : Badge.t := Badge.mk "OVERDUE" "#ef4444".
Definition upcoming_badge : Badge.t := Badge.mk "UPCOMING" "#3b82f6".

(** Keys in descending order. *)
Fixpoint descending {A} (key : A -> Z) (l : list A) : Prop :=
  match l with
  | [] => True
  | x :: rest => (forall y, In y rest -> key y <= key x) /\ descending key rest
  end.

(** The open tasks of a category. *)
Definition open_in (tasks : list Task.t) (cat : Category.t) : list Task.t :=
  filter (fun t => String.eqb (Task.category_id t) (Category.id cat)
                   && HomeScreen.open t) tasks.

(** A task that was completed today, and one that is a day late. *)
Definition done_today : Task.t :=
  Task.mk "t3" "Call Bob" None completed "c1" "alice" (Some 90000000)
          1000 2000 2 None None.

Definition late_task : Task.t :=
  Task.mk "t4" "Pay rent" None overdue "c1" "alice" (Some 1000)
          1000 2000 3 None None.

(** ** Failing requests *)

(** The first coming request fails, the second does not. *)
Definition fails_once (w : World) : Prop :=
  exists fs, faults w = true :: fs /\ hd false fs = false.

(** The reminders and the rows are as in [Sample.world]; "Write report" is in
    the category "Work", and the first coming request fails. *)
Definition flaky_world : World := set_faults [true] Sample.world.

(** Alice has two default categories. *)
Definition second_general : Category.t :=
  Category.mk "c9" "General" "#3b82f6" "alice" 1500 true.

Definition two_defaults : World :=
  set_categories_tbl [Sample.general; Sample.work; second_general] Sample.world.

(** The rows of a user, in the order of the table. *)
Definition rows_of (u : string) (tbl : list Task.t) : list Task.t :=
  filter (fun t => String.eqb (Task.user_id t) u) tbl.

(** ** The task dialog, continued *)

(** A new task that is due 90 seconds from now; the form has its initial
    settings (toggle on, one hour). *)
Definition due_in_one_minute : World :=
  set_dialog (Dialog.mk None "Take the cake out" "" "c1" upcoming (Some 95000)
                        false true 60 (Some 1))
             Sample.world.

(** The alert of the validation of [handleSubmit]. *)
Definition invalid_notification_alert (d : Dialog.t) : Event :=
  EvAlert "Invalid Notification" (TaskDialog.invalid_notification_message d).

Definition save_failed_alert : Event :=
  EvAlert "Error" "Failed to save task. Please try again.".

(** Alice creates "Book flights", due in three hours, with a reminder one
    hour before. *)
Definition creating_with_reminder : World :=
  set_dialog (Dialog.mk None "Book flights" "" "c1" upcoming (Some 10800000)
                        false true 60 (Some 179))
             Sample.world.

(** Alice has cleared the due date of "Write report". *)
Definition clearing_due_date : World :=
  set_dialog (Dialog.mk (Some Sample.report) "Write report" "" "c2" upcoming None
                        false true 60 None)
             Sample.world.

(** The validation of [handleSubmit] lets the form through. *)
Definition passes_validation (d : Dialog.t) : Prop :=
  Dialog.enableNotification d && is_some (Dialog.dueDate d)
  && negb (TaskDialog.isOverdue d) && negb (TaskDialog.isNotificationValid d)
  = false.

(** Alice saves "Write report" with a new due date while the service is
    unreachable. *)
Definition saving_offline : World := set_faults [true] editing_report.

(** Alice moves the due date of "Write report" to three hours from now and
    keeps the reminder one hour before; no reminder is pending. *)
Definition moving_due_date : World :=
  set_dialog (Dialog.mk (Some Sample.report) "Write report" "" "c2" upcoming
                        (Some 10805000) false true 60 (Some 180))
             Sample.world.

(** The device is not registered for notifications. *)
Definition unregistered_device : World :=
  mkWorld [Sample.report; Sample.groceries] [Sample.general; Sample.work] [] []
          5000 [] (Some "alice") [Sample.groceries; Sample.report]
          [Sample.general; Sample.work] false false (dialog moving_due_date).

(** ** Categories and registration *)

(** The category [c] renamed and recoloured. *)
Definition renamed (name color : string) (c : Category.t) : Category.t :=
  Category.mk (Category.id c) name color (Category.user_id c)
              (Category.created_at c) (Category.is_default c).

(** The form of the category manager while "Work" is edited. *)
Definition editing_work : CategoryManager.State :=
  CategoryManager.mk "" "#3b82f6" false (Some "c2") "  Office " "#10b981".

Definition idle_manager : CategoryManager.State :=
  CategoryManager.mk "" "#3b82f6" false None "" "".

(** A phone on which the permission is granted but the push service refuses
    to issue a token (as in Expo Go on Android). *)
Definition expo_go : Push.Device :=
  Push.mk true Push.android (Some Push.granted) None (Some tt) None.

(** An iPhone that asks for the permission and gets it. *)
Definition iphone : Push.Device :=
  Push.mk true Push.ios (Some Push.undetermined) (Some Push.granted) (Some tt)
          (Some "ExponentPushToken[abc]").





(* ================================================================= *)
(** * Properties *)

(** ** Lists and keys *)

Lemma TaskStatus_eqb_eq (a b : TaskStatus) : TaskStatus_eqb a b = true <-> a = b.
Proof. destruct a, b; simpl; split; intros H; congruence. Qed.

Lemma length_filter_app {A} (p : A -> bool) (l : list A) (x : A) :
  List.length (filter p (l ++ [x]))
  = (List.length (filter p l) + (if p x then 1 else 0))%nat.
Proof.
  rewrite filter_app, length_app. simpl. destruct (p x); reflexivity.
Qed.

Lemma filter_map_same {A} (p : A -> bool) (f : A -> A) (l : list A) :
  (forall x, p (f x) = p x) -> List.length (filter p (map f l)) = List.length (filter p l).
Proof.
  intros H. induction l as [|a l IH]; simpl; [reflexivity|].
  rewrite H. destruct (p a); simpl; congruence.
Qed.


Lemma In_insert_desc {A} (key : A -> Z) (x y : A) (l : list A) :
  In y (insert_desc key x l) <-> y = x \/ In y l.
Proof.
  induction l as [|a l IH]; simpl.
  - intuition.
  - destruct (key a <=? key x); simpl; rewrite ?IH; intuition.
Qed.

Lemma In_order_desc {A} (key : A -> Z) (y : A) (l : list A) :
  In y (order_desc key l) <-> In y l.
Proof.
  induction l as [|a l IH]; simpl; [tauto|].
  rewrite In_insert_desc, IH. intuition.
Qed.

Lemma In_categories_of (u : string) (c : Category.t) (tbl : list Category.t) :
  In c (categories_of u tbl) <-> In c tbl /\ Category.user_id c = u.
Proof.
  unfold categories_of. rewrite In_order_desc, filter_In, String.eqb_eq. tauto.
Qed.

Lemma In_tasks_of (u : string) (t : Task.t) (tbl : list Task.t) :
  In t (tasks_of u tbl) <-> In t tbl /\ Task.user_id t = u.
Proof.
  unfold tasks_of. rewrite In_order_desc, filter_In, String.eqb_eq. tauto.
Qed.

Lemma length_append (s1 s2 : string) :
  String.length (s1 ++ s2)%string = (String.length s1 + String.length s2)%nat.
Proof. induction s1 as [|c s1 IH]; simpl; [reflexivity | now rewrite IH]. Qed.

Lemma fresh_key_nonempty (used : list string) :
  (0 < String.length (fresh_key used))%nat.
Proof.
  induction used as [|a used IH]; simpl; [lia|]. rewrite length_append. lia.
Qed.

(** A fresh key is longer than every key in use. *)
Lemma fresh_key_longer (used : list string) (s : string) :
  In s used -> (String.length s < String.length (fresh_key used))%nat.
Proof.
  induction used as [|a used IH]; simpl; [tauto|].
  intros [->|H]; rewrite length_append.
  - pose proof (fresh_key_nonempty used). lia.
  - specialize (IH H). lia.
Qed.

Lemma fresh_key_fresh (used : list string) : ~ In (fresh_key used) used.
Proof.
  intros H. apply fresh_key_longer in H. lia.
Qed.


(** ** A reliable environment *)

Lemma external_reliable {A} (e : Event) (failed : A) (apply : World -> A * World)
    (w : World) :
  faults w = [] -> external e failed apply w = apply (emit e w).
Proof.
  intros H. unfold external. simpl. rewrite H. reflexivity.
Qed.

Lemma maybeSingle_data {A} (rows : list A) :
  data (maybeSingle rows) = match rows with [r] => Some r | _ => None end.
Proof. destruct rows as [|a [|b rows]]; reflexivity. Qed.

Lemma maybeSingle_some {A} (rows : list A) :
  is_some (data (maybeSingle rows)) = (List.length rows =? 1)%nat.
Proof. destruct rows as [|a [|b rows]]; reflexivity. Qed.

Ltac run_prog :=
  unfold refreshData, loadData, ensureDefaultCategory, select_default_category,
    select_categories, select_tasks, insert_category, insert_task, update_task,
    delete_task, update_category, delete_category, throw_on_error,
    await, await_or_throw, external, try_catch, try_finally, bind, get, modify,
    ret, throw, emit;
  simpl.

Lemma loadData_reliable (w : World) (u : string) :
  faults w = [] -> user w = Some u ->
  exists w', loadData w = (Returned tt, w') /\ reloaded u w w'.
Proof.
  destruct w as [rt rc sch fl ck tr us ts cs ld reg dl]; simpl.
  intros -> ->. run_prog.
  pose proof (maybeSingle_some (filter (owned_default u) rc)) as Hs.
  destruct (maybeSingle (filter (owned_default u) rc)) as [d e]; simpl in *.
  destruct d as [c|]; simpl in *; eexists; split; try reflexivity;
    constructor; simpl; try reflexivity;
    unfold ensured, count_defaults; rewrite <- Hs; reflexivity.
Qed.

Lemma loadData_signed_out (w : World) :
  user w = None ->
  loadData w
  = (Returned tt, set_loading false (set_categories [] (set_tasks [] w))).
Proof.
  intros H. unfold loadData, bind, get, modify. rewrite H. reflexivity.
Qed.

(** ** Local state is only written by a reload *)

Lemma remote_only_await {A} (e : Event) (failed : A) (apply : World -> A * World) :
  (forall w, local_state (snd (apply w)) = local_state w
             /\ user (snd (apply w)) = user w) ->
  remote_only (await e failed apply).
Proof.
  intros H w. unfold await, external.
  destruct w as [rt rc sch fl ck tr us ts cs ld reg dl]; simpl.
  destruct fl as [|[|] fl]; simpl.
  - match goal with |- context [apply ?x] =>
      destruct (H x) as [H1 H2]; destruct (apply x); simpl in *; auto end.
  - auto.
  - match goal with |- context [apply ?x] =>
      destruct (H x) as [H1 H2]; destruct (apply x); simpl in *; auto end.
Qed.

Lemma remote_only_insert_task b task u n : remote_only (insert_task b task u n).
Proof. apply remote_only_await. intros w; simpl; auto. Qed.

Lemma remote_only_update_task id u : remote_only (update_task id u).
Proof. apply remote_only_await. intros w; simpl; auto. Qed.

Lemma remote_only_delete_task id : remote_only (delete_task id).
Proof. apply remote_only_await. intros w; simpl; auto. Qed.

Lemma remote_only_insert_category b n c u d : remote_only (insert_category b n c u d).
Proof. apply remote_only_await. intros w; simpl; auto. Qed.

Lemma remote_only_update_category id u : remote_only (update_category id u).
Proof. apply remote_only_await. intros w; simpl; auto. Qed.

Lemma remote_only_delete_category id : remote_only (delete_category id).
Proof. apply remote_only_await. intros w; simpl; auto. Qed.

Lemma remote_only_bind {A B} (m : Prog A) (k : A -> Prog B) :
  remote_only m -> (forall a, remote_only (k a)) -> remote_only (bind m k).
Proof.
  intros Hm Hk w. unfold bind. specialize (Hm w).
  destruct (m w) as [[a|e] w1]; simpl in *.
  - destruct (Hk a w1) as [H1 H2]. destruct Hm as [H3 H4]. split; congruence.
  - exact Hm.
Qed.

Lemma remote_only_ret {A} (a : A) : remote_only (ret a).
Proof. intros w; simpl; auto. Qed.

Lemma remote_only_throw {A} (e : string) : remote_only (@throw A e).
Proof. intros w; simpl; auto. Qed.

Lemma remote_only_throw_on_error {A} (r : Response A) : remote_only (throw_on_error r).
Proof.
  unfold throw_on_error. destruct (error r);
    [apply remote_only_throw | apply remote_only_ret].
Qed.

Lemma remote_only_for_of {A} (xs : list A) (body : A -> Prog unit) :
  (forall x, remote_only (body x)) -> remote_only (for_of xs body).
Proof.
  intros H. induction xs as [|x xs IH]; simpl.
  - apply remote_only_ret.
  - apply remote_only_bind; auto.
Qed.

(** A program that is a remote-only step followed by [refreshData]. *)
Lemma ends_with_refresh {A} (step : Prog A) (w w' : World) :
  remote_only step ->
  bind step (fun _ => refreshData) w = (Returned tt, w') ->
  exists w1, local_state w1 = local_state w /\ user w1 = user w
             /\ refreshData w1 = (Returned tt, w').
Proof.
  intros Hs H. unfold bind in H. specialize (Hs w).
  destruct (step w) as [[a|e] w1]; simpl in *; [|discriminate].
  exists w1. tauto.
Qed.

Lemma checked_request {A B} (prim : Prog (Response A)) (tail : Response A -> Prog B)
    (w w' : World) (o : B) :
  remote_only prim ->
  bind prim (fun r => bind (throw_on_error r) (fun _ => tail r)) w = (Returned o, w') ->
  exists w1 r, local_state w1 = local_state w /\ user w1 = user w
               /\ error r = None /\ prim w = (Returned r, w1)
               /\ tail r w1 = (Returned o, w').
Proof.
  intros Hp H. unfold bind in H. specialize (Hp w).
  destruct (prim w) as [[r|e] w1]; simpl in *; [|discriminate].
  unfold throw_on_error in H. destruct (error r) eqn:E; simpl in H; [discriminate|].
  exists w1, r. tauto.
Qed.

Lemma keeps_reliable_await {A} (e : Event) (failed : A) (apply : World -> A * World) :
  (forall w, faults (snd (apply w)) = faults w) -> keeps_reliable (await e failed apply).
Proof.
  intros H w Hf. unfold await. rewrite external_reliable by exact Hf.
  specialize (H (emit e w)). destruct (apply (emit e w)); simpl in *. congruence.
Qed.

Lemma keeps_reliable_bind {A B} (m : Prog A) (k : A -> Prog B) :
  keeps_reliable m -> (forall a, keeps_reliable (k a)) -> keeps_reliable (bind m k).
Proof.
  intros Hm Hk w Hf. unfold bind. specialize (Hm w Hf).
  destruct (m w) as [[a|e] w1]; simpl in *; auto. apply Hk; auto.
Qed.

Lemma keeps_reliable_for_of {A} (xs : list A) (body : A -> Prog unit) :
  (forall x, keeps_reliable (body x)) -> keeps_reliable (for_of xs body).
Proof.
  intros H. induction xs as [|x xs IH]; simpl.
  - intros w Hf; exact Hf.
  - apply keeps_reliable_bind; auto.
Qed.

Lemma keeps_reliable_insert_task b task u n : keeps_reliable (insert_task b task u n).
Proof. apply keeps_reliable_await. reflexivity. Qed.

Lemma keeps_reliable_update_task id u : keeps_reliable (update_task id u).
Proof. apply keeps_reliable_await. reflexivity. Qed.

Lemma keeps_reliable_delete_task id : keeps_reliable (delete_task id).
Proof. apply keeps_reliable_await. reflexivity. Qed.

Lemma keeps_reliable_insert_category b n c u d :
  keeps_reliable (insert_category b n c u d).
Proof. apply keeps_reliable_await. reflexivity. Qed.

Lemma keeps_reliable_update_category id u : keeps_reliable (update_category id u).
Proof. apply keeps_reliable_await. reflexivity. Qed.

Lemma keeps_reliable_delete_category id : keeps_reliable (delete_category id).
Proof. apply keeps_reliable_await. reflexivity. Qed.

Lemma keeps_reliable_at {A} (p : Prog A) (w w1 : World) (o : Outcome A) :
  keeps_reliable p -> p w = (o, w1) -> faults w = [] -> faults w1 = [].
Proof. intros K E Hf. specialize (K w Hf). rewrite E in K. exact K. Qed.

Ltac KR :=
  first [ apply keeps_reliable_insert_task | apply keeps_reliable_update_task
        | apply keeps_reliable_delete_task | apply keeps_reliable_insert_category
        | apply keeps_reliable_update_category | apply keeps_reliable_delete_category ].

Lemma mutation_ends_with_refresh (m : Mutation) (w w' : World) :
  run_mutation m w = (Returned tt, w') ->
  exists w1, local_state w1 = local_state w /\ user w1 = user w
             /\ (faults w = [] -> faults w1 = [])
             /\ refreshData w1 = (Returned tt, w').
Proof.
  destruct m as [task|id u|id|name color|id u|id]; simpl; intros H.
  - (* addTask *)
    unfold addTask in H. unfold bind at 1, get at 1 in H.
    destruct (user w) eqn:U; [|discriminate].
    unfold bind at 1, get at 1 in H.
    apply checked_request in H; [|apply remote_only_insert_task].
    destruct H as (w1 & r & H1 & H2 & _ & P & H3).
    exists w1; repeat split; try congruence; eapply keeps_reliable_at; eauto; KR.
  - apply checked_request in H; [|apply remote_only_update_task].
    destruct H as (w1 & r & H1 & H2 & _ & P & H3).
    exists w1; repeat split; try congruence; eapply keeps_reliable_at; eauto; KR.
  - apply checked_request in H; [|apply remote_only_delete_task].
    destruct H as (w1 & r & H1 & H2 & _ & P & H3).
    exists w1; repeat split; try congruence; eapply keeps_reliable_at; eauto; KR.
  - unfold addCategory in H. unfold bind at 1, get at 1 in H.
    destruct (user w) eqn:U; [|discriminate].
    apply checked_request in H; [|apply remote_only_insert_category].
    destruct H as (w1 & r & H1 & H2 & _ & P & H3).
    exists w1; repeat split; try congruence; eapply keeps_reliable_at; eauto; KR.
  - apply checked_request in H; [|apply remote_only_update_category].
    destruct H as (w1 & r & H1 & H2 & _ & P & H3).
    exists w1; repeat split; try congruence; eapply keeps_reliable_at; eauto; KR.
  - (* deleteCategory *)
    unfold deleteCategory in H. unfold bind at 1, get at 1 in H.
    destruct (find _ (categories w)) as [category|]; [|discriminate].
    destruct (Category.is_default category); [discriminate|].
    destruct (find Category.is_default (categories w)) as [dc|]; [|discriminate].
    unfold bind at 1 2, get at 1 in H.
    match type of H with
    | (match ?p w with _ => _ end) = _ =>
        assert (L : remote_only p /\ keeps_reliable p);
        [|destruct L as [L K]; specialize (L w); specialize (K w);
          destruct (p w) as [[[]|e] w2]]
    end.
    { split.
      - apply remote_only_for_of. intros x. apply remote_only_bind.
        + apply remote_only_update_task.
        + intros; apply remote_only_ret.
      - apply keeps_reliable_for_of. intros x. apply keeps_reliable_bind.
        + apply keeps_reliable_update_task.
        + intros a w0 Hf; exact Hf. }
    2: discriminate.
    simpl in L, K. destruct L as [L1 L2].
    apply checked_request in H; [|apply remote_only_delete_category].
    destruct H as (w1 & r & H1 & H2 & _ & P & H3).
    exists w1. repeat split; try congruence.
    intros Hf. eapply keeps_reliable_at; eauto; KR.
Qed.

Lemma refreshData_view (w w' : World) :
  faults w = [] -> refreshData w = (Returned tt, w') ->
  local_state w' = remote_view w' /\ faults w' = [].
Proof.
  intros Hf H. unfold refreshData in H. destruct (user w) as [u|] eqn:U.
  - destruct (loadData_reliable w Hf U) as (w2 & E & R).
    rewrite E in H. inversion H; subst w2.
    unfold local_state, remote_view. destruct R. rewrite rl_user0, U.
    split; congruence.
  - rewrite (loadData_signed_out w U) in H. inversion H; subst.
    unfold local_state, remote_view. simpl. rewrite U. auto.
Qed.

(* ================================================================= *)
(** ** Mutations reload everything *)

(** C6.  Every successful mutation ([addTask], [updateTask], [deleteTask],
    [addCategory], [updateCategory], [deleteCategory]) leaves the provider's
    state untouched until its final [refreshData], which replaces tasks and
    categories by what the remote service returns (in a reliable environment:
    exactly the remote view); the callback of both realtime channels is the
    same full reload. *)
Theorem C6_mutations_end_with_full_reload :
  forall (w : World),
    (forall (m : Mutation) (w' : World),
        run_mutation m w = (Returned tt, w') ->
        exists w1,
          local_state w1 = local_state w
          /\ refreshData w1 = (Returned tt, w')
          /\ (faults w = [] -> local_state w' = remote_view w'))
    /\ (forall tbl, on_postgres_changes tbl w = loadData w)
    /\ refreshData w = loadData w.
Proof.
  intros w. split; [|split].
  - intros m w' H.
    destruct (mutation_ends_with_refresh m w H) as (w1 & L & _ & F & R).
    exists w1. repeat split; auto.
    intros Hf. apply (refreshData_view w1 (F Hf) R).
  - intros []; reflexivity.
  - reflexivity.
Qed.

Lemma C6_witness :
  exists w1,
    local_state w1 = local_state Sample.world
    /\ refreshData w1
       = (Returned tt, snd (run_mutation (MAddCategory "Home" "#22c55e") Sample.world))
    /\ (faults Sample.world = [] ->
        local_state (snd (run_mutation (MAddCategory "Home" "#22c55e") Sample.world))
        = remote_view (snd (run_mutation (MAddCategory "Home" "#22c55e") Sample.world))).
Proof.
  apply (proj1 (C6_mutations_end_with_full_reload Sample.world)
               (MAddCategory "Home" "#22c55e")).
  vm_compute. reflexivity.
Defined.

(* ================================================================= *)
(** ** Deleting a category *)




Lemma refreshData_reliable (w : World) :
  faults w = [] ->
  exists w', refreshData w = (Returned tt, w') /\ tasks_tbl w' = tasks_tbl w
             /\ faults w' = [].
Proof.
  intros Hf. unfold refreshData. destruct (user w) as [u|] eqn:U.
  - destruct (loadData_reliable w Hf U) as (w' & E & R). exists w'.
    destruct R. auto.
  - rewrite (loadData_signed_out w U). eexists. split; [reflexivity|]. simpl. auto.
Qed.

Lemma find_by_id_spec (id : string) (cats : list Category.t) (c : Category.t) :
  find (by_id id) cats = Some c -> In c cats /\ Category.id c = id.
Proof.
  intros H. apply find_some in H. unfold by_id in H.
  rewrite String.eqb_eq in H. exact H.
Qed.




(* ================================================================= *)
(** ** The default category *)


Lemma refreshData_categories (w : World) :
  faults w = [] ->
  exists w', refreshData w = (Returned tt, w')
             /\ categories_tbl w'
                = match user w with
                  | Some u => ensured u (categories_tbl w) (clock w)
                  | None => categories_tbl w
                  end.
Proof.
  intros Hf. unfold refreshData. destruct (user w) as [u|] eqn:U.
  - destruct (loadData_reliable w Hf U) as (w' & E & R). exists w'.
    destruct R. auto.
  - rewrite (loadData_signed_out w U). eexists. split; reflexivity.
Qed.

Lemma owned_default_general (u v : string) (tbl : list Category.t) (now : Z) :
  owned_default v (general_row u tbl now) = String.eqb u v.
Proof. unfold owned_default. simpl. apply andb_true_r. Qed.

Lemma count_ensured (u v : string) (tbl : list Category.t) (now : Z) :
  count_defaults v (ensured u tbl now)
  = if (count_defaults u tbl =? 1)%nat then count_defaults v tbl
    else (count_defaults v tbl + (if String.eqb u v then 1 else 0))%nat.
Proof.
  unfold ensured. destruct (count_defaults u tbl =? 1)%nat; [reflexivity|].
  unfold count_defaults. rewrite length_filter_app, owned_default_general.
  reflexivity.
Qed.


Lemma addCategory_reliable (name color u : string) (w : World) :
  faults w = [] -> user w = Some u ->
  let row := Category.mk (fresh_key (map Category.id (categories_tbl w)))
                         name color u (clock w) false in
  addCategory name color w
  = refreshData (set_categories_tbl (categories_tbl w ++ [row])
                                    (emit (EvInsert CategoriesTable) w)).
Proof.
  intros Hf U row. unfold addCategory. unfold bind at 1, get at 1. rewrite U.
  unfold bind at 1. unfold insert_category, await.
  rewrite external_reliable by exact Hf. reflexivity.
Qed.

Lemma updateCategory_reliable (id : string) (updates : CategoryUpdates.t) (w : World) :
  faults w = [] ->
  updateCategory id updates w
  = refreshData
      (set_categories_tbl
         (update_categories_where id (safeUpdates updates) (categories_tbl w))
         (emit (EvUpdate CategoriesTable id) w)).
Proof.
  intros Hf. unfold updateCategory. unfold bind at 1. unfold update_category, await.
  rewrite external_reliable by exact Hf. reflexivity.
Qed.


Lemma safeUpdates_keeps_counts (id : string) (updates : CategoryUpdates.t)
    (tbl : list Category.t) (v : string) :
  CategoryUpdates.user_id updates = None ->
  count_defaults v (update_categories_where id (safeUpdates updates) tbl)
  = count_defaults v tbl.
Proof.
  intros H. unfold count_defaults, update_categories_where.
  apply filter_map_same. intros c.
  destruct (String.eqb (Category.id c) id); [|reflexivity].
  unfold owned_default, apply_category_updates, safeUpdates. simpl.
  rewrite H. reflexivity.
Qed.









Example demote_general_changes_no_flag :
  map Category.is_default
      (categories_tbl (snd (run_category_op demote_general Sample.world)))
  = [true; false]
  /\ map Category.name
         (categories_tbl (snd (run_category_op demote_general Sample.world)))
     = ["Main"; "Work"].
Proof. vm_compute. split; reflexivity. Qed.

(* ================================================================= *)
(** ** Scheduling a reminder *)

(** Every outcome of [scheduleTaskNotification]. *)
Lemma scheduleTaskNotification_outcome
    (taskId taskTitle : string) (dueDate minutesBefore : Z) (w : World) :
  let triggerDate := dueDate - minutesBefore * 60000 in
  let r := NotificationsService.scheduleTaskNotification
             taskId taskTitle dueDate (Some minutesBefore) w in
  (triggerDate <= clock w -> r = (Returned None, w))
  /\ (scheduled (snd r) = scheduled w
      \/ (clock w < triggerDate
          /\ exists n, scheduled (snd r) = scheduled w ++ [n]
                       /\ reminder_at taskId triggerDate n
                       /\ fst r = Returned (Some (Notification.identifier n))))
  /\ (clock w < triggerDate -> faults w = [] ->
      exists n, scheduled (snd r) = scheduled w ++ [n]
                /\ reminder_at taskId triggerDate n
                /\ fst r = Returned (Some (Notification.identifier n)))
  /\ (exists o, fst r = Returned o).
Proof.
  destruct w as [rt rc sch fl ck tr us lt lc ld reg dl]. intros triggerDate r.
  subst r. unfold NotificationsService.scheduleTaskNotification,
    scheduleNotificationAsync, await_or_throw, external, try_catch, bind, get,
    ret, emit. simpl. fold triggerDate.
  destruct (triggerDate <=? ck) eqn:E.
  - apply Z.leb_le in E. repeat split.
    + left. reflexivity.
    + intros H. lia.
    + eexists. reflexivity.
  - apply Z.leb_gt in E. split; [intros H; lia|].
    destruct fl as [|[|] fl]; simpl; repeat split.
    + right. split; [exact E|]. eexists. repeat split.
    + intros _ _. eexists. repeat split.
    + eexists. reflexivity.
    + left. reflexivity.
    + intros _ H. discriminate.
    + eexists. reflexivity.
    + right. split; [exact E|]. eexists. repeat split.
    + intros _ H. discriminate.
    + eexists. reflexivity.
Qed.

(** C1.  [scheduleTaskNotification] computes the trigger time as the due date
    minus [minutesBefore * 60000] milliseconds.  When that time is not after
    the current time it returns [null] and does nothing at all; whatever it
    schedules is a single reminder at exactly that time, strictly in the
    future; and in a reliable environment it does schedule it. *)
Theorem C1_trigger_is_due_minus_lead_and_never_past :
  forall (taskId taskTitle : string) (dueDate minutesBefore : Z) (w : World),
    let triggerDate := dueDate - minutesBefore * 60000 in
    let r := NotificationsService.scheduleTaskNotification
               taskId taskTitle dueDate (Some minutesBefore) w in
    (triggerDate <= clock w -> r = (Returned None, w))
    /\ (scheduled (snd r) = scheduled w
        \/ (clock w < triggerDate
            /\ exists n, scheduled (snd r) = scheduled w ++ [n]
                         /\ reminder_at taskId triggerDate n
                         /\ fst r = Returned (Some (Notification.identifier n))))
    /\ (clock w < triggerDate -> faults w = [] ->
        exists n, scheduled (snd r) = scheduled w ++ [n]
                  /\ reminder_at taskId triggerDate n
                  /\ fst r = Returned (Some (Notification.identifier n))).
Proof.
  intros taskId taskTitle dueDate minutesBefore w.
  destruct (scheduleTaskNotification_outcome taskId taskTitle dueDate minutesBefore w)
    as (A & B & C & _).
  repeat split; assumption.
Qed.

Lemma C1_witness :
  NotificationsService.scheduleTaskNotification
    "t1" "Write report" 7200000 (Some 60)
    (mkWorld [] [] [] [] 3600000 [] None [] [] false true Sample.blank)
  = (Returned None,
     mkWorld [] [] [] [] 3600000 [] None [] [] false true Sample.blank).
Proof.
  apply (proj1 (C1_trigger_is_due_minus_lead_and_never_past
                  "t1" "Write report" 7200000 60
                  (mkWorld [] [] [] [] 3600000 [] None [] [] false true Sample.blank))).
  simpl. lia.
Defined.

Example reminder_one_hour_before :
  map Notification.trigger
      (scheduled
         (snd (NotificationsService.scheduleTaskNotification
                 "t1" "Write report" 7200000 (Some 60) Sample.world)))
  = [DateTrigger 3600000].
Proof. reflexivity. Qed.

(* ================================================================= *)
(** ** Lead-time options *)

Lemma validNotificationOptions_future (m : Z) :
  0 < m ->
  TaskDialog.validNotificationOptions (Some m)
  = match shorter_than m with
    | [] => [one_minute]
    | _ :: _ => shorter_than m
    end.
Proof.
  intros H. unfold TaskDialog.validNotificationOptions, TaskDialog.falsy_number.
  destruct (Z.eqb_spec m 0); [lia|]. destruct (Z.leb_spec m 0); [lia|].
  simpl orb. cbv iota. unfold or_else. fold (shorter_than m).
  destruct (shorter_than m); reflexivity.
Qed.

(** C2.  For a due date strictly in the future the options offered are the
    standard options 5, 15, 30, 60, 120, 1440 that are strictly smaller than
    [minutesUntilDue], in their order; when none qualifies the single option
    of 1 minute is offered; without a due date, or when [minutesUntilDue <= 0],
    all six standard options are offered. *)
Theorem C2_offered_lead_time_options :
  forall (minutesUntilDue : option Z),
    let offered := TaskDialog.validNotificationOptions minutesUntilDue in
    (forall m, minutesUntilDue = Some m -> 0 < m ->
               (shorter_than m <> [] -> offered = shorter_than m)
               /\ (shorter_than m = [] -> offered = [one_minute]))
    /\ (forall m, minutesUntilDue = Some m -> m <= 0 -> offered = TaskDialog.allOptions)
    /\ (minutesUntilDue = None -> offered = TaskDialog.allOptions)
    /\ map NotificationOption.value TaskDialog.allOptions = [5; 15; 30; 60; 120; 1440]
    /\ (forall now, TaskDialog.compute_minutesUntilDue None now = None).
Proof.
  intros mud offered. subst offered. repeat split.
  - subst mud. rewrite validNotificationOptions_future by assumption.
    destruct (shorter_than m); congruence.
  - subst mud. rewrite validNotificationOptions_future by assumption.
    intros ->. reflexivity.
  - intros m -> H. unfold TaskDialog.validNotificationOptions.
    destruct (Z.leb_spec m 0); [|lia]. rewrite orb_true_r. reflexivity.
  - intros ->. reflexivity.
Qed.

Lemma C2_witness :
  (shorter_than 45 <> [] ->
   TaskDialog.validNotificationOptions (Some 45) = shorter_than 45)
  /\ (shorter_than 45 = [] ->
      TaskDialog.validNotificationOptions (Some 45) = [one_minute]).
Proof.
  apply (proj1 (C2_offered_lead_time_options (Some 45)) 45).
  - reflexivity.
  - lia.
Defined.

Example options_45_minutes_ahead :
  map NotificationOption.value (TaskDialog.validNotificationOptions (Some 45))
  = [5; 15; 30].
Proof. reflexivity. Qed.

Example options_3_minutes_ahead :
  map NotificationOption.value (TaskDialog.validNotificationOptions (Some 3)) = [1].
Proof. reflexivity. Qed.

Example options_overdue :
  map NotificationOption.value (TaskDialog.validNotificationOptions (Some (-10)))
  = [5; 15; 30; 60; 120; 1440].
Proof. reflexivity. Qed.

(* ================================================================= *)
(** ** Auto-adjustment of the selected lead time *)

Ltac split_options m :=
  unfold shorter_than, TaskDialog.allOptions; simpl;
  destruct (Z.ltb_spec 5 m); destruct (Z.ltb_spec 15 m);
  destruct (Z.ltb_spec 30 m); destruct (Z.ltb_spec 60 m);
  destruct (Z.ltb_spec 120 m); destruct (Z.ltb_spec 1440 m);
  try lia; simpl.

(** The last of the offered options is the largest, and it is below [m] as
    soon as some standard option is. *)
Lemma last_offered (m : Z) :
  0 < m ->
  exists maxValid,
    last_option (TaskDialog.validNotificationOptions (Some m)) = Some maxValid
    /\ (forall opt, In opt (TaskDialog.validNotificationOptions (Some m)) ->
                    NotificationOption.value opt <= NotificationOption.value maxValid)
    /\ (5 < m -> NotificationOption.value maxValid < m).
Proof.
  intros H. rewrite validNotificationOptions_future by exact H.
  unfold last_option. split_options m;
    (eexists; split; [reflexivity|]; split;
     [intros opt Hin; simpl in Hin;
      repeat (destruct Hin as [<-|Hin]; [simpl; lia|]); destruct Hin
     | simpl; lia]).
Qed.

(** C4.  With a due date strictly in the future, a selected lead time that is
    not below [minutesUntilDue] is replaced by the value of the last, largest,
    offered option, and a smaller one is left alone; hence, when some standard
    option is strictly smaller than [minutesUntilDue] (that is, when it
    exceeds 5), the lead time after adjustment is below [minutesUntilDue] and
    [isNotificationValid] holds. *)
Theorem C4_auto_adjust_selects_largest_valid :
  forall (d : Dialog.t) (dueDate m : Z),
    Dialog.dueDate d = Some dueDate ->
    Dialog.minutesUntilDue d = Some m ->
    0 < m ->
    let d' := TaskDialog.autoAdjust d in
    (m <= Dialog.notificationMinutesBefore d ->
     exists maxValid,
       last_option (TaskDialog.validNotificationOptions (Some m)) = Some maxValid
       /\ (forall opt, In opt (TaskDialog.validNotificationOptions (Some m)) ->
                       NotificationOption.value opt <= NotificationOption.value maxValid)
       /\ d' = TaskDialog.setNotificationMinutesBefore
                 (NotificationOption.value maxValid) d)
    /\ (Dialog.notificationMinutesBefore d < m -> d' = d)
    /\ ((exists opt, In opt TaskDialog.allOptions /\ NotificationOption.value opt < m) ->
        Dialog.notificationMinutesBefore d' < m
        /\ TaskDialog.isNotificationValid d' = true).
Proof.
  intros d dueDate m Hd Hm Hpos d'.
  destruct (last_offered Hpos) as (maxValid & Hlast & Hmax & Hbelow).
  assert (Hd' : d' = if m <=? Dialog.notificationMinutesBefore d
                     then TaskDialog.setNotificationMinutesBefore
                            (NotificationOption.value maxValid) d
                     else d).
  { subst d'. unfold TaskDialog.autoAdjust. rewrite Hd, Hm.
    destruct (Z.ltb_spec 0 m); [|lia].
    destruct (m <=? Dialog.notificationMinutesBefore d); [|reflexivity].
    unfold last_option in Hlast. rewrite Hlast. reflexivity. }
  split; [|split].
  - intros Hge. exists maxValid. repeat split; auto.
    rewrite Hd'. destruct (Z.leb_spec m (Dialog.notificationMinutesBefore d)); [reflexivity|lia].
  - intros Hlt. rewrite Hd'.
    destruct (Z.leb_spec m (Dialog.notificationMinutesBefore d)); [lia|reflexivity].
  - intros (opt & Hin & Hopt).
    assert (H5 : 5 < m).
    { simpl in Hin. repeat (destruct Hin as [<-|Hin]; [simpl in Hopt; lia|]). destruct Hin. }
    assert (Hlt : Dialog.notificationMinutesBefore d' < m).
    { rewrite Hd'.
      destruct (Z.leb_spec m (Dialog.notificationMinutesBefore d)) as [Hle|Hgt].
      - simpl. apply Hbelow, H5.
      - exact Hgt. }
    split; [exact Hlt|].
    unfold TaskDialog.isNotificationValid.
    assert (Hsame : Dialog.dueDate d' = Dialog.dueDate d
                    /\ Dialog.minutesUntilDue d' = Dialog.minutesUntilDue d).
    { rewrite Hd'. destruct (m <=? Dialog.notificationMinutesBefore d); split; reflexivity. }
    destruct Hsame as [-> ->]. rewrite Hd, Hm. simpl.
    destruct (Z.eqb_spec m 0); [lia|]. simpl. apply Z.ltb_lt. exact Hlt.
Qed.

Lemma C4_witness :
  (45 <= Dialog.notificationMinutesBefore due_in_45_minutes ->
   exists maxValid,
     last_option (TaskDialog.validNotificationOptions (Some 45)) = Some maxValid
     /\ (forall opt, In opt (TaskDialog.validNotificationOptions (Some 45)) ->
                     NotificationOption.value opt <= NotificationOption.value maxValid)
     /\ TaskDialog.autoAdjust due_in_45_minutes
        = TaskDialog.setNotificationMinutesBefore
            (NotificationOption.value maxValid) due_in_45_minutes)
  /\ (Dialog.notificationMinutesBefore due_in_45_minutes < 45 ->
      TaskDialog.autoAdjust due_in_45_minutes = due_in_45_minutes)
  /\ ((exists opt, In opt TaskDialog.allOptions /\ NotificationOption.value opt < 45) ->
      Dialog.notificationMinutesBefore (TaskDialog.autoAdjust due_in_45_minutes) < 45
      /\ TaskDialog.isNotificationValid (TaskDialog.autoAdjust due_in_45_minutes) = true).
Proof.
  apply (@C4_auto_adjust_selects_largest_valid due_in_45_minutes 2700000 45).
  - reflexivity.
  - reflexivity.
  - lia.
Defined.

Example adjusted_to_30_minutes :
  Dialog.notificationMinutesBefore (TaskDialog.autoAdjust due_in_45_minutes) = 30.
Proof. reflexivity. Qed.

(* ================================================================= *)
(** ** Submitting the dialog *)

Lemma truthy_false (s : string) : truthy s = false <-> s = "".
Proof.
  unfold truthy. rewrite negb_false_iff. apply String.eqb_eq.
Qed.

Lemma truthy_true (s : string) : s <> "" -> truthy s = true.
Proof.
  intros H. destruct (truthy s) eqn:E; [reflexivity|].
  apply truthy_false in E. contradiction.
Qed.

Lemma submission_accepted (d : Dialog.t) :
  trim (Dialog.title d) <> "" -> Dialog.categoryId d <> "" ->
  negb (truthy (trim (Dialog.title d))) || negb (truthy (Dialog.categoryId d))
  = false.
Proof.
  intros Ht Hc. rewrite (truthy_true Ht), (truthy_true Hc). reflexivity.
Qed.

(** C9.  Submitting with a title that is empty once trimmed, or without a
    category, returns at once and leaves the whole world as it was: no
    request, no reminder, no alert, no dismissal, no change of state.  This
    holds for each revision of the dialog. *)
Theorem C9_submit_without_title_or_category_is_noop :
  forall (w : World),
    trim (Dialog.title (dialog w)) = "" \/ Dialog.categoryId (dialog w) = "" ->
    TaskDialog.handleSubmit w = (Returned tt, w)
    /\ TaskDialogUpdated.handleSubmit w = (Returned tt, w)
    /\ TaskDialogBasic.handleSubmit w = (Returned tt, w).
Proof.
  intros w H.
  assert (G : negb (truthy (trim (Dialog.title (dialog w))))
              || negb (truthy (Dialog.categoryId (dialog w))) = true).
  { apply orb_true_iff.
    destruct H as [H|H]; [left|right]; apply negb_true_iff, truthy_false, H. }
  unfold TaskDialog.handleSubmit, TaskDialogUpdated.handleSubmit,
    TaskDialogBasic.handleSubmit, bind, get.
  rewrite G. repeat split.
Qed.

Lemma C9_witness :
  TaskDialog.handleSubmit blank_title = (Returned tt, blank_title)
  /\ TaskDialogUpdated.handleSubmit blank_title = (Returned tt, blank_title)
  /\ TaskDialogBasic.handleSubmit blank_title = (Returned tt, blank_title).
Proof.
  apply (C9_submit_without_title_or_category_is_noop blank_title).
  left. reflexivity.
Defined.

(* ================================================================= *)
(** ** What the provider leaves alone *)

Lemma same_device_refl (w : World) : same_device w w.
Proof. constructor; reflexivity. Qed.

Lemma same_device_trans (w1 w2 w3 : World) :
  same_device w1 w2 -> same_device w2 w3 -> same_device w1 w3.
Proof. intros [] []; constructor; congruence. Qed.

Lemma refreshData_device (w : World) :
  faults w = [] ->
  exists w', refreshData w = (Returned tt, w') /\ tasks_tbl w' = tasks_tbl w
             /\ faults w' = [] /\ same_device w w'.
Proof.
  intros Hf. unfold refreshData. destruct (user w) as [u|] eqn:U.
  - destruct (loadData_reliable w Hf U) as (w' & E & R). exists w'.
    destruct R. repeat split; auto.
  - rewrite (loadData_signed_out w U). eexists. split; [reflexivity|].
    repeat split; auto.
Qed.

Lemma updateTask_reliable (id : string) (updates : TaskUpdates.t) (w : World) :
  faults w = [] ->
  exists w', updateTask id updates w = (Returned tt, w')
             /\ tasks_tbl w' = update_tasks_where id updates (tasks_tbl w)
             /\ faults w' = [] /\ same_device w w'.
Proof.
  intros Hf. unfold updateTask. unfold bind at 1. unfold update_task, await.
  rewrite external_reliable by exact Hf. unfold bind, throw_on_error, ret. simpl.
  match goal with |- context [refreshData ?x] =>
    destruct (@refreshData_device x) as (w' & E & T & F & D); [exact Hf|]
  end.
  exists w'. destruct D. repeat split; auto.
Qed.

Lemma addTask_device (task : NewTask.t) (u : string) (w : World) :
  faults w = [] -> user w = Some u ->
  let row := new_task_row (fresh_key (map Task.id (tasks_tbl w))) (clock w) task u
                          (Z.of_nat (List.length (tasks w))) in
  exists w', addTask task w = (Returned tt, w')
             /\ tasks_tbl w' = tasks_tbl w ++ [row]
             /\ faults w' = [] /\ same_device w w'.
Proof.
  intros Hf U row. unfold addTask. unfold bind at 1, get at 1. rewrite U.
  unfold bind at 1, get at 1. unfold bind at 1. unfold insert_task, await.
  rewrite external_reliable by exact Hf. unfold bind, throw_on_error, ret. simpl.
  match goal with |- context [refreshData ?x] =>
    destruct (@refreshData_device x) as (w' & E & T & F & D); [exact Hf|]
  end.
  rewrite E. exists w'. destruct D. repeat split; auto.
Qed.

(** ** Programs that schedule nothing *)

Lemma keeps_scheduled_ret {A} (a : A) : keeps_scheduled (ret a).
Proof. intros w; reflexivity. Qed.

Lemma keeps_scheduled_throw {A} (e : string) : keeps_scheduled (@throw A e).
Proof. intros w; reflexivity. Qed.

Lemma keeps_scheduled_get {A} (f : World -> A) : keeps_scheduled (get f).
Proof. intros w; reflexivity. Qed.

Lemma keeps_scheduled_modify (f : World -> World) :
  (forall w, scheduled (f w) = scheduled w) -> keeps_scheduled (modify f).
Proof. intros H w; apply H. Qed.

Lemma keeps_scheduled_bind {A B} (m : Prog A) (k : A -> Prog B) :
  keeps_scheduled m -> (forall a, keeps_scheduled (k a)) -> keeps_scheduled (bind m k).
Proof.
  intros Hm Hk w. unfold bind. specialize (Hm w).
  destruct (m w) as [[a|e] w1]; simpl in *; [|exact Hm].
  rewrite (Hk a w1). exact Hm.
Qed.

Lemma keeps_scheduled_try_catch {A} (body : Prog A) (handler : string -> Prog A) :
  keeps_scheduled body -> (forall e, keeps_scheduled (handler e)) ->
  keeps_scheduled (try_catch body handler).
Proof.
  intros Hb Hh w. unfold try_catch. specialize (Hb w).
  destruct (body w) as [[a|e] w1]; simpl in *; [exact Hb|].
  rewrite (Hh e w1). exact Hb.
Qed.

Lemma keeps_scheduled_try_finally {A} (body : Prog A) (fin : World -> World) :
  keeps_scheduled body -> (forall w, scheduled (fin w) = scheduled w) ->
  keeps_scheduled (try_finally body fin).
Proof.
  intros Hb Hf w. unfold try_finally. specialize (Hb w).
  destruct (body w) as [o w1]; simpl in *. rewrite Hf. exact Hb.
Qed.

Lemma keeps_scheduled_await {A} (e : Event) (failed : A) (apply : World -> A * World) :
  (forall w, scheduled (snd (apply w)) = scheduled w) ->
  keeps_scheduled (await e failed apply).
Proof.
  intros H w. unfold await, external.
  destruct w as [rt rc sch fl ck tr us lt lc ld reg dl]; simpl.
  destruct fl as [|[|] fl]; simpl; auto;
    match goal with |- context [apply ?x] =>
      specialize (H x); destruct (apply x); simpl in *; exact H end.
Qed.

Ltac no_schedule :=
  repeat first
    [ apply keeps_scheduled_ret | apply keeps_scheduled_throw
    | apply keeps_scheduled_get
    | apply keeps_scheduled_modify; intros; reflexivity
    | apply keeps_scheduled_await; intros; reflexivity
    | apply keeps_scheduled_try_finally; [|intros; reflexivity]
    | apply keeps_scheduled_try_catch
    | apply keeps_scheduled_bind
    | match goal with |- forall _, _ => intro end
    | match goal with
      | |- keeps_scheduled (match ?x with _ => _ end) => destruct x
      | |- keeps_scheduled (if ?x then _ else _) => destruct x
      end ].

Lemma keeps_scheduled_loadData : keeps_scheduled loadData.
Proof.
  unfold loadData, ensureDefaultCategory, select_default_category,
    select_categories, select_tasks, insert_category. no_schedule.
Qed.

Lemma keeps_scheduled_updateTask id updates : keeps_scheduled (updateTask id updates).
Proof.
  unfold updateTask, update_task, throw_on_error, refreshData.
  no_schedule; apply keeps_scheduled_loadData.
Qed.

Lemma keeps_scheduled_addTask task : keeps_scheduled (addTask task).
Proof.
  unfold addTask, insert_task, throw_on_error, refreshData.
  no_schedule; apply keeps_scheduled_loadData.
Qed.

(* ================================================================= *)
(** ** Submitting a task that is already due *)

Lemma remind_overdue (d : Dialog.t) (registered : bool) (savedTask : option Task.t)
    (m : Z) :
  Dialog.minutesUntilDue d = Some m -> m <= 0 ->
  keeps_scheduled (TaskDialog.remind d registered savedTask).
Proof.
  intros Hm Hle. unfold TaskDialog.remind. rewrite Hm.
  destruct (Z.ltb_spec 0 m); [lia|].
  destruct (Dialog.enableNotification d && registered); [|no_schedule].
  destruct (Dialog.dueDate d); [|no_schedule].
  destruct savedTask; [|no_schedule].
  rewrite andb_false_r. no_schedule.
Qed.

Lemma remind_overdue_saved (d : Dialog.t) (registered : bool) (savedTask : Task.t)
    (m : Z) (w : World) :
  Dialog.minutesUntilDue d = Some m -> m <= 0 ->
  TaskDialog.remind d registered (Some savedTask) w = (Returned tt, w).
Proof.
  intros Hm Hle. unfold TaskDialog.remind. rewrite Hm.
  destruct (Z.ltb_spec 0 m); [lia|].
  destruct (Dialog.enableNotification d && registered), (Dialog.dueDate d);
    try reflexivity.
  rewrite andb_false_r. reflexivity.
Qed.

Lemma keeps_scheduled_save (d : Dialog.t) : keeps_scheduled (TaskDialog.save d).
Proof.
  unfold TaskDialog.save. destruct (Dialog.task d).
  - apply keeps_scheduled_bind;
      [apply keeps_scheduled_updateTask | intros; apply keeps_scheduled_ret].
  - apply keeps_scheduled_bind;
      [apply keeps_scheduled_addTask | intros; apply keeps_scheduled_ret].
Qed.

Lemma remind_unsaved (d : Dialog.t) (registered : bool) (w : World) :
  TaskDialog.remind d registered None w = (Returned tt, w)
  \/ exists e, TaskDialog.remind d registered None w = (Thrown e, w).
Proof.
  unfold TaskDialog.remind.
  destruct (Dialog.enableNotification d && registered), (Dialog.dueDate d);
    try (left; reflexivity).
  right. eexists. reflexivity.
Qed.

Lemma overdue_taskData (d : Dialog.t) (m : Z) :
  Dialog.minutesUntilDue d = Some m -> m <= 0 ->
  TaskData.enable_notification (TaskDialog.taskData d) = Value false
  /\ TaskData.notification_minutes_before (TaskDialog.taskData d) = Null.
Proof.
  intros Hm Hle. unfold TaskDialog.taskData, TaskDialog.isOverdue. rewrite Hm. simpl.
  destruct (Z.leb_spec m 0); [|lia]. simpl. rewrite andb_false_r. auto.
Qed.

(** C10.  When the dialog is submitted with a due date already past
    ([minutesUntilDue <= 0]), the record that is saved has
    [enable_notification = false] and [notification_minutes_before = null]
    whatever the toggle and the selected lead time are, be it an edited row
    or a created one, and the submission schedules no reminder. *)
Theorem C10_overdue_submission_disables_reminder :
  forall (w : World) (m : Z),
    let d := dialog w in
    Dialog.minutesUntilDue d = Some m ->
    m <= 0 ->
    TaskData.enable_notification (TaskDialog.taskData d) = Value false
    /\ TaskData.notification_minutes_before (TaskDialog.taskData d) = Null
    /\ (forall t, notification_off
                    (apply_task_updates (as_updates (TaskDialog.taskData d)) t))
    /\ (forall key now u n,
           notification_off
             (new_task_row key now (as_new_task (TaskDialog.taskData d)) u n))
    /\ scheduled (snd (TaskDialog.handleSubmit w)) = scheduled w
    /\ (faults w = [] ->
        trim (Dialog.title d) <> "" -> Dialog.categoryId d <> "" ->
        saved_rows w d (snd (TaskDialog.handleSubmit w))).
Proof.
  intros w m d Hm Hle.
  destruct (overdue_taskData d Hm Hle) as [He Hn].
  split; [exact He|]. split; [exact Hn|].
  split; [|split; [|split]].
  - intros t. unfold notification_off, apply_task_updates, as_updates.
    cbn [Task.enable_notification Task.notification_minutes_before
         TaskUpdates.enable_notification TaskUpdates.notification_minutes_before].
    rewrite He, Hn. auto.
  - intros key now u n. unfold notification_off, new_task_row, as_new_task.
    cbn [Task.enable_notification Task.notification_minutes_before
         NewTask.enable_notification NewTask.notification_minutes_before].
    rewrite He, Hn. auto.
  - unfold TaskDialog.handleSubmit. unfold bind at 1 2 3, get at 1 2 3. fold d.
    generalize (categories w) (isRegistered w). intros cats registered.
    destruct (negb (truthy (trim (Dialog.title d)))
              || negb (truthy (Dialog.categoryId d))); [reflexivity|].
    destruct (Dialog.enableNotification d && is_some (Dialog.dueDate d)
              && negb (TaskDialog.isOverdue d)
              && negb (TaskDialog.isNotificationValid d)); [reflexivity|].
    clearbody d.
    match goal with |- scheduled (snd (?p w)) = _ =>
      assert (K : keeps_scheduled p); [|apply K] end.
    no_schedule.
    + apply keeps_scheduled_save.
    + eapply remind_overdue; eauto.
  - intros Hf Ht Hc.
    unfold TaskDialog.handleSubmit. unfold bind at 1 2 3, get at 1 2 3. fold d.
    assert (G : negb (truthy (trim (Dialog.title d)))
                || negb (truthy (Dialog.categoryId d)) = false)
      by (apply submission_accepted; assumption).
    rewrite G.
    assert (O : TaskDialog.isOverdue d = true).
    { unfold TaskDialog.isOverdue. rewrite Hm. apply Z.leb_le, Hle. }
    rewrite O. cbn [negb]. rewrite andb_false_r. cbn [andb].
    unfold try_finally, try_catch. unfold bind at 1. unfold modify at 1.
    cbv beta iota. unfold bind at 1.
    assert (Hf1 : faults (setLoading true w) = []) by exact Hf.
    unfold saved_rows, TaskDialog.save. destruct (Dialog.task d) as [task|] eqn:T.
    + destruct (updateTask_reliable (Task.id task)
                  (as_updates (TaskDialog.taskData d)) (setLoading true w) Hf1)
        as (w2 & E & Tb & F2 & D).
      unfold bind at 1. rewrite E. unfold ret at 1. cbv beta iota.
      unfold bind at 1. rewrite (@remind_overdue_saved d _ _ m _ Hm Hle).
      unfold bind, onDismiss, modify. simpl. exact Tb.
    + intros u U.
      destruct (@addTask_device (as_new_task (TaskDialog.taskData d))
                  u (setLoading true w) Hf1 U) as (w2 & E & Tb & F2 & D).
      unfold bind at 1. rewrite E. unfold ret at 1. cbv beta iota.
      unfold bind at 1.
      destruct (remind_unsaved d (isRegistered w) w2) as [R|[e R]]; rewrite R.
      * unfold bind, onDismiss, modify. simpl. exact Tb.
      * unfold alert, emit. simpl. exact Tb.
Qed.

Lemma C10_witness :
  TaskData.enable_notification (TaskDialog.taskData (dialog overdue_submission))
  = Value false
  /\ TaskData.notification_minutes_before
       (TaskDialog.taskData (dialog overdue_submission)) = Null
  /\ scheduled (snd (TaskDialog.handleSubmit overdue_submission))
     = scheduled overdue_submission.
Proof.
  destruct (@C10_overdue_submission_disables_reminder overdue_submission (-83))
    as (A & B & _ & _ & C & _).
  - reflexivity.
  - lia.
  - repeat split; assumption.
Defined.

(** The new task "Pay rent" is stored with its reminder off; since the toggle
    is on, a due date is set and the device is registered, the handler then
    reads [savedTask.id] of the value that [addTask] resolved to, and reports
    a failure instead of dismissing the dialog.  Nothing is scheduled. *)
Example overdue_new_task_is_stored_and_an_error_is_shown :
  TaskDialog.handleSubmit overdue_submission
  = (Returned tt, snd (TaskDialog.handleSubmit overdue_submission))
  /\ trace (snd (TaskDialog.handleSubmit overdue_submission))
     = [EvInsert TasksTable; EvSelect CategoriesTable; EvSelect CategoriesTable;
        EvSelect TasksTable;
        EvAlert "Error" "Failed to save task. Please try again."]
  /\ scheduled (snd (TaskDialog.handleSubmit overdue_submission)) = [].
Proof. vm_compute. repeat split; reflexivity. Qed.

Example overdue_submission_row :
  map (fun t => (Task.title t, Task.enable_notification t,
                 Task.notification_minutes_before t))
      (tasks_tbl (snd (TaskDialog.handleSubmit overdue_submission)))
  = [("Write report", Some true, Some 60); ("Groceries", Some false, None);
     ("Pay rent", Some false, None)]
  /\ TaskDialog.compute_minutesUntilDue (Some 0) 5000000 = Some (-83).
Proof. vm_compute. split; reflexivity. Qed.

(* ================================================================= *)
(** ** Reconciling the reminders of a saved task *)

Lemma cancel_all_spec (taskId : string) (ns sch : list Notification.t)
    (x : Notification.t) :
  In x (cancel_all taskId ns sch) ->
  In x sch
  /\ forall n, In n ns -> for_task taskId n = true ->
               Notification.identifier x <> Notification.identifier n.
Proof.
  revert sch. induction ns as [|n0 ns IH]; simpl; intros sch H.
  - split; [exact H | intros n []].
  - apply IH in H. destruct H as [Hin Hrest].
    destruct (for_task taskId n0) eqn:F.
    + unfold without in Hin. apply filter_In in Hin. destruct Hin as [Hin Hne].
      split; [exact Hin|]. intros n [<-|Hn] Fn; [|auto].
      intros Heq. rewrite Heq, String.eqb_refl in Hne. discriminate.
    + split; [exact Hin|]. intros n [<-|Hn] Fn; [congruence|auto].
Qed.

Lemma cancel_all_clears (taskId : string) (sch : list Notification.t) :
  filter (for_task taskId) (cancel_all taskId sch sch) = [].
Proof.
  destruct (filter (for_task taskId) (cancel_all taskId sch sch)) as [|x l] eqn:E;
    [reflexivity|].
  assert (H : In x (filter (for_task taskId) (cancel_all taskId sch sch)))
    by (rewrite E; left; reflexivity).
  apply filter_In in H. destruct H as [H F].
  apply cancel_all_spec in H. destruct H as [Hin Hne].
  exfalso. apply (Hne x Hin F). reflexivity.
Qed.

Lemma cancel_loop_reliable (taskId : string) (ns : list Notification.t) (w : World) :
  faults w = [] ->
  for_of ns (TaskDialogUpdated.cancel_if_for taskId) w
  = (Returned tt,
     set_trace (trace w ++ map (fun n => EvCancel (Notification.identifier n))
                               (filter (for_task taskId) ns))
               (set_scheduled (cancel_all taskId ns (scheduled w)) w)).
Proof.
  revert w. induction ns as [|n ns IH];
    intros [rt rc sch fl ck tr us lt lc ld reg dl]; simpl; intros ->.
  - unfold ret, set_trace, set_scheduled. simpl. rewrite app_nil_r. reflexivity.
  - assert (C : TaskDialogUpdated.cancel_if_for taskId n
                = if for_task taskId n
                  then cancelNotification (Notification.identifier n)
                  else ret tt).
    { unfold TaskDialogUpdated.cancel_if_for, for_task.
      destruct (Notification.data_taskId n); reflexivity. }
    unfold bind at 1. rewrite C. destruct (for_task taskId n).
    + unfold cancelNotification, NotificationsService.cancelNotification,
        cancelScheduledNotificationAsync, await_or_throw, external, try_catch, emit.
      simpl. rewrite IH by reflexivity. unfold set_trace, set_scheduled. simpl.
      rewrite <- app_assoc. reflexivity.
    + unfold ret at 1. rewrite IH by reflexivity. reflexivity.
Qed.

Lemma getScheduledNotifications_reliable (w : World) :
  faults w = [] ->
  NotificationsService.getScheduledNotifications w
  = (Returned (scheduled w), emit EvGetScheduled w).
Proof.
  intros Hf. unfold NotificationsService.getScheduledNotifications,
    getAllScheduledNotificationsAsync, await_or_throw, try_catch.
  rewrite external_reliable by exact Hf. reflexivity.
Qed.

(** The reconciliation block of the second revision, in a reliable
    environment: the reminders of the saved task are listed and cancelled, then
    at most one is scheduled, so that at most one is pending afterwards. *)
Lemma reconcile_reliable (d : Dialog.t) (savedTaskId : string) (w : World) :
  faults w = [] -> truthy savedTaskId = true ->
  reminders_for savedTaskId (cancelled savedTaskId w) = []
  /\ exists w',
       TaskDialogUpdated.reconcile d true savedTaskId w = (Returned tt, w')
       /\ (scheduled w' = scheduled (cancelled savedTaskId w)
           \/ exists n, scheduled w' = scheduled (cancelled savedTaskId w) ++ [n])
       /\ (List.length (reminders_for savedTaskId w') <= 1)%nat.
Proof.
  intros Hf Ht.
  assert (Hclear : reminders_for savedTaskId (cancelled savedTaskId w) = [])
    by apply cancel_all_clears.
  split; [exact Hclear|].
  assert (Hone : forall w',
             (scheduled w' = scheduled (cancelled savedTaskId w)
              \/ exists n, scheduled w' = scheduled (cancelled savedTaskId w) ++ [n]) ->
             (List.length (reminders_for savedTaskId w') <= 1)%nat).
  { intros w' [E|[n E]]; unfold reminders_for in *; rewrite E.
    - rewrite Hclear. simpl. lia.
    - rewrite length_filter_app, Hclear. simpl. destruct (for_task savedTaskId n); lia. }
  assert (Hrun : for_of (scheduled w) (TaskDialogUpdated.cancel_if_for savedTaskId)
                        (emit EvGetScheduled w)
                 = (Returned tt, cancelled savedTaskId w)).
  { rewrite cancel_loop_reliable by exact Hf.
    unfold cancelled, set_trace, set_scheduled, emit, reminders_for. simpl.
    rewrite <- app_assoc. reflexivity. }
  unfold TaskDialogUpdated.reconcile. rewrite Ht. cbn [andb].
  unfold bind at 1. rewrite getScheduledNotifications_reliable by exact Hf.
  unfold bind at 1. rewrite Hrun.
  destruct (Dialog.enableNotification d); [destruct (Dialog.dueDate d) as [dueDate|]|].
  - pose proof (scheduleTaskNotification_outcome
                  savedTaskId (trim (Dialog.title d)) dueDate
                  (Dialog.notificationMinutesBefore d) (cancelled savedTaskId w))
      as (_ & B & _ & o & O).
    unfold bind, scheduleTaskReminder. simpl or_else.
    destruct (NotificationsService.scheduleTaskNotification _ _ _ _ _) as [r w'].
    simpl in B, O. subst r. exists w'. split; [reflexivity|].
    assert (S : scheduled w' = scheduled (cancelled savedTaskId w)
                \/ exists n, scheduled w' = scheduled (cancelled savedTaskId w) ++ [n]).
    { destruct B as [B|(_ & n & B & _)]; [left; exact B|right; exists n; exact B]. }
    split; [exact S | apply Hone, S].
  - eexists. split; [reflexivity|]. split; [left; reflexivity|]. apply Hone. auto.
  - eexists. split; [reflexivity|]. split; [left; reflexivity|]. apply Hone. auto.
Qed.

(** The second revision, as a whole: after an edit is saved on a registered
    device, at most one reminder of the task is pending. *)
Lemma updated_revision_leaves_one_reminder (w : World) (task : Task.t) :
  faults w = [] -> isRegistered w = true ->
  trim (Dialog.title (dialog w)) <> "" -> Dialog.categoryId (dialog w) <> "" ->
  Dialog.task (dialog w) = Some task -> Task.id task <> "" ->
  fst (TaskDialogUpdated.handleSubmit w) = Returned tt
  /\ (List.length
        (reminders_for (Task.id task) (snd (TaskDialogUpdated.handleSubmit w)))
      <= 1)%nat.
Proof.
  intros Hf Hr Ht Hc Htask Hid.
  destruct (TaskDialogUpdated.handleSubmit w) as [o wf] eqn:HS.
  unfold TaskDialogUpdated.handleSubmit in HS.
  unfold bind at 1 2 3, get at 1 2 3 in HS.
  set (d := dialog w) in *.
  assert (G : negb (truthy (trim (Dialog.title d)))
              || negb (truthy (Dialog.categoryId d)) = false)
    by (apply submission_accepted; assumption).
  rewrite G, Hr in HS.
  unfold try_finally, try_catch in HS. unfold bind at 1 in HS.
  unfold modify at 1 in HS. cbv beta iota in HS.
  unfold bind at 1 in HS. unfold TaskDialogUpdated.save in HS. rewrite Htask in HS.
  assert (Hf1 : faults (setLoading true w) = []) by exact Hf.
  destruct (updateTask_reliable (Task.id task)
              (as_updates (TaskDialogUpdated.taskData d)) (setLoading true w) Hf1)
    as (w2 & E & _ & F2 & _).
  unfold bind at 1 in HS. rewrite E in HS. unfold ret at 1 in HS.
  cbv beta iota in HS.
  assert (Tid : truthy (Task.id task) = true) by (apply truthy_true; exact Hid).
  destruct (@reconcile_reliable d (Task.id task) w2 F2 Tid) as (_ & w3 & R & _ & C).
  unfold bind at 1 in HS. rewrite R in HS.
  unfold bind, onDismiss, modify in HS. inversion HS; subst o wf.
  split; [reflexivity|]. unfold reminders_for in *. simpl. exact C.
Qed.

(** C3, at a failing input.  The final revision of [handleSubmit] schedules the
    new reminder of an edited task without cancelling the pending one: two
    reminders for the task are pending after the save, the stale one among
    them.  The second revision, on the same input, cancels the pending
    reminder first and leaves exactly one. *)
Theorem C3_final_revision_keeps_stale_reminder :
  map Notification.trigger
      (reminders_for "t1" (snd (TaskDialog.handleSubmit editing_report)))
  = [DateTrigger 3600000; DateTrigger 7200000]
  /\ fst (TaskDialog.handleSubmit editing_report) = Returned tt
  /\ map Notification.trigger
         (reminders_for "t1" (snd (TaskDialogUpdated.handleSubmit editing_report)))
     = [DateTrigger 7200000]
  /\ trace (snd (TaskDialog.handleSubmit editing_report))
     = [EvUpdate TasksTable "t1"; EvSelect CategoriesTable;
        EvSelect CategoriesTable; EvSelect TasksTable;
        EvSchedule "t1" 7200000; EvDismiss]
  /\ trace (snd (TaskDialogUpdated.handleSubmit editing_report))
     = [EvUpdate TasksTable "t1"; EvSelect CategoriesTable;
        EvSelect CategoriesTable; EvSelect TasksTable;
        EvGetScheduled; EvCancel "n1"; EvSchedule "t1" 7200000; EvDismiss].
Proof. vm_compute. repeat split. Qed.

(* ================================================================= *)
(** ** Rounding to binary64 *)

Module JsNumberFacts.
Import JsNumber.
#[local] Open Scope Q_scope.
#[local] Unset Implicit Arguments.

Lemma round_half_even_spec (y : Q) :
  inject_Z (round_half_even y) - (1 # 2) <= y
  /\ y <= inject_Z (round_half_even y) + (1 # 2).
Proof.
  unfold round_half_even.
  pose proof (Qfloor_le y) as L. pose proof (Qlt_floor y) as U.
  rewrite inject_Z_plus in U. change (inject_Z 1) with 1 in U.
  destruct (Qcompare (y - inject_Z (Qfloor y)) (1 # 2)) eqn:C.
  - apply Qeq_alt in C. destruct (Z.even (Qfloor y));
      rewrite ?inject_Z_plus; change (inject_Z 1) with 1; split; lra.
  - apply Qlt_alt in C. split; lra.
  - apply Qgt_alt in C. rewrite inject_Z_plus. change (inject_Z 1) with 1. split; lra.
Qed.

Lemma two_pow_pos (k : Z) : 0 < 2 ^ k.
Proof. apply Qpower_0_lt. reflexivity. Qed.

Lemma two_pow_succ (k : Z) : 2 ^ (k + 1) == 2 * 2 ^ k.
Proof. rewrite Qpower_plus by discriminate. change (2 ^ 1) with 2. ring. Qed.

Lemma two_pow_inject (n : Z) : (0 <= n)%Z -> inject_Z (2 ^ n) == 2 ^ n.
Proof. intros H. rewrite Zpower_Qpower by exact H. reflexivity. Qed.

Lemma binade_spec (x : Q) :
  0 < x -> 2 ^ binade x <= x /\ x < 2 ^ (binade x + 1).
Proof.
  intros Hx. destruct x as [a b]. 
  assert (Ha : (0 < a)%Z) by (unfold Qlt in Hx; simpl in Hx; lia).
  unfold binade. cbn [Qnum Qden].
  set (la := Z.log2 a). set (lb := Z.log2 (Z.pos b)).
  assert (Hla : (0 <= la)%Z) by apply Z.log2_nonneg.
  assert (Hlb : (0 <= lb)%Z) by apply Z.log2_nonneg.
  destruct (Z.log2_spec a Ha) as [A1 A2]. fold la in A1, A2.
  destruct (Z.log2_spec (Z.pos b) (Pos2Z.is_pos b)) as [B1 B2]. fold lb in B1, B2.
  (* as rationals *)
  assert (QA1 : 2 ^ la <= inject_Z a).
  { rewrite <- two_pow_inject by exact Hla. rewrite <- Zle_Qle. exact A1. }
  assert (QA2 : inject_Z a < 2 * 2 ^ la).
  { rewrite <- two_pow_succ. rewrite <- two_pow_inject by lia.
    rewrite <- Zlt_Qlt. replace (la + 1)%Z with (Z.succ la) by lia. exact A2. }
  assert (QB1 : 2 ^ lb <= inject_Z (Z.pos b)).
  { rewrite <- two_pow_inject by exact Hlb. rewrite <- Zle_Qle. exact B1. }
  assert (QB2 : inject_Z (Z.pos b) < 2 * 2 ^ lb).
  { rewrite <- two_pow_succ. rewrite <- two_pow_inject by lia.
    rewrite <- Zlt_Qlt. replace (lb + 1)%Z with (Z.succ lb) by lia. exact B2. }
  assert (Hk : 2 ^ la == 2 ^ (la - lb) * 2 ^ lb).
  { rewrite <- Qpower_plus by discriminate. replace (la - lb + lb)%Z with la by lia.
    reflexivity. }
  pose proof (two_pow_pos la) as Pla. pose proof (two_pow_pos lb) as Plb.
  pose proof (two_pow_pos (la - lb)) as Pk.
  pose proof (two_pow_pos (la - lb - 1)) as Pk1.
  assert (Hk1 : 2 ^ (la - lb) == 2 * 2 ^ (la - lb - 1)).
  { rewrite <- two_pow_succ. replace (la - lb - 1 + 1)%Z with (la - lb)%Z by lia.
    reflexivity. }
  assert (X : a # b == inject_Z a / inject_Z (Z.pos b)) by apply Qmake_Qdiv.
  assert (Pb : 0 < inject_Z (Z.pos b)) by (rewrite <- (Zlt_Qlt 0); apply Pos2Z.is_pos).
  (* x * b = a *)
  assert (XB : (a # b) * inject_Z (Z.pos b) == inject_Z a).
  { rewrite X. field. intros H. rewrite H in Pb. apply (Qlt_irrefl 0 Pb). }
  set (x := a # b) in *. set (B := inject_Z (Z.pos b)) in *. set (A := inject_Z a) in *.
  set (k := (la - lb)%Z) in *.
  (* 2^(k-1) < x < 2^(k+1) *)
  assert (Lo : 2 ^ (k - 1) < x).
  { apply Qnot_le_lt. intros H.
    assert (x * B <= 2 ^ (k - 1) * B) by (apply Qmult_le_compat_r; [exact H | lra]).
    assert (2 ^ (k - 1) * B < 2 ^ (k - 1) * (2 * 2 ^ lb))
      by (apply Qmult_lt_l; assumption).
    subst k. nra. }
  assert (Hi : x < 2 * 2 ^ k).
  { apply Qnot_le_lt. intros H.
    assert (2 * 2 ^ k * B <= x * B) by (apply Qmult_le_compat_r; [exact H | lra]).
    assert (2 * 2 ^ k * 2 ^ lb <= 2 * 2 ^ k * B)
      by (apply Qmult_le_l; [lra | assumption]).
    nra. }
  destruct (Qle_bool (2 ^ k) x) eqn:T.
  - apply Qle_bool_iff in T. split; [exact T|]. rewrite two_pow_succ. exact Hi.
  - assert (T' : x < 2 ^ k).
    { apply Qnot_le_lt. intros H. apply Qle_bool_iff in H. congruence. }
    split; [apply Qlt_le_weak; exact Lo|].
    replace (k - 1 + 1)%Z with k by lia. exact T'.
Qed.

Lemma round53_error (x : Q) :
  0 < x -> x * (1 - unit_roundoff) <= round53 x /\ round53 x <= x * (1 + unit_roundoff).
Proof.
  intros Hx. unfold round53.
  destruct (binade_spec x Hx) as [Lo _].
  set (e := (binade x - 52)%Z) in *.
  pose proof (two_pow_pos e) as Pe.
  assert (Hb : 2 ^ binade x == 4503599627370496 * 2 ^ e).
  { replace (binade x) with (52 + e)%Z by (subst e; lia).
    rewrite Qpower_plus by discriminate. reflexivity. }
  rewrite Hb in Lo.
  set (pe := 2 ^ e) in *.
  assert (Hy : x == (x / pe) * pe).
  { field. intros H. rewrite H in Pe. apply (Qlt_irrefl 0 Pe). }
  destruct (round_half_even_spec (x / pe)) as [M1 M2].
  set (y := x / pe) in *. set (m := inject_Z (round_half_even y)) in *.
  assert (P1 : 0 <= (y - (m - (1 # 2))) * pe) by (apply Qmult_le_0_compat; lra).
  assert (P2 : 0 <= (m + (1 # 2) - y) * pe) by (apply Qmult_le_0_compat; lra).
  unfold unit_roundoff. split; nra.
Qed.

Lemma fl_positive (x : Q) : 0 < x -> fl x = round53 x.
Proof.
  intros H. unfold fl. apply Qgt_alt in H. rewrite H. reflexivity.
Qed.

Lemma fl_error (x : Q) : 0 < x -> x * (1 - unit_roundoff) <= fl x /\ fl x <= x * (1 + unit_roundoff).
Proof. intros H. rewrite fl_positive by exact H. apply round53_error, H. Qed.

Lemma Qfloor_unique (y : Q) (n : Z) :
  inject_Z n <= y -> y < inject_Z n + 1 -> Qfloor y = n.
Proof.
  intros L U.
  assert (A : (n <= Qfloor y)%Z).
  { rewrite <- (Qfloor_Z n). apply Qfloor_resp_le, L. }
  assert (B : (Qfloor y < n + 1)%Z).
  { rewrite Zlt_Qlt, inject_Z_plus. change (inject_Z 1) with 1.
    pose proof (Qfloor_le y). lra. }
  lia.
Qed.

Lemma rate_zero (t : Z) : (0 < t)%Z -> rate 0 t = 0%Z.
Proof.
  intros H. unfold rate, div, mul.
  assert (E : fl (inject_Z 0 / inject_Z t) = 0).
  { unfold fl. replace (Qcompare (inject_Z 0 / inject_Z t) 0) with Eq; [reflexivity|].
    symmetry. apply Qeq_alt. unfold Qdiv. change (inject_Z 0) with 0. ring. }
  rewrite E. reflexivity.
Qed.

Lemma rate_near_exact (c t : Z) :
  (0 < c <= t)%Z -> (t < 2 ^ 32)%Z ->
  let x := inject_Z (100 * c) / inject_Z t in
  let p := mul (div (inject_Z c) (inject_Z t)) 100 in
  x - (1 # 17592186044416) <= p /\ p <= x + (1 # 17592186044416).
Proof.
  intros Hc Ht x p. subst p. unfold mul, div.
  assert (Pt : 0 < inject_Z t) by (rewrite <- (Zlt_Qlt 0); lia).
  assert (Pc : 0 < inject_Z c) by (rewrite <- (Zlt_Qlt 0); lia).
  assert (Nt : ~ inject_Z t == 0) by (intros H; rewrite H in Pt; apply (Qlt_irrefl 0 Pt)).
  assert (Hx : x == 100 * (inject_Z c / inject_Z t)).
  { subst x. rewrite inject_Z_mult. change (inject_Z 100) with 100. field. exact Nt. }
  set (r := inject_Z c / inject_Z t) in *.
  assert (Pr : 0 < r) by (apply Qlt_shift_div_l; [exact Pt | rewrite Qmult_0_l; exact Pc]).
  assert (Ur : r <= 1).
  { apply Qle_shift_div_r; [exact Pt|]. rewrite Qmult_1_l. rewrite <- Zle_Qle. lia. }
  destruct (fl_error r Pr) as [Q1 Q2].
  set (q := fl r) in *.
  assert (Pq : 0 < q * 100) by (unfold unit_roundoff in Q1; lra).
  destruct (fl_error (q * 100) Pq) as [P1 P2].
  set (p := fl (q * 100)) in *.
  unfold unit_roundoff in *. split; lra.
Qed.

Lemma inject_Z_succ_le (a b : Z) : (a < b)%Z -> inject_Z a + 1 <= inject_Z b.
Proof.
  intros H. change 1 with (inject_Z 1). rewrite <- inject_Z_plus, <- Zle_Qle. lia.
Qed.

Lemma Qfloor_bounds (y : Q) (a b : Z) :
  inject_Z a <= y -> y < inject_Z b -> (a <= Qfloor y < b)%Z.
Proof.
  intros L U. split.
  - rewrite <- (Qfloor_Z a). apply Qfloor_resp_le, L.
  - rewrite Zlt_Qlt. pose proof (Qfloor_le y). lra.
Qed.

(** The computed rate is the exact quotient rounded half up, except that a
    quotient exactly half way between two integers may be rounded down. *)
Lemma rate_spec (c t : Z) :
  (0 <= c <= t)%Z -> (0 < t < 2 ^ 32)%Z ->
  (((200 * c + t) mod (2 * t) <> 0)%Z -> rate c t = exact_rate c t)
  /\ (exact_rate c t - 1 <= rate c t <= exact_rate c t)%Z.
Proof.
  intros Hc Ht.
  destruct (Z.eq_dec c 0) as [->|Hc0].
  - rewrite rate_zero by lia. unfold exact_rate.
    replace (200 * 0 + t)%Z with t by lia.
    rewrite Z.div_small by lia. split; [reflexivity|lia].
  - destruct (@rate_near_exact c t) as [L U]; [lia|lia|].
    unfold rate, Math_round, exact_rate.
    set (p := mul (div (inject_Z c) (inject_Z t)) 100) in *.
    set (N := (200 * c + t)%Z). set (D := (2 * t)%Z).
    assert (HD : (0 < D)%Z) by (subst D; lia).
    pose proof (Z.div_mod N D ltac:(lia)) as E.
    pose proof (Z.mod_pos_bound N D HD) as B.
    set (R := (N / D)%Z) in *. set (r := (N mod D)%Z) in *.
    assert (PD : 0 < inject_Z D) by (rewrite <- (Zlt_Qlt 0); exact HD).
    assert (ND : ~ inject_Z D == 0)
      by (intros H; rewrite H in PD; apply (Qlt_irrefl 0 PD)).
    assert (UD : inject_Z D <= 8589934592).
    { change 8589934592 with (inject_Z 8589934592). rewrite <- Zle_Qle.
      subst D. change (2 ^ 32)%Z with 4294967296%Z in Ht. lia. }
    assert (Hx : inject_Z (100 * c) / inject_Z t + (1 # 2)
                 == inject_Z R + inject_Z r / inject_Z D).
    { assert (EQ : inject_Z N == inject_Z D * inject_Z R + inject_Z r)
        by (rewrite <- inject_Z_mult, <- inject_Z_plus, <- E; reflexivity).
      assert (EN : inject_Z N == 200 * inject_Z c + inject_Z t).
      { subst N. rewrite inject_Z_plus, inject_Z_mult. reflexivity. }
      assert (ED : inject_Z D == 2 * inject_Z t).
      { subst D. rewrite inject_Z_mult. reflexivity. }
      assert (Pt : ~ inject_Z t == 0).
      { intros H. rewrite ED, H in PD. apply (Qlt_irrefl 0). exact PD. }
      rewrite inject_Z_mult. change (inject_Z 100) with 100.
      assert (G : inject_Z r == 200 * inject_Z c + inject_Z t - 2 * inject_Z t * inject_Z R)
        by (rewrite <- EN, <- ED, EQ; ring).
      rewrite G, ED. field. exact Pt. }
    set (f := inject_Z r / inject_Z D) in *.
    set (x := inject_Z (100 * c) / inject_Z t) in *.
    assert (F0 : 0 <= f).
    { apply Qle_shift_div_l; [exact PD|]. rewrite Qmult_0_l.
      rewrite <- (Zle_Qle 0). lia. }
    split.
    + intros Hr.
      assert (F1 : (1 # 8589934592) <= f).
      { apply Qle_shift_div_l; [exact PD|].
        assert (1 <= inject_Z r) by (rewrite <- (Zle_Qle 1); lia). lra. }
      assert (F2 : f <= 1 - (1 # 8589934592)).
      { apply Qle_shift_div_r; [exact PD|].
        pose proof (@inject_Z_succ_le r D ltac:(lia)). lra. }
      apply Qfloor_unique; lra.
    + assert (F2 : f < 1).
      { apply Qlt_shift_div_r; [exact PD|]. rewrite Qmult_1_l. rewrite <- Zlt_Qlt. lia. }
      destruct (Z.eq_dec r 0) as [Hr|Hr].
      * assert (F3 : f == 0) by (subst f; rewrite Hr; unfold Qdiv; change (inject_Z 0) with 0; ring).
        assert (G : (R - 1 <= Qfloor (p + (1 # 2)) < R + 1)%Z).
        { apply Qfloor_bounds.
          - pose proof (@inject_Z_succ_le (R - 1) R ltac:(lia)). lra.
          - rewrite inject_Z_plus. change (inject_Z 1) with 1. lra. }
        lia.
      * assert (F1 : (1 # 8589934592) <= f).
        { apply Qle_shift_div_l; [exact PD|].
          assert (1 <= inject_Z r) by (rewrite <- (Zle_Qle 1); lia). lra. }
        assert (F4 : f <= 1 - (1 # 8589934592)).
        { apply Qle_shift_div_r; [exact PD|].
          pose proof (@inject_Z_succ_le r D ltac:(lia)). lra. }
        assert (G : Qfloor (p + (1 # 2)) = R) by (apply Qfloor_unique; lra).
        lia.
Qed.

End JsNumberFacts.

(* ================================================================= *)
(** ** Completion analytics *)

Lemma count_status_filter (s : TaskStatus) (tasks : list Task.t) :
  count_status s tasks
  = List.length (filter (fun t => TaskStatus_eqb (Task.status t) s) tasks).
Proof.
  induction tasks as [|t tasks IH]; simpl; [reflexivity|].
  rewrite IH. destruct (TaskStatus_eqb (Task.status t) s); reflexivity.
Qed.

Lemma active_count (tasks : list Task.t) :
  List.length (filter ReportsScreen.is_active tasks)
  = (count_status upcoming tasks + count_status overdue tasks)%nat.
Proof.
  induction tasks as [|t tasks IH]; simpl; [reflexivity|].
  unfold ReportsScreen.is_active at 1. destruct (Task.status t); simpl; rewrite IH; lia.
Qed.

Lemma completed_at_most_total (tasks : list Task.t) :
  (List.length (filter ReportsScreen.is_completed tasks) <= List.length tasks)%nat.
Proof. apply filter_length_le. Qed.

Lemma specified_rate_exact (tasks : list Task.t) :
  tasks <> [] ->
  specified_rate tasks
  = JsNumber.exact_rate (Stats.completed (ReportsScreen.stats tasks))
                             (Stats.total (ReportsScreen.stats tasks)).
Proof.
  intros Hne. unfold specified_rate, JsNumber.exact_rate, JsNumber.Math_round.
  set (c := Stats.completed (ReportsScreen.stats tasks)).
  set (t := Stats.total (ReportsScreen.stats tasks)).
  assert (Ht : 0 < t).
  { subst t. simpl. destruct tasks; [contradiction|]. simpl List.length. lia. }
  destruct (Z.ltb_spec 0 t); [|lia].
  rewrite Zdiv_Qdiv. apply Qfloor_comp.
  assert (Pt : (0 < inject_Z t)%Q) by (rewrite <- (Zlt_Qlt 0); exact Ht).
  assert (Nt : ~ (inject_Z t == 0)%Q)
    by (intros E; rewrite E in Pt; apply (Qlt_irrefl 0 Pt)).
  rewrite !inject_Z_plus, !inject_Z_mult.
  change (inject_Z 100) with 100%Q. change (inject_Z 200) with 200%Q.
  change (inject_Z 2) with 2%Q. field. exact Nt.
Qed.

(** The model of binary64 agrees with the reference formalisation on the
    quotients and products of all counts up to forty. *)
Example binary64_cross_check :
  forallb (fun t => forallb (fun c => JsNumber.agrees_with_spec c t)
                            (map Z.of_nat (seq 1 (Z.to_nat t))))
          (map Z.of_nat (seq 1 40))
  = true.
Proof. vm_compute. reflexivity. Qed.

(** 23 / 40 * 100 in binary64 is just below 57.5, in both formalisations. *)
Example fifty_seven_and_a_half :
  Qeq_bool (JsNumber.mul (JsNumber.div 23 40) 100)
           (8092405580431359 # 140737488355328) = true
  /\ Qeq_bool (JsNumber.of_spec
                 (SFmul 53 1024
                    (SFdiv 53 1024 (JsNumber.spec_of_Z 23) (JsNumber.spec_of_Z 40))
                    (JsNumber.spec_of_Z 100)))
              (8092405580431359 # 140737488355328) = true
  /\ Qcompare (8092405580431359 # 140737488355328) (115 # 2) = Lt.
Proof. vm_compute. repeat split. Qed.

(** C7 as worded fails: for 23 completed tasks out of 40 the screen reports 57
    per cent, whereas [round (100 * 23 / 40)] is [round 57.5 = 58]. *)
Lemma C7_counterexample :
  ReportsScreen.completionRate twenty_three_of_forty = 57
  /\ specified_rate twenty_three_of_forty = 58
  /\ ReportsScreen.completionRate twenty_three_of_forty
     <> specified_rate twenty_three_of_forty.
Proof.
  assert (A : ReportsScreen.completionRate twenty_three_of_forty = 57)
    by (vm_compute; reflexivity).
  assert (B : specified_rate twenty_three_of_forty = 58)
    by (vm_compute; reflexivity).
  repeat split; try assumption. rewrite A, B. discriminate.
Qed.

(** C7, amended.  For every list of tasks (of a length an array can have),
    [completed] counts the tasks with status completed, [active] those with
    status upcoming or overdue, and [completionRate] is [0] for the empty list;
    otherwise it is [Math.round] of the binary64 product
    [(completed / total) * 100], which equals [round (100 * completed / total)]
    whenever that quotient is not exactly half way between two integers, and
    is never more than one below it. *)
Theorem C7_completion_analytics :
  forall (tasks : list Task.t),
    Z.of_nat (List.length tasks) < 2 ^ 32 ->
    let s := ReportsScreen.stats tasks in
    Stats.total s = Z.of_nat (List.length tasks)
    /\ Stats.completed s = Z.of_nat (count_status completed tasks)
    /\ Stats.active s
       = Z.of_nat (count_status upcoming tasks + count_status overdue tasks)
    /\ (tasks = [] -> ReportsScreen.completionRate tasks = 0)
    /\ (tasks <> [] ->
        ReportsScreen.completionRate tasks
        = JsNumber.Math_round
            (JsNumber.mul (JsNumber.div (inject_Z (Stats.completed s))
                                        (inject_Z (Stats.total s))) 100))
    /\ (tasks <> [] -> ~ half_way (Stats.completed s) (Stats.total s) ->
        ReportsScreen.completionRate tasks = specified_rate tasks)
    /\ specified_rate tasks - 1 <= ReportsScreen.completionRate tasks
       <= specified_rate tasks.
Proof.
  intros tasks Hlen s.
  assert (Hrate : tasks <> [] ->
            ReportsScreen.completionRate tasks
            = JsNumber.rate (Stats.completed s) (Stats.total s)).
  { intros Hne. unfold ReportsScreen.completionRate. fold s.
    destruct (Z.ltb_spec 0 (Stats.total s)) as [_|H]; [reflexivity|].
    exfalso. subst s. simpl in H. destruct tasks; [contradiction|].
    simpl List.length in H. lia. }
  assert (Hspec : tasks <> [] ->
            (~ half_way (Stats.completed s) (Stats.total s) ->
             ReportsScreen.completionRate tasks = specified_rate tasks)
            /\ specified_rate tasks - 1 <= ReportsScreen.completionRate tasks
               <= specified_rate tasks).
  { intros Hne. rewrite (Hrate Hne), (specified_rate_exact Hne). fold s.
    apply JsNumberFacts.rate_spec.
    - subst s. simpl. pose proof (completed_at_most_total tasks). lia.
    - subst s. simpl. destruct tasks; [contradiction|]. simpl List.length in *. lia. }
  split; [reflexivity|]. split; [|split; [|split; [|split; [|split]]]].
  - subst s. simpl. f_equal. symmetry. apply count_status_filter.
  - subst s. simpl. f_equal. apply active_count.
  - intros ->. reflexivity.
  - intros Hne. rewrite (Hrate Hne). reflexivity.
  - intros Hne. apply (proj1 (Hspec Hne)).
  - destruct tasks as [|t0 tasks'].
    + vm_compute. split; discriminate.
    + apply Hspec. discriminate.
Qed.

Lemma C7_witness :
  Stats.total (ReportsScreen.stats twenty_three_of_forty) = 40
  /\ Stats.completed (ReportsScreen.stats twenty_three_of_forty) = 23
  /\ Stats.active (ReportsScreen.stats twenty_three_of_forty) = 17
  /\ specified_rate twenty_three_of_forty - 1
     <= ReportsScreen.completionRate twenty_three_of_forty
     <= specified_rate twenty_three_of_forty.
Proof.
  destruct (@C7_completion_analytics twenty_three_of_forty)
    as (A & B & C & _ & _ & _ & D).
  - vm_compute. reflexivity.
  - split; [exact A|]. split; [rewrite B; vm_compute; reflexivity|].
    split; [rewrite C; vm_compute; reflexivity|]. exact D.
Defined.

Example one_of_three_is_33_per_cent :
  ReportsScreen.completionRate (done_task :: repeat open_task 2) = 33
  /\ specified_rate (done_task :: repeat open_task 2) = 33.
Proof. vm_compute. split; reflexivity. Qed.

(* ================================================================= *)
(** ** The badges of a task card *)

(** X1. The status badge of a card: there is none exactly for a completed
    task; a task whose stored status is "overdue" is badged UPCOMING, never
    OVERDUE; the OVERDUE badge is shown exactly for the tasks with status
    "upcoming" whose due date is past and is not today. *)
Theorem status_badge_of_a_card :
  forall (dayOf : Z -> Z) (now : Z) (task : Task.t),
    let badge := TaskCard.getStatusBadge dayOf now task in
    (badge = None <-> Task.status task = completed)
    /\ (Task.status task = overdue -> badge = Some upcoming_badge)
    /\ (badge = Some overdue_badge <->
        Task.status task = upcoming
        /\ exists d, Task.due_date task = Some d /\ d < now
                     /\ dayOf d <> dayOf now).
Proof.
  intros dayOf now task.
  unfold TaskCard.getStatusBadge, TaskCard.isCompleted, TaskCard.isCanceled,
    has_status, isPast, isToday, isSameDay, overdue_badge, upcoming_badge.
  destruct (Task.status task) eqn:S; simpl;
    destruct (Task.due_date task) as [d|] eqn:D; simpl;
    try (destruct (Z.ltb_spec d now); destruct (Z.eqb_spec (dayOf d) (dayOf now));
         simpl);
    repeat split; intros; try congruence;
    try (match goal with H : _ /\ _ |- _ => destruct H as (? & ? & ? & ? & ?) end;
         try congruence;
         match goal with H : Some _ = Some _ |- _ => inversion H; subst end;
         try lia; try congruence).
  all: try (exists d; repeat split; auto; lia).
Qed.

(** X2. The "Overdue" card of the home screen counts exactly the tasks that
    the task screen lists under the filter "overdue", and these are exactly
    the tasks whose card shows the OVERDUE badge; none of them has the stored
    status "overdue". *)
Theorem overdue_count_list_and_badge_agree :
  forall (dayOf : Z -> Z) (now : Z) (tasks : list Task.t),
    let listed := TasksScreen.filteredTasks dayOf now "overdue" tasks in
    HomeStats.overdue (HomeScreen.stats dayOf now tasks)
    = Z.of_nat (List.length listed)
    /\ (forall t, In t listed <->
                  In t tasks
                  /\ TaskCard.getStatusBadge dayOf now t = Some overdue_badge)
    /\ (forall t, In t listed -> Task.status t = upcoming).
Proof.
  intros dayOf now tasks. simpl.
  assert (E : forall t,
             (has_status upcoming t
              && due (fun d => isPast now d && negb (isToday dayOf now d)) t) = true
             <-> TaskCard.getStatusBadge dayOf now t = Some overdue_badge).
  { intros t.
    unfold TaskCard.getStatusBadge, TaskCard.isCompleted, TaskCard.isCanceled,
      has_status, due, overdue_badge.
    destruct (Task.status t); simpl; destruct (Task.due_date t) as [d|]; simpl;
      try (destruct (isPast now d && negb (isToday dayOf now d)); simpl);
      split; intros; congruence. }
  unfold TasksScreen.filteredTasks, HomeScreen.stats, HomeScreen.count_of. simpl.
  split; [reflexivity|]. split.
  - intros t. rewrite filter_In, E. tauto.
  - intros t H. apply filter_In in H. destruct H as [_ H].
    apply andb_true_iff in H. destruct H as [H _].
    apply TaskStatus_eqb_eq. exact H.
Qed.

(** X3. The other cards of the home screen against the lists they open:
    "Completed" counts the listed tasks; "Today" and "Inbox" count only the
    open tasks (status "upcoming" or "overdue") of the lists "today" and
    "all", which also show completed and canceled tasks. *)
Theorem home_cards_count_open_tasks_of_their_lists :
  forall (dayOf : Z -> Z) (now : Z) (tasks : list Task.t),
    let s := HomeScreen.stats dayOf now tasks in
    let listed f := TasksScreen.filteredTasks dayOf now f tasks in
    HomeStats.completed s = Z.of_nat (List.length (listed "completed"))
    /\ HomeStats.today s
       = Z.of_nat (List.length (filter HomeScreen.open (listed "today")))
    /\ HomeStats.total s
       = Z.of_nat (List.length (filter HomeScreen.open (listed "all")))
    /\ HomeStats.today s <= Z.of_nat (List.length (listed "today"))
    /\ HomeStats.total s <= Z.of_nat (List.length (listed "all"))
    /\ listed "all" = tasks.
Proof.
  intros dayOf now tasks. simpl.
  unfold TasksScreen.filteredTasks, HomeScreen.stats, HomeScreen.count_of. simpl.
  assert (F : forall (p q : Task.t -> bool) (l : list Task.t),
             filter p (filter q l) = filter (fun t => p t && q t) l).
  { intros p q l. induction l as [|a l IH]; simpl; [reflexivity|].
    destruct (q a); simpl; destruct (p a); simpl; rewrite IH; reflexivity. }
  assert (L : forall (p : Task.t -> bool) (l : list Task.t),
             (List.length (filter p l) <= List.length l)%nat).
  { intros p l. induction l as [|a l IH]; simpl; [lia|].
    destruct (p a); simpl; lia. }
  rewrite F.
  repeat split; try reflexivity.
  - rewrite <- F. apply Nat2Z.inj_le, L.
  - apply Nat2Z.inj_le, L.
Qed.

Example completed_task_due_today_is_listed_not_counted :
  HomeStats.today (HomeScreen.stats utc_day 100000000 [done_today]) = 0
  /\ TasksScreen.filteredTasks utc_day 100000000 "today" [done_today] = [done_today].
Proof. vm_compute. split; reflexivity. Qed.

(* ================================================================= *)
(** ** The Kanban view *)

(** X4. With no Kanban filter, the three columns show exactly the filtered
    tasks whose status is not "overdue": a task with that stored status is in
    no column. *)
Theorem kanban_columns_leave_out_overdue_status :
  forall (filtered : list Task.t),
    let columns := TasksScreen.kanbanColumns KanbanFilter.all filtered in
    let shown := fst (fst columns) ++ snd (fst columns) ++ snd columns in
    (forall t, In t shown <-> In t filtered /\ Task.status t <> overdue)
    /\ (List.length shown + count_status overdue filtered
        = List.length filtered)%nat.
Proof.
  intros filtered. simpl. split.
  - intros t. rewrite !in_app_iff, !filter_In. unfold has_status.
    destruct (Task.status t) eqn:S; simpl; intuition congruence.
  - rewrite !length_app. induction filtered as [|a l IH]; simpl; [reflexivity|].
    unfold has_status in *. destruct (Task.status a); simpl; lia.
Qed.

Example late_task_is_in_no_column :
  TasksScreen.kanbanColumns KanbanFilter.all [late_task] = ([], [], []).
Proof. reflexivity. Qed.

(* ================================================================= *)
(** ** Sorting by a count *)

Lemma descending_insert_desc {A} (key : A -> Z) (x : A) (l : list A) :
  descending key l -> descending key (insert_desc key x l).
Proof.
  induction l as [|a l IH]; simpl; intros H.
  - split; [intros y []|exact I].
  - destruct H as [Ha Hl]. destruct (Z.leb_spec (key a) (key x)); simpl.
    + split; [|split; assumption].
      intros y [<-|Hy]; [assumption|]. specialize (Ha y Hy). lia.
    + split; [|apply IH; assumption].
      intros y Hy. apply In_insert_desc in Hy. destruct Hy as [->|Hy]; [lia|auto].
Qed.

Lemma descending_order_desc {A} (key : A -> Z) (l : list A) :
  descending key (order_desc key l).
Proof.
  induction l as [|a l IH]; simpl; [exact I|].
  apply descending_insert_desc, IH.
Qed.

Lemma In_firstn {A} (n : nat) (l : list A) (x : A) :
  In x (firstn n l) -> In x l.
Proof.
  revert l. induction n as [|n IH]; intros [|a l]; simpl; try tauto.
  intros [H|H]; [left; exact H|right; apply IH; exact H].
Qed.

Lemma descending_firstn {A} (key : A -> Z) (n : nat) (l : list A) :
  descending key l -> descending key (firstn n l).
Proof.
  revert l. induction n as [|n IH]; intros [|a l]; simpl; try tauto.
  intros [Ha Hl]. split; [|apply IH; exact Hl].
  intros y Hy. apply Ha. eapply In_firstn; eauto.
Qed.

(** What [slice(0, n)] cuts off a sorted list is no larger than what it keeps. *)
Lemma firstn_keeps_largest {A} (key : A -> Z) (n : nat) (l : list A) (y : A) :
  descending key l -> In y l ->
  In y (firstn n l)
  \/ (List.length (firstn n l) = n
      /\ forall x, In x (firstn n l) -> key y <= key x).
Proof.
  revert l. induction n as [|n IH]; intros l D Hy.
  - right. simpl. split; [reflexivity|intros x []].
  - destruct l as [|a l]; [destruct Hy|]. simpl in *. destruct D as [Da Dl].
    destruct Hy as [->|Hy]; [left; left; reflexivity|].
    destruct (IH l Dl Hy) as [H|[H1 H2]]; [left; right; exact H|].
    right. split; [congruence|].
    intros x [<-|Hx]; [apply Da; exact Hy|apply H2; exact Hx].
Qed.

(* ================================================================= *)
(** ** The top categories of the home screen *)

(** X5. The top categories of the home screen: at most five, in descending
    order of their number of open tasks, each a category of the provider with
    at least one open task; a category with open tasks is left out only when
    five categories with at least as many open tasks are shown. *)
Theorem top_categories_are_the_five_busiest :
  forall (tasks : list Task.t) (categories : list Category.t),
    let top := HomeScreen.topCategories tasks categories in
    (List.length top <= 5)%nat
    /\ descending TopCategory.count top
    /\ (forall e, In e top ->
          In (TopCategory.category e) categories
          /\ TopCategory.count e
             = Z.of_nat (List.length (open_in tasks (TopCategory.category e)))
          /\ 0 < TopCategory.count e)
    /\ (forall cat, In cat categories -> open_in tasks cat <> [] ->
          (exists e, In e top /\ TopCategory.category e = cat)
          \/ (List.length top = 5%nat
              /\ forall e, In e top ->
                   Z.of_nat (List.length (open_in tasks cat)) <= TopCategory.count e)).
Proof.
  intros tasks categories. simpl. unfold HomeScreen.topCategories.
  set (entry := fun cat : Category.t =>
                  TopCategory.mk cat
                    (HomeScreen.count_of
                       (fun t => String.eqb (Task.category_id t) (Category.id cat)
                                 && HomeScreen.open t) tasks)).
  set (busy := filter (fun cat => 0 <? TopCategory.count cat) (map entry categories)).
  assert (B : forall e, In e busy <->
                        (exists cat, In cat categories /\ e = entry cat)
                        /\ 0 < TopCategory.count e).
  { intros e. unfold busy. rewrite filter_In, in_map_iff, Z.ltb_lt.
    split; intros [(cat & H1 & H2) H3]; (split; [exists cat|]); auto. }
  split; [apply firstn_le_length|].
  split; [apply descending_firstn, descending_order_desc|].
  split.
  - intros e He. apply In_firstn in He. apply In_order_desc in He.
    apply B in He. destruct He as [(cat & Hc & ->) Hp]. simpl in *.
    repeat split; auto.
  - intros cat Hc Hne.
    assert (Hb : In (entry cat) busy).
    { apply B. split; [exists cat; auto|]. simpl. unfold HomeScreen.count_of.
      fold (open_in tasks cat). destruct (open_in tasks cat); [congruence|].
      simpl. lia. }
    apply (In_order_desc TopCategory.count) in Hb.
    destruct (firstn_keeps_largest TopCategory.count 5 _ (entry cat)
                (descending_order_desc TopCategory.count busy) Hb) as [H|[H1 H2]].
    + left. exists (entry cat). split; [exact H|reflexivity].
    + right. split; [exact H1|]. intros e He. apply (H2 e He).
Qed.

(* ================================================================= *)
(** ** Percentages *)

Lemma rate_bounds (c t : Z) :
  0 <= c <= t -> 0 < t < 2 ^ 32 ->
  0 <= JsNumber.rate c t <= 100
  /\ (c = t -> JsNumber.rate c t = 100)
  /\ (c = 0 -> JsNumber.rate c t = 0).
Proof.
  intros Hc Ht.
  destruct (JsNumberFacts.rate_spec c t Hc Ht) as [Hex Hb].
  unfold JsNumber.exact_rate in *.
  assert (U : (200 * c + t) / (2 * t) <= 100).
  { apply Z.lt_succ_r. apply Z.div_lt_upper_bound; lia. }
  assert (Z0 : c = 0 -> JsNumber.rate c t = 0).
  { intros ->. apply JsNumberFacts.rate_zero. lia. }
  assert (L : 0 <= JsNumber.rate c t).
  { destruct (Z.eq_dec ((200 * c + t) mod (2 * t)) 0) as [E|E].
    - assert (1 <= (200 * c + t) / (2 * t)); [|lia].
      apply Z.div_le_lower_bound; [lia|].
      pose proof (Z.div_mod (200 * c + t) (2 * t)) as D.
      rewrite E in D.
      assert (0 < (200 * c + t) / (2 * t)) by nia. nia.
    - rewrite (Hex E). apply Z.div_pos; lia. }
  split; [lia|]. split; [|exact Z0].
  intros ->.
  assert (M : (200 * t + t) mod (2 * t) = t).
  { symmetry. apply (Z.mod_unique _ _ 100); [left; lia|lia]. }
  rewrite Hex by (rewrite M; lia).
  symmetry. apply (Z.div_unique _ _ 100 t); [left; lia|lia].
Qed.

Lemma length_filter_le {A} (p : A -> bool) (l : list A) :
  (List.length (filter p l) <= List.length l)%nat.
Proof.
  induction l as [|a l IH]; simpl; [lia|]. destruct (p a); simpl; lia.
Qed.

(* ================================================================= *)
(** ** The completion rate on the reports screen *)

(** X6. The completion rate of the reports screen is a whole percentage
    between 0 and 100; it is 100 when every task is completed and 0 when none
    is (for fewer than 2^32 tasks). *)
Theorem completion_rate_is_a_percentage :
  forall (tasks : list Task.t),
    Z.of_nat (List.length tasks) < 2 ^ 32 ->
    0 <= ReportsScreen.completionRate tasks <= 100
    /\ (tasks <> [] -> (forall t, In t tasks -> Task.status t = completed) ->
        ReportsScreen.completionRate tasks = 100)
    /\ ((forall t, In t tasks -> Task.status t <> completed) ->
        ReportsScreen.completionRate tasks = 0).
Proof.
  intros tasks Hn. unfold ReportsScreen.completionRate, ReportsScreen.stats. simpl.
  fold (JsNumber.rate (Z.of_nat (List.length (filter ReportsScreen.is_completed tasks)))
                      (Z.of_nat (List.length tasks))).
  pose proof (length_filter_le ReportsScreen.is_completed tasks) as Hle.
  destruct (Z.ltb_spec 0 (Z.of_nat (List.length tasks))) as [Hp|Hz].
  - destruct (@rate_bounds
                (Z.of_nat (List.length (filter ReportsScreen.is_completed tasks)))
                (Z.of_nat (List.length tasks))) as (B & A & N); [lia|lia|].
    split; [exact B|]. split.
    + intros _ Hall. apply A. f_equal.
      clear - Hall. induction tasks as [|a l IH]; simpl; [reflexivity|].
      unfold ReportsScreen.is_completed at 1.
      rewrite (Hall a (or_introl eq_refl)). simpl. f_equal.
      apply IH. intros t Ht. apply Hall. right. exact Ht.
    + intros Hnone. apply N.
      replace (filter ReportsScreen.is_completed tasks) with (@nil Task.t);
        [reflexivity|].
      clear - Hnone. induction tasks as [|a l IH]; simpl; [reflexivity|].
      unfold ReportsScreen.is_completed at 1.
      destruct (TaskStatus_eqb (Task.status a) completed) eqn:E.
      * apply TaskStatus_eqb_eq in E. exfalso.
        exact (Hnone a (or_introl eq_refl) E).
      * apply IH. intros t Ht. apply Hnone. right. exact Ht.
  - split; [lia|]. split; [|reflexivity].
    intros Hne. destruct tasks; [congruence|]. simpl in Hz. lia.
Qed.

Lemma completion_rate_is_a_percentage_witness :
  0 <= ReportsScreen.completionRate twenty_three_of_forty <= 100.
Proof.
  apply (@completion_rate_is_a_percentage twenty_three_of_forty).
  vm_compute. reflexivity.
Defined.

Lemma length_insert_desc {A} (key : A -> Z) (x : A) (l : list A) :
  List.length (insert_desc key x l) = S (List.length l).
Proof.
  induction l as [|a l IH]; simpl; [reflexivity|].
  destruct (key a <=? key x); simpl; congruence.
Qed.

Lemma length_order_desc {A} (key : A -> Z) (l : list A) :
  List.length (order_desc key l) = List.length l.
Proof.
  induction l as [|a l IH]; simpl; [reflexivity|].
  rewrite length_insert_desc. congruence.
Qed.

(* ================================================================= *)
(** ** The category statistics of the reports screen *)

(** X7. The category statistics of the reports screen have one row for each
    category of the provider, also for those without tasks, in descending
    order of their number of tasks; in each row the completed tasks are at
    most the tasks of the category, and the rate is a whole percentage
    between 0 and 100 that is 0 for a category without tasks (for fewer than
    2^32 tasks). *)
Theorem category_statistics_rows :
  forall (tasks : list Task.t) (categories : list Category.t),
    Z.of_nat (List.length tasks) < 2 ^ 32 ->
    let rows := ReportsCategories.categoryStats tasks categories in
    descending CategoryStats.total rows
    /\ List.length rows = List.length categories
    /\ (forall cat, In cat categories ->
          exists e, In e rows /\ CategoryStats.category e = cat)
    /\ (forall e, In e rows ->
          In (CategoryStats.category e) categories
          /\ CategoryStats.total e
             = Z.of_nat (List.length
                           (ReportsCategories.categoryTasks
                              tasks (CategoryStats.category e)))
          /\ 0 <= CategoryStats.completed e <= CategoryStats.total e
          /\ CategoryStats.total e <= Z.of_nat (List.length tasks)
          /\ 0 <= CategoryStats.completionRate e <= 100
          /\ (CategoryStats.total e = 0 -> CategoryStats.completionRate e = 0)).
Proof.
  intros tasks categories Hn. simpl. unfold ReportsCategories.categoryStats.
  split; [apply descending_order_desc|].
  split; [rewrite length_order_desc, length_map; reflexivity|].
  split.
  - intros cat Hc. exists (ReportsCategories.stats_of tasks cat). split.
    + apply In_order_desc. apply in_map. exact Hc.
    + reflexivity.
  - intros e He. apply In_order_desc in He. apply in_map_iff in He.
    destruct He as (cat & <- & Hc).
    unfold ReportsCategories.stats_of. simpl.
    set (ct := ReportsCategories.categoryTasks tasks cat).
    pose proof (length_filter_le (has_status completed) ct) as H1.
    assert (H2 : (List.length ct <= List.length tasks)%nat)
      by apply length_filter_le.
    split; [exact Hc|]. split; [reflexivity|]. split; [lia|]. split; [lia|].
    destruct (Z.ltb_spec 0 (Z.of_nat (List.length ct))) as [Hp|Hz].
    + destruct (@rate_bounds
                  (Z.of_nat (List.length (filter (has_status completed) ct)))
                  (Z.of_nat (List.length ct))) as (B & _ & _); [lia|lia|].
      split; [exact B|]. lia.
    + split; [lia|reflexivity].
Qed.

Lemma category_statistics_rows_witness :
  descending CategoryStats.total
    (ReportsCategories.categoryStats (tasks Sample.world) (categories Sample.world)).
Proof.
  apply (@category_statistics_rows (tasks Sample.world) (categories Sample.world)).
  vm_compute. reflexivity.
Defined.

Example sample_category_statistics :
  map (fun e => (Category.name (CategoryStats.category e), CategoryStats.total e,
                 CategoryStats.completed e, CategoryStats.completionRate e))
      (ReportsCategories.categoryStats
         (tasks Sample.world) (Category.mk "c3" "Home" "#10b981" "alice" 3000 false
                                 :: categories Sample.world))
  = [("General", 1, 1, 100); ("Work", 1, 0, 0); ("Home", 0, 0, 0)].
Proof. vm_compute. reflexivity. Qed.

(* ================================================================= *)
(** ** The checkbox of a task card *)

Lemma apply_status_update (s : TaskStatus) (t : Task.t) :
  apply_task_updates (TaskCard.status_update s) t = with_status s t.
Proof. destruct t; reflexivity. Qed.

Lemma update_status_where (id : string) (s : TaskStatus) (tbl : list Task.t) :
  update_tasks_where id (TaskCard.status_update s) tbl
  = map (fun t => if String.eqb (Task.id t) id then with_status s t else t) tbl.
Proof.
  unfold update_tasks_where. apply map_ext. intros t.
  rewrite apply_status_update. reflexivity.
Qed.

(** X8. The checkbox of a canceled task is disabled: a press changes
    nothing and sends no request.  For any other task, in a reliable
    environment, a press stores "upcoming" for a completed task and
    "completed" for an upcoming or overdue one; so a second press (on the card
    redrawn with the stored row) brings back the first status only if that was
    "completed" or "upcoming": an overdue task comes back as "upcoming".  No
    other column and no other row is changed. *)
Theorem checkbox_taps_toggle_between_completed_and_upcoming :
  forall (w : World) (task : Task.t),
    faults w = [] ->
    let once := tapped (Task.status task) in
    let twice := tapped once in
    (Task.status task = canceled ->
     TaskCard.pressCheckbox task w = (Returned tt, w))
    /\ (Task.status task <> canceled ->
        exists w1 w2,
          TaskCard.pressCheckbox task w = (Returned tt, w1)
          /\ tasks_tbl w1
             = map (fun t => if String.eqb (Task.id t) (Task.id task)
                             then with_status once t else t) (tasks_tbl w)
          /\ TaskCard.pressCheckbox (with_status once task) w1 = (Returned tt, w2)
          /\ tasks_tbl w2
             = map (fun t => if String.eqb (Task.id t) (Task.id task)
                             then with_status twice t else t) (tasks_tbl w)
          /\ (twice = Task.status task <->
              Task.status task = completed \/ Task.status task = upcoming)
          /\ (Task.status task = overdue -> twice = upcoming)).
Proof.
  intros w task F. simpl. split.
  - intros C. unfold TaskCard.pressCheckbox, TaskCard.isCanceled, has_status.
    rewrite C. reflexivity.
  - intros NC.
    assert (P1 : TaskCard.pressCheckbox task = TaskCard.handleStatusChange task).
    { unfold TaskCard.pressCheckbox, TaskCard.isCanceled, has_status.
      destruct (Task.status task); try reflexivity. congruence. }
    assert (P2 : TaskCard.pressCheckbox (with_status (tapped (Task.status task)) task)
                 = TaskCard.handleStatusChange
                     (with_status (tapped (Task.status task)) task)).
    { unfold TaskCard.pressCheckbox, TaskCard.isCanceled, has_status, tapped.
      destruct (Task.status task); reflexivity. }
    rewrite P1, P2. unfold TaskCard.handleStatusChange.
    destruct (@updateTask_reliable
                (Task.id task)
                (TaskCard.status_update (tapped (Task.status task))) w F)
      as (w1 & R1 & T1 & F1 & _).
    destruct (@updateTask_reliable
                (Task.id task)
                (TaskCard.status_update (tapped (tapped (Task.status task)))) w1 F1)
      as (w2 & R2 & T2 & _ & _).
    exists w1, w2.
    split; [exact R1|]. split; [rewrite T1; apply update_status_where|].
    split; [exact R2|]. split.
    + rewrite T2, T1, !update_status_where, map_map. apply map_ext. intros t.
      destruct (String.eqb (Task.id t) (Task.id task)) eqn:E; simpl; rewrite E;
        reflexivity.
    + unfold tapped. destruct (Task.status task); simpl; split;
        intros; try congruence; intuition congruence.
Qed.

Lemma checkbox_taps_witness :
  exists w1 w2,
    TaskCard.pressCheckbox late_task Sample.world = (Returned tt, w1)
    /\ TaskCard.pressCheckbox (with_status completed late_task) w1
       = (Returned tt, w2).
Proof.
  destruct (@checkbox_taps_toggle_between_completed_and_upcoming
              Sample.world late_task eq_refl) as (_ & H).
  destruct H as (w1 & w2 & A & _ & B & _); [discriminate|].
  exists w1, w2. split; [exact A|exact B].
Defined.

Example canceled_task_stays_canceled :
  TaskCard.pressCheckbox (with_status canceled late_task) Sample.world
  = (Returned tt, Sample.world).
Proof. reflexivity. Qed.

(* ================================================================= *)
(** ** Reloading in an unreliable environment *)

(** X9. [loadData] never throws and always clears the loading flag.  When
    its requests fail (the lookup and the insertion of the default category
    and the two selections), nothing is reported and the provider keeps the
    lists it had. *)
Theorem loadData_swallows_failures :
  forall (w : World),
    fst (loadData w) = Returned tt
    /\ loading (snd (loadData w)) = false
    /\ (forall u fs,
          user w = Some u ->
          faults w = true :: true :: true :: true :: fs ->
          local_state (snd (loadData w)) = local_state w
          /\ tasks_tbl (snd (loadData w)) = tasks_tbl w
          /\ categories_tbl (snd (loadData w)) = categories_tbl w
          /\ trace (snd (loadData w))
             = trace w ++ [EvSelect CategoriesTable; EvInsert CategoriesTable;
                           EvSelect CategoriesTable; EvSelect TasksTable]).
Proof.
  intros w. split; [|split].
  - unfold loadData, bind, get. destruct (user w); [|reflexivity].
    unfold try_finally, try_catch.
    match goal with |- context [let (o, w') := match ?b with _ => _ end in _] =>
      destruct b as [[[]|e] w1] end; reflexivity.
  - unfold loadData, bind, get. destruct (user w); [|reflexivity].
    unfold try_finally.
    match goal with |- context [let (o, w') := ?b in _] => destruct b end.
    reflexivity.
  - intros u fs U F. destruct w. simpl in U, F. subst.
    unfold local_state. cbn. rewrite <- !app_assoc. repeat split.
Qed.

Lemma loadData_swallows_failures_witness :
  local_state (snd (loadData (set_faults [true; true; true; true] Sample.world)))
  = local_state (set_faults [true; true; true; true] Sample.world).
Proof.
  destruct (@loadData_swallows_failures
              (set_faults [true; true; true; true] Sample.world)) as (_ & _ & H).
  destruct (H "alice" [] eq_refl eq_refl) as (A & _). exact A.
Defined.

(** X10. [ensureDefaultCategory] does not tell a failed lookup from a missing
    default category: when the lookup fails and the insertion that follows
    does not, a default category "General" is inserted whether or not the
    user has one, so that the user has one default category more. *)
Theorem failed_lookup_inserts_another_default_category :
  forall (w : World) (u : string),
    fails_once w ->
    fst (ensureDefaultCategory u w) = Returned tt
    /\ categories_tbl (snd (ensureDefaultCategory u w))
       = categories_tbl w ++ [general_row u (categories_tbl w) (clock w)]
    /\ count_defaults u (categories_tbl (snd (ensureDefaultCategory u w)))
       = S (count_defaults u (categories_tbl w)).
Proof.
  intros w u (fs & F & H).
  assert (E : fst (ensureDefaultCategory u w) = Returned tt
              /\ categories_tbl (snd (ensureDefaultCategory u w))
                 = categories_tbl w ++ [general_row u (categories_tbl w) (clock w)]).
  { destruct w. simpl in F. subst.
    destruct fs as [|[] fs]; simpl in H; try discriminate; cbn; split; reflexivity. }
  destruct E as [E1 E2]. split; [exact E1|]. split; [exact E2|].
  rewrite E2. unfold count_defaults. rewrite length_filter_app.
  rewrite owned_default_general, String.eqb_refl. lia.
Qed.

Lemma failed_lookup_witness :
  count_defaults "alice" (categories_tbl (snd (ensureDefaultCategory "alice" flaky_world)))
  = 2%nat.
Proof.
  apply (@failed_lookup_inserts_another_default_category flaky_world "alice").
  exists []. split; reflexivity.
Defined.

(* ================================================================= *)
(** ** Writes that fail *)

(** X11. When the request of [addTask], [updateTask], [deleteTask],
    [addCategory] or [updateCategory] fails, the error of the service is
    thrown to the caller and nothing is reloaded: apart from the logged
    request, the world is as before. *)
Theorem failed_write_is_thrown_and_nothing_is_reloaded :
  forall (m : Mutation) (w : World) (fs : list bool),
    faults w = true :: fs ->
    user w <> None ->
    (forall id, m <> MDeleteCategory id) ->
    exists e,
      run_mutation m w = (Thrown request_failed, set_faults fs (emit e w)).
Proof.
  intros m w fs F U N. destruct w. simpl in F, U. subst.
  destruct user0 as [u|]; [|congruence].
  destruct m; try (eexists; cbn; reflexivity).
  exfalso. exact (N id eq_refl).
Qed.

Lemma failed_write_witness :
  exists e,
    run_mutation (MDeleteTask "t1") flaky_world
    = (Thrown request_failed, set_faults [] (emit e flaky_world)).
Proof.
  apply (@failed_write_is_thrown_and_nothing_is_reloaded
           (MDeleteTask "t1") flaky_world []).
  - reflexivity.
  - discriminate.
  - discriminate.
Defined.

(* ================================================================= *)
(** ** Deleting a category when the moves fail *)

Lemma move_loop_all_fail (target : string) (ts : list Task.t) (w : World)
    (fs : list bool) :
  faults w = repeat true (List.length ts) ++ fs ->
  for_of ts (move_body target) w
  = (Returned tt,
     set_faults fs
       (set_trace (trace w ++ map (fun t => EvUpdate TasksTable (Task.id t)) ts) w)).
Proof.
  revert w. induction ts as [|t0 ts IH];
    intros [rt rc sch fl ck tr us lt lc ld reg dl]; simpl; intros ->.
  - unfold ret, set_trace, set_faults. simpl. rewrite app_nil_r. reflexivity.
  - unfold bind at 1. unfold move_body at 1. run_prog.
    rewrite IH by reflexivity. unfold set_trace, set_faults. simpl.
    rewrite <- app_assoc. reflexivity.
Qed.

(** X12. [deleteCategory] does not look at the result of the requests that
    move the tasks: when each of them fails and the rest succeeds, the
    category is deleted and the call returns normally, but no task has been
    moved, so the tasks of the category keep pointing to the deleted
    category. *)
Theorem deleteCategory_orphans_tasks_when_moves_fail :
  forall (w : World) (id : string) (c dc : Category.t),
    find (by_id id) (categories w) = Some c ->
    Category.is_default c = false ->
    find Category.is_default (categories w) = Some dc ->
    faults w = repeat true (List.length (filter (in_category id) (tasks w))) ->
    fst (deleteCategory id w) = Returned tt
    /\ ~ In c (categories_tbl (snd (deleteCategory id w)))
    /\ tasks_tbl (snd (deleteCategory id w)) = tasks_tbl w.
Proof.
  intros w id c dc Hc Hd Hdc F.
  set (ts := filter (in_category id) (tasks w)) in *.
  set (w1 := set_faults []
               (set_trace (trace w ++ map (fun t => EvUpdate TasksTable (Task.id t)) ts)
                          w)).
  set (w2 := set_categories_tbl (filter (fun c => negb (by_id id c)) (categories_tbl w))
               (emit (EvDelete CategoriesTable id) w1)).
  assert (L : for_of ts (move_body (Category.id dc)) w = (Returned tt, w1)).
  { apply move_loop_all_fail. rewrite app_nil_r. exact F. }
  assert (D : delete_category id w1 = (Returned (mkResponse None None), w2)).
  { unfold delete_category, await. rewrite external_reliable; reflexivity. }
  assert (E : deleteCategory id w = refreshData w2).
  { unfold deleteCategory. unfold bind at 1, get at 1.
    fold (by_id id). rewrite Hc, Hd, Hdc.
    unfold bind at 1 2, get at 1. fold (in_category id). fold ts.
    change (fun task : Task.t =>
              bind (update_task (Task.id task) (move_to (Category.id dc)))
                   (fun _ => ret tt))
      with (move_body (Category.id dc)).
    rewrite L. unfold bind at 1. rewrite D. reflexivity. }
  assert (F2 : faults w2 = []) by reflexivity.
  destruct (refreshData_reliable w2 F2) as (w' & R & T & _).
  destruct (refreshData_categories w2 F2) as (w'' & R' & C).
  rewrite R in R'. inversion R'; subst w''. clear R'.
  rewrite E, R. simpl. split; [reflexivity|]. split; [|exact T].
  apply find_by_id_spec in Hc. destruct Hc as [_ Hid].
  assert (N : ~ In c (categories_tbl w2)).
  { simpl. rewrite filter_In. unfold by_id. rewrite Hid, String.eqb_refl.
    simpl. intros [_ H]. discriminate. }
  rewrite C. destruct (user w2) as [u|]; [|exact N].
  unfold ensured. destruct (count_defaults u (categories_tbl w2) =? 1)%nat; [exact N|].
  rewrite in_app_iff. intros [H|[H|[]]]; [exact (N H)|].
  rewrite <- H in Hd. discriminate.
Qed.

Lemma deleteCategory_orphans_witness :
  fst (deleteCategory "c2" flaky_world) = Returned tt
  /\ ~ In Sample.work (categories_tbl (snd (deleteCategory "c2" flaky_world)))
  /\ tasks_tbl (snd (deleteCategory "c2" flaky_world)) = tasks_tbl flaky_world.
Proof.
  apply (@deleteCategory_orphans_tasks_when_moves_fail
           flaky_world "c2" Sample.work Sample.general); reflexivity.
Defined.

Example orphaned_report :
  map (fun t => (Task.id t, Task.category_id t))
      (tasks_tbl (snd (deleteCategory "c2" flaky_world)))
  = [("t1", "c2"); ("t2", "c1")]
  /\ map Category.id (categories_tbl (snd (deleteCategory "c2" flaky_world)))
     = ["c1"].
Proof. vm_compute. split; reflexivity. Qed.

(* ================================================================= *)
(** ** Reloading twice *)

Lemma count_ensured_one (u : string) (tbl : list Category.t) (now : Z) :
  (count_defaults u tbl <= 1)%nat -> count_defaults u (ensured u tbl now) = 1%nat.
Proof.
  intros H. rewrite count_ensured, String.eqb_refl.
  destruct (Nat.eqb_spec (count_defaults u tbl) 1); lia.
Qed.

Lemma ensured_fixed (u : string) (tbl : list Category.t) (now : Z) :
  count_defaults u tbl = 1%nat -> ensured u tbl now = tbl.
Proof. intros H. unfold ensured. rewrite H. reflexivity. Qed.

(** X13. A reload is idempotent when the user has at most one default
    category: in a reliable environment a second reload changes neither the
    remote tables nor the lists of the provider. *)
Theorem second_reload_changes_nothing :
  forall (w : World) (u : string),
    faults w = [] -> user w = Some u ->
    (count_defaults u (categories_tbl w) <= 1)%nat ->
    exists w1 w2,
      loadData w = (Returned tt, w1)
      /\ loadData w1 = (Returned tt, w2)
      /\ local_state w2 = local_state w1
      /\ tasks_tbl w2 = tasks_tbl w1
      /\ categories_tbl w2 = categories_tbl w1.
Proof.
  intros w u F U H.
  destruct (@loadData_reliable w u F U) as (w1 & L1 & R1).
  destruct R1.
  assert (U1 : user w1 = Some u) by congruence.
  destruct (@loadData_reliable w1 u rl_faults0 U1) as (w2 & L2 & R2).
  destruct R2.
  assert (C : categories_tbl w2 = categories_tbl w1).
  { rewrite rl_categories_tbl1. apply ensured_fixed.
    rewrite rl_categories_tbl0. apply count_ensured_one. exact H. }
  exists w1, w2. repeat split; auto.
  unfold local_state. congruence.
Qed.

Lemma second_reload_witness :
  exists w1 w2,
    loadData Sample.world = (Returned tt, w1)
    /\ loadData w1 = (Returned tt, w2)
    /\ local_state w2 = local_state w1.
Proof.
  destruct (@second_reload_changes_nothing Sample.world "alice")
    as (w1 & w2 & A & B & C & _);
    [reflexivity | reflexivity | vm_compute; lia |].
  exists w1, w2. auto.
Defined.

(** X14. When the user has two or more default categories, the lookup of
    [ensureDefaultCategory] yields no row, and every reload inserts one more
    default category "General". *)
Theorem every_reload_adds_a_default_when_there_are_several :
  forall (w : World) (u : string),
    faults w = [] -> user w = Some u ->
    (2 <= count_defaults u (categories_tbl w))%nat ->
    fst (loadData w) = Returned tt
    /\ categories_tbl (snd (loadData w))
       = categories_tbl w ++ [general_row u (categories_tbl w) (clock w)]
    /\ count_defaults u (categories_tbl (snd (loadData w)))
       = S (count_defaults u (categories_tbl w)).
Proof.
  intros w u F U H.
  destruct (@loadData_reliable w u F U) as (w1 & L1 & R1).
  rewrite L1. simpl. destruct R1.
  assert (E : ensured u (categories_tbl w) (clock w)
              = categories_tbl w ++ [general_row u (categories_tbl w) (clock w)]).
  { unfold ensured. destruct (Nat.eqb_spec (count_defaults u (categories_tbl w)) 1);
      [lia|reflexivity]. }
  split; [reflexivity|]. split; [congruence|].
  rewrite rl_categories_tbl0, count_ensured, String.eqb_refl.
  destruct (Nat.eqb_spec (count_defaults u (categories_tbl w)) 1); lia.
Qed.

Lemma every_reload_adds_a_default_witness :
  count_defaults "alice" (categories_tbl (snd (loadData two_defaults))) = 3%nat.
Proof.
  apply (@every_reload_adds_a_default_when_there_are_several two_defaults "alice");
    [reflexivity | reflexivity | vm_compute; lia].
Defined.

(* ================================================================= *)
(** ** The lists after a reload *)

Lemma descending_head {A} (key : A -> Z) (l : list A) (x : A) :
  descending key l -> In x l ->
  exists h rest, l = h :: rest /\ key x <= key h.
Proof.
  destruct l as [|h rest]; [intros _ []|].
  intros [H _] [E|Hx]; exists h, rest; (split; [reflexivity|]).
  - subst. lia.
  - apply H. exact Hx.
Qed.

Lemma Permutation_insert_desc {A} (key : A -> Z) (x : A) (l : list A) :
  Permutation (insert_desc key x l) (x :: l).
Proof.
  induction l as [|a l IH]; simpl; [apply Permutation_refl|].
  destruct (key a <=? key x); [apply Permutation_refl|].
  apply perm_trans with (a :: x :: l); [apply perm_skip, IH|apply perm_swap].
Qed.

Lemma Permutation_order_desc {A} (key : A -> Z) (l : list A) :
  Permutation (order_desc key l) l.
Proof.
  induction l as [|a l IH]; simpl; [apply perm_nil|].
  apply perm_trans with (a :: order_desc key l);
    [apply Permutation_insert_desc|apply perm_skip, IH].
Qed.

(** X15. After a reload in a reliable environment the list of categories of
    the provider starts with a default category of the user; it is the one
    that [deleteCategory] and the task dialog find as "the" default
    category. *)
Theorem reloaded_categories_start_with_the_default :
  forall (w : World) (u : string),
    faults w = [] -> user w = Some u ->
    exists dc rest,
      categories (snd (loadData w)) = dc :: rest
      /\ Category.is_default dc = true
      /\ Category.user_id dc = u
      /\ In dc (categories_tbl (snd (loadData w)))
      /\ find Category.is_default (categories (snd (loadData w))) = Some dc.
Proof.
  intros w u F U.
  destruct (@loadData_reliable w u F U) as (w1 & L1 & R1).
  rewrite L1. simpl. destruct R1.
  assert (N : (1 <= count_defaults u (categories_tbl w1))%nat).
  { rewrite rl_categories_tbl0, count_ensured, String.eqb_refl.
    destruct (Nat.eqb_spec (count_defaults u (categories_tbl w)) 1); lia. }
  set (tbl := categories_tbl w1) in *.
  unfold count_defaults in N.
  destruct (filter (owned_default u) tbl) as [|x xs] eqn:E; [simpl in N; lia|].
  assert (Hx : In x (filter (owned_default u) tbl)) by (rewrite E; left; reflexivity).
  apply filter_In in Hx. destruct Hx as [Hx Ho].
  unfold owned_default in Ho. apply andb_true_iff in Ho. destruct Ho as [Hu Hd].
  apply String.eqb_eq in Hu.
  assert (Hc : In x (categories_of u tbl)) by (apply In_categories_of; auto).
  destruct (descending_head (fun c => if Category.is_default c then 1 else 0)
              (categories_of u tbl) x) as (dc & rest & El & Hk).
  { apply descending_order_desc. }
  { exact Hc. }
  rewrite Hd in Hk.
  assert (Dd : Category.is_default dc = true)
    by (destruct (Category.is_default dc); [reflexivity|lia]).
  assert (Hin : In dc (categories_of u tbl)) by (rewrite El; left; reflexivity).
  apply In_categories_of in Hin. destruct Hin as [Hin Hown].
  exists dc, rest. rewrite rl_categories0. fold tbl. rewrite El. simpl.
  rewrite Dd. auto.
Qed.

Lemma reloaded_categories_witness :
  exists dc rest,
    categories (snd (loadData Sample.world)) = dc :: rest
    /\ Category.is_default dc = true.
Proof.
  destruct (@reloaded_categories_start_with_the_default Sample.world "alice"
              eq_refl eq_refl) as (dc & rest & A & B & _).
  exists dc, rest. auto.
Defined.

(** X16. After a reload in a reliable environment the list of tasks of the
    provider holds exactly the remote rows of the user, each as often as the
    table has it, the most recently created first. *)
Theorem reloaded_tasks_are_the_rows_of_the_user_newest_first :
  forall (w : World) (u : string),
    faults w = [] -> user w = Some u ->
    Permutation (tasks (snd (loadData w))) (rows_of u (tasks_tbl w))
    /\ descending Task.created_at (tasks (snd (loadData w)))
    /\ (forall t, In t (tasks (snd (loadData w))) -> Task.user_id t = u).
Proof.
  intros w u F U.
  destruct (@loadData_reliable w u F U) as (w1 & L1 & R1).
  rewrite L1. simpl. destruct R1.
  rewrite rl_tasks0, rl_tasks_tbl0. unfold tasks_of. fold (rows_of u (tasks_tbl w)).
  split; [apply Permutation_order_desc|].
  split; [apply descending_order_desc|].
  intros t Ht. apply In_order_desc in Ht. apply filter_In in Ht.
  destruct Ht as [_ Ht]. apply String.eqb_eq. exact Ht.
Qed.

Lemma reloaded_tasks_witness :
  descending Task.created_at (tasks (snd (loadData Sample.world))).
Proof.
  apply (@reloaded_tasks_are_the_rows_of_the_user_newest_first
           Sample.world "alice" eq_refl eq_refl).
Defined.

(* ================================================================= *)
(** ** Adding and deleting a task *)

Lemma filter_all {A} (p : A -> bool) (l : list A) :
  (forall x, In x l -> p x = true) -> filter p l = l.
Proof.
  induction l as [|a l IH]; simpl; intros H; [reflexivity|].
  rewrite (H a (or_introl eq_refl)). f_equal. apply IH. intros x Hx. apply H.
  right. exact Hx.
Qed.

Lemma addTask_reliable (task : NewTask.t) (u : string) (w : World) :
  faults w = [] -> user w = Some u ->
  let row := new_task_row (fresh_key (map Task.id (tasks_tbl w))) (clock w) task u
                          (Z.of_nat (List.length (tasks w))) in
  exists w', addTask task w = (Returned tt, w')
             /\ tasks_tbl w' = tasks_tbl w ++ [row]
             /\ tasks w' = tasks_of u (tasks_tbl w')
             /\ faults w' = [] /\ user w' = Some u.
Proof.
  intros Hf U row. unfold addTask. unfold bind at 1, get at 1. rewrite U.
  unfold bind at 1, get at 1. unfold bind at 1. unfold insert_task, await.
  rewrite external_reliable by exact Hf. unfold bind, throw_on_error, ret. simpl.
  unfold refreshData.
  match goal with |- context [loadData ?x] =>
    destruct (@loadData_reliable x u) as (w' & E & R); [exact Hf|exact U|]
  end.
  rewrite E. exists w'. destruct R. simpl in *. repeat split; auto. congruence.
Qed.

Lemma deleteTask_reliable (id u : string) (w : World) :
  faults w = [] -> user w = Some u ->
  exists w', deleteTask id w = (Returned tt, w')
             /\ tasks_tbl w'
                = filter (fun t => negb (String.eqb (Task.id t) id)) (tasks_tbl w)
             /\ tasks w' = tasks_of u (tasks_tbl w')
             /\ faults w' = [] /\ user w' = Some u.
Proof.
  intros Hf U. unfold deleteTask. unfold bind at 1. unfold delete_task, await.
  rewrite external_reliable by exact Hf. unfold bind, throw_on_error, ret. simpl.
  unfold refreshData.
  match goal with |- context [loadData ?x] =>
    destruct (@loadData_reliable x u) as (w' & E & R); [exact Hf|exact U|]
  end.
  rewrite E. exists w'. destruct R. simpl in *. repeat split; auto. congruence.
Qed.

(** X17. In a reliable environment [addTask] appends one row, owned by the
    user, whose [order_index] is the number of tasks the provider held, and
    the row is in the provider's list afterwards; its key is new, and
    [deleteTask] of that key gives back the table as it was and removes the
    task from the list. *)
Theorem added_task_is_listed_and_deleting_it_restores_the_table :
  forall (w : World) (u : string) (task : NewTask.t),
    faults w = [] -> user w = Some u ->
    let row := new_task_row (fresh_key (map Task.id (tasks_tbl w))) (clock w) task u
                            (Z.of_nat (List.length (tasks w))) in
    exists w1 w2,
      addTask task w = (Returned tt, w1)
      /\ tasks_tbl w1 = tasks_tbl w ++ [row]
      /\ In row (tasks w1)
      /\ (forall t, In t (tasks_tbl w) -> Task.id t <> Task.id row)
      /\ deleteTask (Task.id row) w1 = (Returned tt, w2)
      /\ tasks_tbl w2 = tasks_tbl w
      /\ ~ In row (tasks w2).
Proof.
  intros w u task F U row.
  destruct (@addTask_reliable task u w F U) as (w1 & A & T1 & L1 & F1 & U1).
  fold row in T1.
  destruct (@deleteTask_reliable (Task.id row) u w1 F1 U1) as (w2 & D & T2 & L2 & _).
  assert (Fresh : forall t, In t (tasks_tbl w) -> Task.id t <> Task.id row).
  { intros t Ht E. apply (fresh_key_fresh (map Task.id (tasks_tbl w))).
    change (fresh_key (map Task.id (tasks_tbl w))) with (Task.id row).
    rewrite <- E. apply in_map. exact Ht. }
  assert (T : tasks_tbl w2 = tasks_tbl w).
  { rewrite T2, T1, filter_app. simpl. rewrite String.eqb_refl. simpl.
    rewrite app_nil_r. apply filter_all. intros t Ht.
    apply negb_true_iff. apply String.eqb_neq. apply Fresh. exact Ht. }
  exists w1, w2. repeat split; auto.
  - rewrite L1, T1. apply In_tasks_of. split; [|reflexivity].
    apply in_or_app. right. left. reflexivity.
  - rewrite L2, T. intros H. apply In_tasks_of in H. destruct H as [H _].
    exact (Fresh row H eq_refl).
Qed.

Lemma added_task_witness :
  exists w1 w2,
    addTask (NewTask.mk "Book flights" None upcoming "c1" None None None) Sample.world
    = (Returned tt, w1)
    /\ tasks_tbl w2 = tasks_tbl Sample.world.
Proof.
  destruct (@added_task_is_listed_and_deleting_it_restores_the_table
              Sample.world "alice"
              (NewTask.mk "Book flights" None upcoming "c1" None None None)
              eq_refl eq_refl) as (w1 & w2 & A & _ & _ & _ & _ & B & _).
  exists w1, w2. auto.
Defined.

Lemma deleteTask_rows (id : string) (w : World) :
  faults w = [] ->
  exists w', deleteTask id w = (Returned tt, w')
             /\ tasks_tbl w'
                = filter (fun t => negb (String.eqb (Task.id t) id)) (tasks_tbl w).
Proof.
  intros F. unfold deleteTask. unfold bind at 1. unfold delete_task, await.
  rewrite external_reliable by exact F. unfold bind, throw_on_error, ret. simpl.
  match goal with |- context [refreshData ?x] =>
    destruct (@refreshData_device x) as (w' & E & T & _); [exact F|]
  end.
  rewrite E. exists w'. split; [reflexivity|]. rewrite T. reflexivity.
Qed.

(** X18. [updateTask] and [deleteTask] with a key that no row has change no
    row, and still return normally after a reload: a missing task is not
    reported. *)
Theorem writes_to_a_missing_task_succeed_silently :
  forall (w : World) (id : string) (updates : TaskUpdates.t),
    faults w = [] ->
    (forall t, In t (tasks_tbl w) -> Task.id t <> id) ->
    fst (updateTask id updates w) = Returned tt
    /\ tasks_tbl (snd (updateTask id updates w)) = tasks_tbl w
    /\ fst (deleteTask id w) = Returned tt
    /\ tasks_tbl (snd (deleteTask id w)) = tasks_tbl w.
Proof.
  intros w id updates F H.
  destruct (@updateTask_reliable id updates w F) as (w1 & R1 & T1 & _).
  rewrite R1. simpl. split; [reflexivity|]. split.
  - rewrite T1. unfold update_tasks_where.
    rewrite <- (map_id (tasks_tbl w)) at 2. apply map_ext_in. intros t Ht.
    apply H in Ht. apply String.eqb_neq in Ht. rewrite Ht. reflexivity.
  - destruct (@deleteTask_rows id w F) as (w2 & R2 & T2).
    rewrite R2. simpl. split; [reflexivity|]. rewrite T2.
    apply filter_all. intros t Ht. apply negb_true_iff. apply String.eqb_neq.
    apply H. exact Ht.
Qed.

Lemma writes_to_a_missing_task_witness :
  fst (updateTask "t9" (TaskCard.status_update completed) Sample.world) = Returned tt
  /\ tasks_tbl (snd (updateTask "t9" (TaskCard.status_update completed) Sample.world))
     = tasks_tbl Sample.world.
Proof.
  destruct (@writes_to_a_missing_task_succeed_silently
              Sample.world "t9" (TaskCard.status_update completed) eq_refl)
    as (A & B & _).
  - intros t [<-|[<-|[]]]; discriminate.
  - split; [exact A|exact B].
Defined.

(* ================================================================= *)
(** ** The lead time after the automatic adjustment *)

Lemma adjusted_value (m : Z) :
  0 < m ->
  exists maxValid,
    last_option (TaskDialog.validNotificationOptions (Some m)) = Some maxValid
    /\ (1 < m -> NotificationOption.value maxValid < m)
    /\ (m = 1 -> NotificationOption.value maxValid = 1).
Proof.
  intros H. rewrite validNotificationOptions_future by exact H.
  unfold last_option. split_options m;
    (eexists; split; [reflexivity|]; simpl; lia).
Qed.

Lemma autoAdjust_result (d : Dialog.t) (due m : Z) :
  Dialog.dueDate d = Some due -> Dialog.minutesUntilDue d = Some m -> 0 < m ->
  exists v,
    (1 < m -> v < m) /\ (m = 1 -> v = 1)
    /\ TaskDialog.autoAdjust d
       = if m <=? Dialog.notificationMinutesBefore d
         then TaskDialog.setNotificationMinutesBefore v d else d.
Proof.
  intros Hd Hm Hpos.
  destruct (adjusted_value Hpos) as (maxValid & Hlast & H1 & H2).
  exists (NotificationOption.value maxValid). split; [exact H1|]. split; [exact H2|].
  unfold TaskDialog.autoAdjust. rewrite Hd, Hm.
  destruct (Z.ltb_spec 0 m); [|lia].
  destruct (m <=? Dialog.notificationMinutesBefore d); [|reflexivity].
  unfold last_option in Hlast. rewrite Hlast. reflexivity.
Qed.

Lemma isNotificationValid_future (d : Dialog.t) (due m : Z) :
  Dialog.dueDate d = Some due -> Dialog.minutesUntilDue d = Some m -> 0 < m ->
  TaskDialog.isNotificationValid d = (Dialog.notificationMinutesBefore d <? m).
Proof.
  intros Hd Hm Hpos. unfold TaskDialog.isNotificationValid. rewrite Hd, Hm. simpl.
  destruct (Z.eqb_spec m 0); [lia|]. reflexivity.
Qed.

(** X19. The automatic adjustment of the lead time leaves a valid lead time
    whenever the task is due in more than one minute.  With one minute left
    no lead time of a minute or more is valid, neither before nor after the
    adjustment.  Adjusting twice is as adjusting once. *)
Theorem adjustment_yields_a_valid_lead_time_unless_one_minute_is_left :
  forall (d : Dialog.t) (due m : Z),
    Dialog.dueDate d = Some due ->
    Dialog.minutesUntilDue d = Some m ->
    0 < m ->
    let d' := TaskDialog.autoAdjust d in
    (1 < m -> TaskDialog.isNotificationValid d' = true)
    /\ (m = 1 -> 1 <= Dialog.notificationMinutesBefore d ->
        TaskDialog.isNotificationValid d = false
        /\ TaskDialog.isNotificationValid d' = false
        /\ Dialog.notificationMinutesBefore d' = 1)
    /\ TaskDialog.autoAdjust d' = d'.
Proof.
  intros d due m Hd Hm Hpos d'.
  destruct (autoAdjust_result d Hd Hm Hpos) as (v & V1 & V2 & E).
  fold d' in E.
  assert (Hd' : Dialog.dueDate d' = Some due)
    by (rewrite E; destruct (m <=? Dialog.notificationMinutesBefore d); exact Hd).
  assert (Hm' : Dialog.minutesUntilDue d' = Some m)
    by (rewrite E; destruct (m <=? Dialog.notificationMinutesBefore d); exact Hm).
  assert (N : Dialog.notificationMinutesBefore d'
              = if m <=? Dialog.notificationMinutesBefore d then v
                else Dialog.notificationMinutesBefore d)
    by (rewrite E; destruct (m <=? Dialog.notificationMinutesBefore d); reflexivity).
  split; [|split].
  - intros H. rewrite (isNotificationValid_future d' Hd' Hm' Hpos), N.
    apply Z.ltb_lt. destruct (Z.leb_spec m (Dialog.notificationMinutesBefore d)); lia.
  - intros M H. rewrite (isNotificationValid_future d Hd Hm Hpos).
    rewrite (isNotificationValid_future d' Hd' Hm' Hpos), N.
    rewrite (V2 M). subst m.
    destruct (Z.leb_spec 1 (Dialog.notificationMinutesBefore d)); [|lia].
    repeat split; try reflexivity. apply Z.ltb_ge. lia.
  - destruct (autoAdjust_result d' Hd' Hm' Hpos) as (v' & V1' & V2' & E').
    rewrite E', N.
    destruct (Z.leb_spec m (Dialog.notificationMinutesBefore d)) as [Hle|Hgt].
    + destruct (Z.leb_spec m v) as [Hv|Hv]; [|reflexivity].
      assert (M1 : m = 1) by lia.
      rewrite (V2' M1). rewrite E at 2.
      destruct (Z.leb_spec m (Dialog.notificationMinutesBefore d)); [|lia].
      rewrite (V2 M1). rewrite E.
      destruct (Z.leb_spec m (Dialog.notificationMinutesBefore d)); [|lia].
      reflexivity.
    + destruct (Z.leb_spec m (Dialog.notificationMinutesBefore d)); [lia|reflexivity].
Qed.

Lemma adjustment_witness :
  TaskDialog.isNotificationValid (TaskDialog.autoAdjust (dialog due_in_one_minute))
  = false.
Proof.
  destruct (@adjustment_yields_a_valid_lead_time_unless_one_minute_is_left
              (dialog due_in_one_minute) 95000 1 eq_refl eq_refl)
    as (_ & H & _); [lia|].
  apply H; [reflexivity|simpl; lia].
Defined.

(* ================================================================= *)
(** ** Submissions that the validation refuses *)

Lemma refused_submission (w : World) (m : Z) :
  trim (Dialog.title (dialog w)) <> "" -> Dialog.categoryId (dialog w) <> "" ->
  Dialog.enableNotification (dialog w) = true ->
  Dialog.dueDate (dialog w) <> None ->
  Dialog.minutesUntilDue (dialog w) = Some m -> 0 < m ->
  m <= Dialog.notificationMinutesBefore (dialog w) ->
  TaskDialog.handleSubmit w
  = (Returned tt, emit (invalid_notification_alert (dialog w)) w).
Proof.
  intros Ht Hc He Hd Hm Hpos Hle.
  unfold TaskDialog.handleSubmit. unfold bind at 1 2 3, get at 1 2 3.
  rewrite (submission_accepted _ Ht Hc), He.
  destruct (Dialog.dueDate (dialog w)) as [due|] eqn:D; [|congruence].
  rewrite (isNotificationValid_future (dialog w) D Hm Hpos).
  unfold TaskDialog.isOverdue. rewrite Hm.
  destruct (Z.leb_spec m 0); [lia|].
  destruct (Z.ltb_spec (Dialog.notificationMinutesBefore (dialog w)) m); [lia|].
  reflexivity.
Qed.

(** X20. When the reminder is on, the due date is ahead and the selected lead
    time is not shorter than the minutes left, [handleSubmit] only shows the
    alert "Invalid Notification": no request is made and nothing is saved.
    With one minute left this holds for every lead time of a minute or more,
    also after the automatic adjustment, while the section with the toggle
    and the lead times is not shown: such a task cannot be saved. *)
Theorem refused_submission_only_alerts :
  forall (w : World) (m : Z),
    let d := dialog w in
    trim (Dialog.title d) <> "" -> Dialog.categoryId d <> "" ->
    Dialog.enableNotification d = true ->
    Dialog.dueDate d <> None ->
    Dialog.minutesUntilDue d = Some m -> 0 < m ->
    m <= Dialog.notificationMinutesBefore d ->
    TaskDialog.handleSubmit w = (Returned tt, emit (invalid_notification_alert d) w)
    /\ (m = 1 ->
        (forall registered,
            TaskDialogForm.notificationSectionShown d registered = false)
        /\ let w' := set_dialog (TaskDialog.autoAdjust d) w in
           TaskDialog.handleSubmit w'
           = (Returned tt, emit (invalid_notification_alert (dialog w')) w')).
Proof.
  intros w m d Ht Hc He Hd Hm Hpos Hle.
  split; [apply (@refused_submission w m); assumption|].
  intros ->. split.
  - intros registered. unfold TaskDialogForm.notificationSectionShown.
    fold d. rewrite Hm. simpl. rewrite !andb_false_r. reflexivity.
  - intros w'.
    destruct (Dialog.dueDate d) as [due|] eqn:D; [|congruence].
    destruct (autoAdjust_result d D Hm Hpos) as (v & _ & V & E).
    destruct (Z.leb_spec 1 (Dialog.notificationMinutesBefore d)); [|lia].
    rewrite (V eq_refl) in E.
    assert (Dw : dialog w' = TaskDialog.setNotificationMinutesBefore 1 d)
      by (subst w'; unfold set_dialog; cbn [dialog]; exact E).
    apply (@refused_submission w' 1); rewrite ?Dw; simpl; auto; try lia.
    congruence.
Qed.

Lemma refused_submission_witness :
  TaskDialog.handleSubmit due_in_one_minute
  = (Returned tt,
     emit (invalid_notification_alert (dialog due_in_one_minute)) due_in_one_minute).
Proof.
  apply (@refused_submission_only_alerts due_in_one_minute 1);
    try reflexivity; try discriminate; try (simpl; lia).
Defined.

(* ================================================================= *)
(** ** Saving an edited task *)

(** [handleSubmit] on an edited task, once the guard and the validation have
    let it through, in a reliable environment. *)
Lemma handleSubmit_edit (w : World) (task : Task.t) :
  let d := dialog w in
  faults w = [] ->
  trim (Dialog.title d) <> "" -> Dialog.categoryId d <> "" ->
  Dialog.enableNotification d && is_some (Dialog.dueDate d)
  && negb (TaskDialog.isOverdue d) && negb (TaskDialog.isNotificationValid d) = false ->
  Dialog.task d = Some task ->
  exists w2,
    tasks_tbl w2
    = update_tasks_where (Task.id task) (as_updates (TaskDialog.taskData d)) (tasks_tbl w)
    /\ faults w2 = [] /\ same_device (setLoading true w) w2
    /\ TaskDialog.handleSubmit w
       = match TaskDialog.remind d (isRegistered w)
                 (Some (spread task (TaskDialog.taskData d))) w2 with
         | (Returned _, w3) =>
             (Returned tt,
              setLoading false (resetForm (categories w) (emit EvDismiss w3)))
         | (Thrown _, w3) =>
             (Returned tt, setLoading false (emit save_failed_alert w3))
         end.
Proof.
  intros d Hf Ht Hc Hv Htask.
  assert (Hf1 : faults (setLoading true w) = []) by exact Hf.
  destruct (updateTask_reliable (Task.id task)
              (as_updates (TaskDialog.taskData d)) (setLoading true w) Hf1)
    as (w2 & E & Tb & F2 & D).
  exists w2. split; [exact Tb|]. split; [exact F2|]. split; [exact D|].
  unfold TaskDialog.handleSubmit. unfold bind at 1 2 3, get at 1 2 3. fold d.
  rewrite (submission_accepted d Ht Hc), Hv.
  unfold try_finally, try_catch. unfold bind at 1. unfold modify at 1.
  cbv beta iota. unfold bind at 1. unfold TaskDialog.save. rewrite Htask.
  unfold bind at 1. rewrite E. unfold ret at 1. cbv beta iota.
  unfold bind at 1.
  destruct (TaskDialog.remind d (isRegistered w)
              (Some (spread task (TaskDialog.taskData d))) w2) as [[[]|e] w3];
    reflexivity.
Qed.

Lemma closed_dialog_rows (cats : list Category.t) (w : World) :
  tasks_tbl (setLoading false (resetForm cats (emit EvDismiss w))) = tasks_tbl w.
Proof. reflexivity. Qed.

Lemma closed_dialog_trace (cats : list Category.t) (w : World) :
  trace (setLoading false (resetForm cats (emit EvDismiss w))) = trace w ++ [EvDismiss].
Proof. reflexivity. Qed.

Lemma closed_dialog_scheduled (cats : list Category.t) (w : World) :
  scheduled (setLoading false (resetForm cats (emit EvDismiss w))) = scheduled w.
Proof. reflexivity. Qed.

Lemma update_keeps_column {A} (col : Task.t -> A) (id : string)
    (u : TaskUpdates.t) (tbl : list Task.t) :
  (forall t, col (apply_task_updates u t) = col t) ->
  map col (update_tasks_where id u tbl) = map col tbl.
Proof.
  intros H. unfold update_tasks_where. rewrite map_map. apply map_ext.
  intros t. destruct (String.eqb (Task.id t) id); [apply H|reflexivity].
Qed.

(** X21. The update that [handleSubmit] sends for an edited task leaves out
    the due date when the form has none: after "Clear date" and a successful
    save the dialog closes, but every row keeps the due date it had. *)
Theorem cleared_due_date_is_not_saved :
  forall (w : World) (task : Task.t),
    let d := dialog w in
    faults w = [] ->
    trim (Dialog.title d) <> "" -> Dialog.categoryId d <> "" ->
    Dialog.task d = Some task ->
    Dialog.dueDate d = None ->
    TaskUpdates.due_date (as_updates (TaskDialog.taskData d)) = None
    /\ fst (TaskDialog.handleSubmit w) = Returned tt
    /\ tasks_tbl (snd (TaskDialog.handleSubmit w))
       = update_tasks_where (Task.id task) (as_updates (TaskDialog.taskData d))
                            (tasks_tbl w)
    /\ map Task.due_date (tasks_tbl (snd (TaskDialog.handleSubmit w)))
       = map Task.due_date (tasks_tbl w)
    /\ In EvDismiss (trace (snd (TaskDialog.handleSubmit w))).
Proof.
  intros w task d Hf Ht Hc Htask Hd.
  assert (U : TaskUpdates.due_date (as_updates (TaskDialog.taskData d)) = None).
  { unfold as_updates, TaskDialog.taskData. simpl. rewrite Hd. reflexivity. }
  split; [exact U|].
  destruct (@handleSubmit_edit w task Hf Ht Hc) as (w2 & Tb & F2 & D & E).
  { fold d. rewrite Hd. simpl. rewrite andb_false_r. reflexivity. }
  { exact Htask. }
  fold d in E, Tb.
  assert (R : TaskDialog.remind d (isRegistered w)
                (Some (spread task (TaskDialog.taskData d))) w2 = (Returned tt, w2)).
  { unfold TaskDialog.remind. rewrite Hd.
    destruct (Dialog.enableNotification d && isRegistered w); reflexivity. }
  rewrite R in E. rewrite E. cbn [fst snd].
  rewrite closed_dialog_rows, closed_dialog_trace.
  split; [reflexivity|]. split; [exact Tb|]. split.
  - rewrite Tb. apply update_keeps_column. intros t.
    unfold apply_task_updates. cbn [Task.due_date]. rewrite U. reflexivity.
  - apply in_or_app. right. left. reflexivity.
Qed.

Lemma cleared_due_date_witness :
  map Task.due_date (tasks_tbl (snd (TaskDialog.handleSubmit clearing_due_date)))
  = map Task.due_date (tasks_tbl clearing_due_date).
Proof.
  destruct (@cleared_due_date_is_not_saved clearing_due_date Sample.report)
    as (_ & _ & _ & H & _);
    [reflexivity | discriminate | discriminate | reflexivity | reflexivity |].
  exact H.
Defined.

Example report_keeps_its_due_date :
  map (fun t => (Task.id t, Task.due_date t))
      (tasks_tbl (snd (TaskDialog.handleSubmit clearing_due_date)))
  = [("t1", Some 7200000); ("t2", None)].
Proof. vm_compute. reflexivity. Qed.

(* ================================================================= *)
(** ** A save that fails *)

Lemma updateTask_fails (id : string) (u : TaskUpdates.t) (w : World) (fs : list bool) :
  faults w = true :: fs ->
  updateTask id u w
  = (Thrown request_failed, set_faults fs (emit (EvUpdate TasksTable id) w)).
Proof. intros F. destruct w. simpl in F. subst. reflexivity. Qed.

Lemma addTask_fails (task : NewTask.t) (w : World) (fs : list bool) :
  faults w = true :: fs -> user w <> None ->
  addTask task w
  = (Thrown request_failed, set_faults fs (emit (EvInsert TasksTable) w)).
Proof.
  intros F U. destruct w. simpl in F, U. subst.
  destruct user0; [reflexivity|congruence].
Qed.

(** X22. When the request that saves the task fails, [handleSubmit] does not
    throw: it shows the alert "Failed to save task", leaves the dialog open
    with the form as it was and [loading] off, and changes nothing else (no
    row, no reminder, no list of the provider). *)
Theorem failed_save_alerts_and_keeps_the_form :
  forall (w : World) (fs : list bool),
    let d := dialog w in
    trim (Dialog.title d) <> "" -> Dialog.categoryId d <> "" ->
    passes_validation d ->
    faults w = true :: fs ->
    user w <> None ->
    exists e,
      TaskDialog.handleSubmit w
      = (Returned tt,
         setLoading false
           (emit save_failed_alert (set_faults fs (emit e (setLoading true w))))).
Proof.
  intros w fs d Ht Hc Hv F U.
  unfold TaskDialog.handleSubmit. unfold bind at 1 2 3, get at 1 2 3. fold d.
  unfold passes_validation in Hv. rewrite (submission_accepted d Ht Hc), Hv.
  unfold try_finally, try_catch. unfold bind at 1. unfold modify at 1.
  cbv beta iota. unfold bind at 1. unfold TaskDialog.save.
  assert (F1 : faults (setLoading true w) = true :: fs) by exact F.
  assert (U1 : user (setLoading true w) <> None) by exact U.
  destruct (Dialog.task d) as [task|].
  - exists (EvUpdate TasksTable (Task.id task)).
    unfold bind at 1. rewrite (updateTask_fails _ _ _ F1). reflexivity.
  - exists (EvInsert TasksTable).
    unfold bind at 1. rewrite (addTask_fails _ _ F1 U1). reflexivity.
Qed.

Lemma failed_save_witness :
  exists e,
    TaskDialog.handleSubmit saving_offline
    = (Returned tt,
       setLoading false
         (emit save_failed_alert
               (set_faults [] (emit e (setLoading true saving_offline))))).
Proof.
  apply (@failed_save_alerts_and_keeps_the_form saving_offline []);
    try reflexivity; discriminate.
Defined.

(* ================================================================= *)
(** ** Creating a task with a reminder *)

(** X23. The final dialog assigns the result of [addTask] to [savedTask], and
    [addTask] of the provider resolves to no value.  So, in a reliable
    environment, a new task is always stored and no reminder is scheduled for
    it; and when the reminder is on, a due date is set and the device is
    registered, reading [savedTask.id] throws: after the provider's [addTask]
    the handler only shows the alert "Failed to save task" and does not
    dismiss the dialog.  Otherwise it dismisses the dialog.  In both cases the
    handler returns normally with [loading] off.  (The fields of the form
    afterwards are those that the fill effect of the dialog sets when the
    reload replaces the categories; the handler does not decide them.) *)
Theorem new_task_is_stored_but_reported_failed_when_a_reminder_is_due :
  forall (w : World) (u : string),
    let d := dialog w in
    let row := new_task_row (fresh_key (map Task.id (tasks_tbl w))) (clock w)
                            (as_new_task (TaskDialog.taskData d)) u
                            (Z.of_nat (List.length (tasks w))) in
    let added := snd (addTask (as_new_task (TaskDialog.taskData d))
                              (setLoading true w)) in
    let w' := snd (TaskDialog.handleSubmit w) in
    faults w = [] -> user w = Some u ->
    trim (Dialog.title d) <> "" -> Dialog.categoryId d <> "" ->
    passes_validation d ->
    Dialog.task d = None ->
    fst (TaskDialog.handleSubmit w) = Returned tt
    /\ tasks_tbl w' = tasks_tbl w ++ [row]
    /\ scheduled w' = scheduled w
    /\ Dialog.loading (dialog w') = false
    /\ trace w'
       = trace added
           ++ [if Dialog.enableNotification d && isRegistered w
                  && is_some (Dialog.dueDate d)
               then save_failed_alert else EvDismiss].
Proof.
  intros w u d row added w' Hf U Ht Hc Hv Htask.
  assert (Hf1 : faults (setLoading true w) = []) by exact Hf.
  assert (U1 : user (setLoading true w) = Some u) by exact U.
  destruct (@addTask_device (as_new_task (TaskDialog.taskData d)) u
              (setLoading true w) Hf1 U1) as (w2 & E & Tb & F2 & D).
  assert (R : TaskDialog.handleSubmit w
              = if Dialog.enableNotification d && isRegistered w
                   && is_some (Dialog.dueDate d)
                then (Returned tt, setLoading false (emit save_failed_alert w2))
                else (Returned tt,
                      setLoading false (resetForm (categories w) (emit EvDismiss w2)))).
  { unfold TaskDialog.handleSubmit. unfold bind at 1 2 3, get at 1 2 3. fold d.
    unfold passes_validation in Hv. rewrite (submission_accepted d Ht Hc), Hv.
    unfold try_finally, try_catch. unfold bind at 1. unfold modify at 1.
    cbv beta iota. unfold bind at 1. unfold TaskDialog.save. rewrite Htask.
    unfold bind at 1. rewrite E. unfold ret at 1. cbv beta iota.
    unfold bind at 1. unfold TaskDialog.remind.
    destruct (Dialog.enableNotification d); destruct (isRegistered w);
      destruct (Dialog.dueDate d); reflexivity. }
  destruct D.
  subst w' added. rewrite R, E. cbn [snd].
  destruct (Dialog.enableNotification d && isRegistered w && is_some (Dialog.dueDate d)).
  - cbn [fst snd]. split; [reflexivity|]. split; [exact Tb|].
    split; [exact sd_scheduled0|]. split; reflexivity.
  - cbn [fst snd]. rewrite closed_dialog_rows, closed_dialog_scheduled,
      closed_dialog_trace.
    split; [reflexivity|]. split; [exact Tb|].
    split; [exact sd_scheduled0|]. split; reflexivity.
Qed.

Lemma new_task_witness :
  fst (TaskDialog.handleSubmit creating_with_reminder) = Returned tt
  /\ scheduled (snd (TaskDialog.handleSubmit creating_with_reminder))
     = scheduled creating_with_reminder.
Proof.
  destruct (@new_task_is_stored_but_reported_failed_when_a_reminder_is_due
              creating_with_reminder "alice")
    as (A & _ & B & _);
    [reflexivity | reflexivity | discriminate | discriminate | reflexivity
    | reflexivity |].
  split; [exact A|exact B].
Defined.

Example flights_are_stored_and_an_error_is_shown :
  map Task.title
      (tasks_tbl (snd (TaskDialog.handleSubmit creating_with_reminder)))
  = ["Write report"; "Groceries"; "Book flights"]
  /\ trace (snd (TaskDialog.handleSubmit creating_with_reminder))
     = [EvInsert TasksTable; EvSelect CategoriesTable; EvSelect CategoriesTable;
        EvSelect TasksTable; save_failed_alert]
  /\ scheduled (snd (TaskDialog.handleSubmit creating_with_reminder)) = [].
Proof. vm_compute. repeat split; reflexivity. Qed.

(* ================================================================= *)
(** ** The reminder of a validated submission *)

Lemma minutes_left_bound (due now lead : Z) :
  0 <= lead -> lead < differenceInMinutes due now ->
  now + 60000 <= due - lead * 60000.
Proof.
  unfold differenceInMinutes. intros H0 H.
  destruct (Z.le_gt_cases 0 (due - now)) as [P|N].
  - pose proof (Z.mul_quot_le (due - now) 60000 P). lia.
  - assert (Q : 0 <= Z.quot (- (due - now)) 60000) by (apply Z.quot_pos; lia).
    rewrite Z.quot_opp_l in Q by lia. lia.
Qed.

Lemma valid_lead_time (d : Dialog.t) (m : Z) :
  Dialog.minutesUntilDue d = Some m -> TaskDialog.isNotificationValid d = true ->
  Dialog.notificationMinutesBefore d < m.
Proof.
  unfold TaskDialog.isNotificationValid. intros Hm. rewrite Hm.
  destruct (negb (is_some (Dialog.dueDate d)) || TaskDialog.falsy_number (Some m));
    [discriminate|].
  simpl. apply Z.ltb_lt.
Qed.

Lemma scheduled_ahead (taskId title : string) (due lead : Z) (w : World) :
  faults w = [] -> clock w < due - lead * 60000 ->
  exists n w3,
    bind (NotificationsService.scheduleTaskNotification taskId title due (Some lead))
         (fun _ => ret tt) w = (Returned tt, w3)
    /\ scheduled w3 = scheduled w ++ [n]
    /\ trace w3 = trace w ++ [EvSchedule taskId (due - lead * 60000)]
    /\ reminder_at taskId (due - lead * 60000) n.
Proof.
  intros F H. destruct w. simpl in F, H. subst.
  unfold bind, NotificationsService.scheduleTaskNotification, try_catch, get,
    scheduleNotificationAsync, await_or_throw, external, ret. cbn.
  destruct (Z.leb_spec (due - lead * 60000) clock0); [lia|].
  eexists. eexists. split; [reflexivity|]. cbn.
  split; [reflexivity|]. split; [reflexivity|].
  unfold reminder_at. cbn. auto.
Qed.

(** X24. A reminder that the dialog has validated is scheduled.  When an
    edited task is saved in a reliable environment on a registered device,
    with the reminder on and a lead time (not negative) that is valid for the
    minutes left at the time of the submission, exactly one reminder is added
    for the task, it fires at the due date minus the lead time, and that is
    at least one minute ahead; then the dialog closes. *)
Theorem validated_reminder_is_scheduled_a_minute_ahead :
  forall (w : World) (task : Task.t) (due : Z),
    let d := dialog w in
    let lead := Dialog.notificationMinutesBefore d in
    faults w = [] -> isRegistered w = true ->
    trim (Dialog.title d) <> "" -> Dialog.categoryId d <> "" ->
    Dialog.task d = Some task -> Task.id task <> "" ->
    Dialog.enableNotification d = true ->
    Dialog.dueDate d = Some due ->
    Dialog.minutesUntilDue d = TaskDialog.compute_minutesUntilDue (Some due) (clock w) ->
    0 <= lead ->
    TaskDialog.isNotificationValid d = true ->
    exists n,
      scheduled (snd (TaskDialog.handleSubmit w)) = scheduled w ++ [n]
      /\ reminder_at (Task.id task) (due - lead * 60000) n
      /\ clock w + 60000 <= due - lead * 60000
      /\ (exists tr, trace (snd (TaskDialog.handleSubmit w)) = tr ++ [EvDismiss]).
Proof.
  intros w task due d lead Hf Hr Ht Hc Htask Hid He Hd Hm Hl Hv.
  simpl in Hm.
  pose proof (valid_lead_time d Hm Hv) as Hlt. fold lead in Hlt.
  pose proof (@minutes_left_bound due (clock w) lead Hl Hlt) as Hahead.
  destruct (@handleSubmit_edit w task Hf Ht Hc) as (w2 & Tb & F2 & D & E).
  { fold d. rewrite Hv. simpl. rewrite andb_false_r. reflexivity. }
  { exact Htask. }
  fold d in E. destruct D. simpl in sd_clock0.
  assert (R : exists n w3,
             TaskDialog.remind d (isRegistered w)
               (Some (spread task (TaskDialog.taskData d))) w2 = (Returned tt, w3)
             /\ scheduled w3 = scheduled w2 ++ [n]
             /\ trace w3 = trace w2 ++ [EvSchedule (Task.id task) (due - lead * 60000)]
             /\ reminder_at (Task.id task) (due - lead * 60000) n).
  { unfold TaskDialog.remind. rewrite He, Hr, Hd, Hv, Hm. cbn [andb].
    change (Task.id (spread task (TaskDialog.taskData d))) with (Task.id task).
    rewrite (truthy_true Hid). cbn [andb].
    destruct (Z.ltb_spec 0 (differenceInMinutes due (clock w))); [|lia].
    fold lead. unfold scheduleTaskReminder. cbn [or_else].
    apply scheduled_ahead; [exact F2|lia]. }
  destruct R as (n & w3 & R & S3 & T3 & Hn).
  rewrite R in E. rewrite E. cbn [snd].
  rewrite closed_dialog_scheduled, closed_dialog_trace.
  exists n. split; [rewrite S3; f_equal; exact sd_scheduled0|].
  split; [exact Hn|]. split; [exact Hahead|].
  exists (trace w3). reflexivity.
Qed.

Lemma validated_reminder_witness :
  exists n,
    scheduled (snd (TaskDialog.handleSubmit moving_due_date))
    = scheduled moving_due_date ++ [n]
    /\ reminder_at "t1" 7205000 n.
Proof.
  destruct (@validated_reminder_is_scheduled_a_minute_ahead
              moving_due_date Sample.report 10805000) as (n & A & B & _);
    [reflexivity | reflexivity | discriminate | discriminate | reflexivity
    | discriminate | reflexivity | reflexivity | reflexivity | simpl; lia
    | reflexivity |].
  exists n. split; [exact A|exact B].
Defined.

(* ================================================================= *)
(** ** Reopening a saved task *)

Lemma opened_row (now : Z) (r : Task.t) (cats : list Category.t) (d0 : Dialog.t) :
  let d' := TaskDialogForm.opened now (Some r) cats d0 in
  let saved := or_else (Task.notification_minutes_before r) 60 in
  let left := TaskDialog.compute_minutesUntilDue (Task.due_date r) now in
  (Dialog.enableNotification d' = or_else (Task.enable_notification r) true
   /\ Dialog.title d' = Task.title r
   /\ Dialog.description d' = or_else (Task.description r) ""
   /\ Dialog.categoryId d' = Task.category_id r
   /\ Dialog.status d' = Task.status r
   /\ Dialog.dueDate d' = Task.due_date r
   /\ Dialog.minutesUntilDue d' = left)
  /\ (forall m, left = Some m -> 0 < m -> m <= saved ->
        exists o, last_option (TaskDialog.validNotificationOptions (Some m)) = Some o
                  /\ Dialog.notificationMinutesBefore d' = NotificationOption.value o)
  /\ ((forall m, left = Some m -> m <= 0 \/ saved < m) ->
        Dialog.notificationMinutesBefore d' = saved)
  /\ (forall m, left = Some m -> 1 < m -> Dialog.notificationMinutesBefore d' < m).
Proof.
  intros d' saved left.
  set (f := TaskDialogForm.fill now (Some r) cats d0).
  assert (B : Dialog.notificationMinutesBefore f = saved) by reflexivity.
  assert (A : TaskDialog.autoAdjust f
              = match left with
                | Some m =>
                    if (0 <? m) && (m <=? saved)
                    then match last_option
                                 (TaskDialog.validNotificationOptions (Some m)) with
                         | Some o =>
                             TaskDialog.setNotificationMinutesBefore
                               (NotificationOption.value o) f
                         | None => f
                         end
                    else f
                | None => f
                end).
  { unfold TaskDialog.autoAdjust, last_option.
    change (Dialog.dueDate f) with (Task.due_date r).
    change (Dialog.minutesUntilDue f) with left.
    change (Dialog.notificationMinutesBefore f) with saved.
    subst left. destruct (Task.due_date r) as [due|]; [|reflexivity].
    cbn [TaskDialog.compute_minutesUntilDue].
    destruct (0 <? differenceInMinutes due now),
             (differenceInMinutes due now <=? saved); reflexivity. }
  assert (F : forall g,
             g = f \/ (exists v, g = TaskDialog.setNotificationMinutesBefore v f) ->
             Dialog.enableNotification g = or_else (Task.enable_notification r) true
             /\ Dialog.title g = Task.title r
             /\ Dialog.description g = or_else (Task.description r) ""
             /\ Dialog.categoryId g = Task.category_id r
             /\ Dialog.status g = Task.status r
             /\ Dialog.dueDate g = Task.due_date r
             /\ Dialog.minutesUntilDue g = left)
    by (intros g [->|[v ->]]; repeat split).
  subst d'. unfold TaskDialogForm.opened. fold f. rewrite A.
  clearbody left saved f. clear A.
  destruct left as [m|].
  - destruct (Z.ltb_spec 0 m) as [P|P]; cbn [andb].
    + destruct (Z.leb_spec m saved) as [Q|Q].
      * destruct (adjusted_value P) as (o & L & V & V1). rewrite L.
        split; [apply F; eauto|]. split; [|split].
        -- intros m' Hm' _ _. inversion Hm'; subst m'.
           exists o. split; [exact L|reflexivity].
        -- intros H. destruct (H m eq_refl); lia.
        -- intros m' Hm' P'. inversion Hm'; subst m'. apply V, P'.
      * split; [apply F; eauto|]. split; [|split].
        -- intros m' Hm' _ Q'. inversion Hm'; subst m'. lia.
        -- intros _. exact B.
        -- intros m' Hm' P'. inversion Hm'; subst m'. rewrite B. exact Q.
    + split; [apply F; eauto|]. split; [|split].
      * intros m' Hm' P' _. inversion Hm'; subst m'. lia.
      * intros _. exact B.
      * intros m' Hm' P'. inversion Hm'; subst m'. lia.
  - split; [apply F; eauto|]. split; [|split].
    + intros m' Hm'. discriminate.
    + intros _. exact B.
    + intros m' Hm'. discriminate.
Qed.

(** X25. The notification preferences persist, as far as they are still
    valid.  Let a row be written by the update that [handleSubmit] sends for
    the form [d].  When the dialog is opened again for that row, the toggle is
    as it was saved (off, if the task was overdue); title and description
    come back trimmed, category, status and a due date that was set come back
    as they were.  The lead time comes back as it was saved (one hour, if the
    toggle was saved off) when the task has no due date, is already due, or
    the saved lead time is still below the minutes left at the opening;
    otherwise the adjusting effect replaces it by the largest option that is
    still valid (one minute when none is).  So the lead time of the opened
    dialog is always below the minutes left when more than one minute is
    left. *)
Theorem saved_preferences_come_back_when_the_dialog_reopens :
  forall (d d0 : Dialog.t) (t : Task.t) (now : Z) (cats : list Category.t),
    let row := apply_task_updates (as_updates (TaskDialog.taskData d)) t in
    let d' := TaskDialogForm.opened now (Some row) cats d0 in
    let on := Dialog.enableNotification d && negb (TaskDialog.isOverdue d) in
    let saved := if on then Dialog.notificationMinutesBefore d else 60 in
    let left := TaskDialog.compute_minutesUntilDue (Task.due_date row) now in
    Dialog.enableNotification d' = on
    /\ Dialog.title d' = trim (Dialog.title d)
    /\ Dialog.description d' = trim (Dialog.description d)
    /\ Dialog.categoryId d' = Dialog.categoryId d
    /\ Dialog.status d' = Dialog.status d
    /\ (Dialog.dueDate d <> None -> Dialog.dueDate d' = Dialog.dueDate d)
    /\ Dialog.minutesUntilDue d' = left
    /\ ((forall m, left = Some m -> m <= 0 \/ saved < m) ->
        Dialog.notificationMinutesBefore d' = saved)
    /\ (forall m, left = Some m -> 0 < m -> m <= saved ->
        exists o,
          last_option (TaskDialog.validNotificationOptions (Some m)) = Some o
          /\ Dialog.notificationMinutesBefore d' = NotificationOption.value o)
    /\ (forall m, left = Some m -> 1 < m ->
        Dialog.notificationMinutesBefore d' < m).
Proof.
  intros d d0 t now cats row d' on saved left.
  destruct (opened_row now row cats d0)
    as ((E & T & De & C & S & Du & M) & Adj & Keep & Valid).
  fold d' in E, T, De, C, S, Du, M, Adj, Keep, Valid.
  assert (Hs : or_else (Task.notification_minutes_before row) 60 = saved).
  { subst row saved on. unfold apply_task_updates, as_updates, TaskDialog.taskData.
    cbn [Task.notification_minutes_before TaskUpdates.notification_minutes_before
         TaskData.notification_minutes_before].
    destruct (Dialog.enableNotification d && negb (TaskDialog.isOverdue d));
      reflexivity. }
  rewrite Hs in Adj, Keep.
  assert (He : or_else (Task.enable_notification row) true = on).
  { subst row on. unfold apply_task_updates, as_updates, TaskDialog.taskData.
    cbn [Task.enable_notification TaskUpdates.enable_notification
         TaskData.enable_notification].
    destruct (Dialog.enableNotification d && negb (TaskDialog.isOverdue d));
      reflexivity. }
  split; [rewrite E; exact He|].
  split; [rewrite T; reflexivity|].
  split; [rewrite De; reflexivity|].
  split; [rewrite C; reflexivity|].
  split; [rewrite S; reflexivity|].
  split.
  { intros Hd. rewrite Du. subst row.
    unfold apply_task_updates, as_updates, TaskDialog.taskData.
    cbn [Task.due_date TaskUpdates.due_date TaskData.due_date].
    destruct (Dialog.dueDate d); [reflexivity|congruence]. }
  split; [exact M|]. split; [exact Keep|]. split; [exact Adj|exact Valid].
Qed.

(** A report saved with a reminder one hour before is opened again when only
    thirty minutes are left: the dialog shows fifteen minutes. *)
Example stale_lead_time_is_replaced :
  let row := Task.mk "t1" "Write report" None upcoming "c2" "alice" (Some 1800000)
                     1000 2000 0 (Some 60) (Some true) in
  Dialog.minutesUntilDue (TaskDialogForm.opened 0 (Some row) [] Sample.blank)
  = Some 30
  /\ Dialog.notificationMinutesBefore
       (TaskDialogForm.opened 0 (Some row) [] Sample.blank) = 15
  /\ Dialog.notificationMinutesBefore
       (TaskDialogForm.fill 0 (Some row) [] Sample.blank) = 60.
Proof. vm_compute. repeat split; reflexivity. Qed.

(* ================================================================= *)
(** ** A device that is not registered *)

Lemma keeps_scheduled_remind_unregistered (d : Dialog.t) (savedTask : option Task.t) :
  keeps_scheduled (TaskDialog.remind d false savedTask).
Proof.
  unfold TaskDialog.remind. rewrite andb_false_r.
  destruct (Dialog.dueDate d); apply keeps_scheduled_ret.
Qed.

(** X26. While the device is not registered for notifications, the final
    dialog schedules no reminder and cancels none, whatever the form holds and
    whichever requests fail. *)
Theorem unregistered_device_gets_no_reminder :
  forall (w : World),
    isRegistered w = false ->
    scheduled (snd (TaskDialog.handleSubmit w)) = scheduled w.
Proof.
  intros w Hr.
  unfold TaskDialog.handleSubmit. unfold bind at 1 2 3, get at 1 2 3. rewrite Hr.
  generalize (categories w) (dialog w). intros cats d.
  destruct (negb (truthy (trim (Dialog.title d)))
            || negb (truthy (Dialog.categoryId d))); [reflexivity|].
  destruct (Dialog.enableNotification d && is_some (Dialog.dueDate d)
            && negb (TaskDialog.isOverdue d)
            && negb (TaskDialog.isNotificationValid d)); [reflexivity|].
  match goal with |- scheduled (snd (?p w)) = _ =>
    assert (K : keeps_scheduled p); [|apply K] end.
  no_schedule.
  - apply keeps_scheduled_save.
  - apply keeps_scheduled_remind_unregistered.
Qed.

Lemma unregistered_device_witness :
  scheduled (snd (TaskDialog.handleSubmit unregistered_device))
  = scheduled unregistered_device.
Proof.
  apply (@unregistered_device_gets_no_reminder unregistered_device). reflexivity.
Defined.

(* ================================================================= *)
(** ** The category manager *)

(** X27. [handleDelete] of the category manager never throws.  When the
    category is not in the provider's list, or is the default one, it shows
    the message of [deleteCategory] in an alert, makes no request and leaves
    the form as it was, with [loading] off. *)
Theorem category_manager_reports_why_nothing_was_deleted :
  forall (w : World) (id : string) (s : CategoryManager.State),
    (find (by_id id) (categories w) = None ->
     CategoryManager.handleDelete id s w
     = (Returned (CategoryManager.setLoading false s),
        emit (EvAlert "Error" "Category not found") w))
    /\ (forall c,
          find (by_id id) (categories w) = Some c ->
          Category.is_default c = true ->
          CategoryManager.handleDelete id s w
          = (Returned (CategoryManager.setLoading false s),
             emit (EvAlert "Error" "Cannot delete default category") w)).
Proof.
  intros w id s. split.
  - intros H. unfold CategoryManager.handleDelete, deleteCategory.
    unfold bind at 1. unfold try_catch. unfold bind at 1. unfold bind at 1.
    unfold get at 1. fold (by_id id). rewrite H. destruct s. reflexivity.
  - intros c H D. unfold CategoryManager.handleDelete, deleteCategory.
    unfold bind at 1. unfold try_catch. unfold bind at 1. unfold bind at 1.
    unfold get at 1. fold (by_id id). rewrite H, D. destruct s. reflexivity.
Qed.

Lemma category_manager_reports_witness :
  CategoryManager.handleDelete "c1" idle_manager Sample.world
  = (Returned (CategoryManager.setLoading false idle_manager),
     emit (EvAlert "Error" "Cannot delete default category") Sample.world).
Proof.
  apply (proj2 (@category_manager_reports_why_nothing_was_deleted
                  Sample.world "c1" idle_manager) Sample.general);
    reflexivity.
Defined.

Lemma apply_edited (s : CategoryManager.State) (c : Category.t) :
  apply_category_updates (safeUpdates (CategoryManager.edited s)) c
  = renamed (trim (CategoryManager.editName s)) (CategoryManager.editColor s) c.
Proof. reflexivity. Qed.

(** X28. [handleUpdate] of the category manager changes the name (trimmed)
    and the colour of the category and nothing else: in a reliable
    environment, for a user with one default category, the table afterwards
    is the table before with the rows of that key renamed and recoloured; the
    edit is closed.  A blank name is ignored without a request. *)
Theorem category_edit_changes_name_and_colour_only :
  forall (w : World) (id u : string) (s : CategoryManager.State),
    let name := trim (CategoryManager.editName s) in
    (name = "" -> CategoryManager.handleUpdate id s w = (Returned s, w))
    /\ (name <> "" ->
        faults w = [] -> user w = Some u ->
        count_defaults u (categories_tbl w) = 1%nat ->
        fst (CategoryManager.handleUpdate id s w)
        = Returned (CategoryManager.setLoading false (CategoryManager.cancelEdit s))
        /\ categories_tbl (snd (CategoryManager.handleUpdate id s w))
           = map (fun c => if by_id id c
                           then renamed name (CategoryManager.editColor s) c else c)
                 (categories_tbl w)).
Proof.
  intros w id u s name. split.
  - intros H. unfold CategoryManager.handleUpdate. fold name. rewrite H. reflexivity.
  - intros H F U C.
    set (tbl1 := update_categories_where id (safeUpdates (CategoryManager.edited s))
                   (categories_tbl w)).
    set (w1 := set_categories_tbl tbl1 (emit (EvUpdate CategoriesTable id) w)).
    assert (F1 : faults w1 = []) by exact F.
    destruct (refreshData_categories w1 F1) as (w' & R & T).
    assert (E : CategoryManager.handleUpdate id s w
                = (Returned (CategoryManager.setLoading false
                               (CategoryManager.cancelEdit s)), w')).
    { unfold CategoryManager.handleUpdate. fold name. rewrite (truthy_true H).
      cbn [negb]. unfold bind at 1. unfold try_catch. unfold bind at 1.
      rewrite (updateCategory_reliable id (CategoryManager.edited s) w F).
      fold tbl1. fold w1. rewrite R. destruct s. reflexivity. }
    rewrite E. cbn [fst snd]. split; [reflexivity|].
    rewrite T. change (user w1) with (user w). rewrite U.
    change (categories_tbl w1) with tbl1.
    rewrite ensured_fixed.
    + unfold tbl1, update_categories_where. apply map_ext. intros c.
      unfold by_id. destruct (String.eqb (Category.id c) id); reflexivity.
    + unfold tbl1. rewrite safeUpdates_keeps_counts; [exact C|reflexivity].
Qed.

Lemma category_edit_witness :
  fst (CategoryManager.handleUpdate "c2" editing_work Sample.world)
  = Returned (CategoryManager.setLoading false (CategoryManager.cancelEdit editing_work))
  /\ categories_tbl (snd (CategoryManager.handleUpdate "c2" editing_work Sample.world))
     = map (fun c => if by_id "c2" c then renamed "Office" "#10b981" c else c)
           (categories_tbl Sample.world).
Proof.
  apply (proj2 (@category_edit_changes_name_and_colour_only
                  Sample.world "c2" "alice" editing_work));
    [discriminate | reflexivity | reflexivity | reflexivity].
Defined.

Example work_becomes_office :
  map (fun c => (Category.name c, Category.color c, Category.is_default c))
      (categories_tbl (snd (CategoryManager.handleUpdate "c2" editing_work Sample.world)))
  = [("General", "#3b82f6", true); ("Office", "#10b981", false)].
Proof. vm_compute. reflexivity. Qed.

(* ================================================================= *)
(** ** Registration for push notifications *)

Lemma token_needs_permission (dev : Push.Device) (token : string) :
  fst (Push.registerForPushNotifications dev) = Some token ->
  Push.isDevice dev = true
  /\ (Push.getPermissionsAsync dev = Some Push.granted
      \/ Push.requestPermissionsAsync dev = Some Push.granted)
  /\ Push.getExpoPushTokenAsync dev = Some token.
Proof.
  destruct dev as [dv os perm req chan tok].
  unfold Push.registerForPushNotifications. cbn.
  destruct dv; [|discriminate].
  destruct perm as [[]|]; cbn; try discriminate;
    try (destruct req as [[]|]; cbn; try discriminate);
    destruct os; cbn; try (destruct chan as [[]|]; cbn; try discriminate);
    intros E; auto.
Qed.

Lemma permission_is_requested_when_missing (dev : Push.Device) :
  In Push.RequestPermissions (snd (Push.registerForPushNotifications dev)) <->
  Push.isDevice dev = true
  /\ exists st, Push.getPermissionsAsync dev = Some st /\ st <> Push.granted.
Proof.
  destruct dev as [dv os perm req chan tok].
  unfold Push.registerForPushNotifications. cbn.
  destruct dv; cbn.
  2: { split; [intros []|intros [H _]; discriminate]. }
  destruct perm as [[]|]; cbn.
  - (* granted *)
    split.
    + destruct os; cbn; try destruct chan as [[]|]; cbn; intros H;
        repeat (destruct H as [H|H]; try discriminate); destruct H.
    + intros [_ (st & E & N)]. inversion E. congruence.
  - (* denied *)
    split.
    + intros _. split; [reflexivity|]. exists Push.denied. split; [reflexivity|discriminate].
    + intros _.
      destruct req as [[]|]; cbn; try (right; left; reflexivity).
      destruct os; cbn; try destruct chan as [[]|]; cbn; right; left; reflexivity.
  - (* undetermined *)
    split.
    + intros _. split; [reflexivity|]. exists Push.undetermined.
      split; [reflexivity|discriminate].
    + intros _.
      destruct req as [[]|]; cbn; try (right; left; reflexivity).
      destruct os; cbn; try destruct chan as [[]|]; cbn; right; left; reflexivity.
  - (* the query rejects *)
    split.
    + intros [H|[]]. discriminate.
    + intros [_ (st & E & _)]. discriminate.
Qed.

Lemma registered_with_token (dev : Push.Device) (userId : string) :
  Push.isRegistered (fst (Push.onUserChange (Some userId) dev Push.initial)) = true
  <-> exists token,
        fst (Push.registerForPushNotifications dev) = Some token /\ token <> "".
Proof.
  unfold Push.onUserChange.
  destruct (Push.registerForPushNotifications dev) as [[token|] calls]; cbn.
  - destruct (truthy token) eqn:T; cbn.
    + split; [|reflexivity]. intros _. exists token. split; [reflexivity|].
      intros E. subst. discriminate.
    + split; [discriminate|]. intros (t & E & N). inversion E. subst.
      apply truthy_false in T. contradiction.
  - split; [discriminate|]. intros (t & E & _). discriminate.
Qed.

(** X29. Registration for push notifications.  A token is returned only on a
    physical device on which the permission is granted (it was, or it was
    given when asked) and the push service has issued that token; the
    permission is asked for exactly when the device is physical and the
    permission is not granted yet.  After the provider's effect for a
    signed-in user, starting from its initial state, the device counts as
    registered exactly when a token that is not empty was returned; so it
    does not when the push service refuses a token, although the permission
    is granted. *)
Theorem device_is_registered_only_with_a_push_token :
  forall (dev : Push.Device) (userId : string),
    let r := Push.registerForPushNotifications dev in
    let s := fst (Push.onUserChange (Some userId) dev Push.initial) in
    (forall token,
        fst r = Some token ->
        Push.isDevice dev = true
        /\ (Push.getPermissionsAsync dev = Some Push.granted
            \/ Push.requestPermissionsAsync dev = Some Push.granted)
        /\ Push.getExpoPushTokenAsync dev = Some token)
    /\ (In Push.RequestPermissions (snd r) <->
        Push.isDevice dev = true
        /\ exists st, Push.getPermissionsAsync dev = Some st /\ st <> Push.granted)
    /\ (Push.isDevice dev = false -> r = (None, []))
    /\ (Push.isRegistered s = true <->
        exists token, fst r = Some token /\ token <> "")
    /\ (Push.getExpoPushTokenAsync dev = None -> Push.isRegistered s = false).
Proof.
  intros dev userId r s.
  split; [intros token; apply token_needs_permission|].
  split; [apply permission_is_requested_when_missing|].
  split.
  { intros H. unfold r, Push.registerForPushNotifications. rewrite H. reflexivity. }
  split; [apply registered_with_token|].
  intros H. destruct (Push.isRegistered s) eqn:R; [|reflexivity].
  apply registered_with_token in R. destruct R as (token & E & _).
  apply token_needs_permission in E. destruct E as (_ & _ & E). congruence.
Qed.

Lemma device_is_registered_witness :
  Push.isRegistered (fst (Push.onUserChange (Some "alice") expo_go Push.initial))
  = false.
Proof.
  destruct (@device_is_registered_only_with_a_push_token expo_go "alice")
    as (_ & _ & _ & _ & H).
  apply H. reflexivity.
Defined.

Example expo_go_is_not_registered :
  Push.onUserChange (Some "alice") expo_go Push.initial
  = (Push.initial,
     [Push.GetPermissions; Push.SetNotificationChannel; Push.GetExpoPushToken])
  /\ Push.onUserChange (Some "alice") iphone Push.initial
     = (Push.mkState (Some "ExponentPushToken[abc]") true,
        [Push.GetPermissions; Push.RequestPermissions; Push.GetExpoPushToken;
         Push.SavePushToken "alice" "ExponentPushToken[abc]"]).
Proof. split; reflexivity. Qed.

(* ================================================================= *)
(** ** Adding a category *)

(** X30. [handleAdd] of the category manager ignores a blank name.  Otherwise
    it stores the trimmed name with the selected colour as a category of the
    user that is not a default one: in a reliable environment, for a user
    with one default category, exactly that row is appended, it is in the
    provider's list afterwards, and the form is reset.  When nobody is signed
    in, it shows an alert, makes no request and keeps the form. *)
Theorem category_manager_adds_the_trimmed_name :
  forall (w : World) (u : string) (s : CategoryManager.State),
    let name := trim (CategoryManager.name s) in
    let row := Category.mk (fresh_key (map Category.id (categories_tbl w)))
                           name (CategoryManager.selectedColor s) u (clock w) false in
    (name = "" -> CategoryManager.handleAdd s w = (Returned s, w))
    /\ (name <> "" ->
        faults w = [] -> user w = Some u ->
        count_defaults u (categories_tbl w) = 1%nat ->
        fst (CategoryManager.handleAdd s w)
        = Returned (CategoryManager.setLoading false (CategoryManager.resetNew s))
        /\ categories_tbl (snd (CategoryManager.handleAdd s w))
           = categories_tbl w ++ [row]
        /\ In row (categories (snd (CategoryManager.handleAdd s w))))
    /\ (name <> "" -> user w = None ->
        CategoryManager.handleAdd s w
        = (Returned (CategoryManager.setLoading false s),
           emit (EvAlert "Error" "Failed to add category. Please try again.") w)).
Proof.
  intros w u s name row. split; [|split].
  - intros H. unfold CategoryManager.handleAdd. fold name. rewrite H. reflexivity.
  - intros H F U C.
    set (w1 := set_categories_tbl (categories_tbl w ++ [row])
                                  (emit (EvInsert CategoriesTable) w)).
    assert (F1 : faults w1 = []) by exact F.
    assert (U1 : user w1 = Some u) by exact U.
    destruct (@loadData_reliable w1 u F1 U1) as (w' & L & R).
    assert (E : CategoryManager.handleAdd s w
                = (Returned (CategoryManager.setLoading false
                               (CategoryManager.resetNew s)), w')).
    { unfold CategoryManager.handleAdd. fold name. rewrite (truthy_true H).
      cbn [negb]. unfold bind at 1. unfold try_catch. unfold bind at 1.
      rewrite (@addCategory_reliable name (CategoryManager.selectedColor s) u w F U).
      fold row. fold w1. unfold refreshData. rewrite L. destruct s. reflexivity. }
    rewrite E. cbn [fst snd]. destruct R.
    assert (T : categories_tbl w' = categories_tbl w ++ [row]).
    { rewrite rl_categories_tbl0. apply ensured_fixed.
      change (categories_tbl w1) with (categories_tbl w ++ [row]).
      unfold count_defaults. rewrite length_filter_app.
      unfold count_defaults in C. rewrite C. unfold owned_default. simpl.
      rewrite andb_false_r. reflexivity. }
    split; [reflexivity|]. split; [exact T|].
    rewrite rl_categories0, T. apply In_categories_of. split; [|reflexivity].
    apply in_or_app. right. left. reflexivity.
  - intros H U. unfold CategoryManager.handleAdd. fold name. rewrite (truthy_true H).
    cbn [negb]. unfold bind at 1. unfold try_catch. unfold bind at 1.
    unfold addCategory. unfold bind at 1, get at 1. rewrite U. destruct s. reflexivity.
Qed.

Lemma category_manager_adds_witness :
  fst (CategoryManager.handleAdd
         (CategoryManager.mk " Office  " "#10b981" false None "" "") Sample.world)
  = Returned (CategoryManager.setLoading false
                (CategoryManager.resetNew
                   (CategoryManager.mk " Office  " "#10b981" false None "" ""))).
Proof.
  destruct (@category_manager_adds_the_trimmed_name
              Sample.world "alice"
              (CategoryManager.mk " Office  " "#10b981" false None "" ""))
    as (_ & H & _).
  destruct H as (A & _);
    [discriminate | reflexivity | reflexivity | reflexivity | exact A].
Defined.

Example office_is_added :
  map (fun c => (Category.name c, Category.color c, Category.is_default c))
      (categories
         (snd (CategoryManager.handleAdd
                 (CategoryManager.mk " Office  " "#10b981" false None "" "")
                 Sample.world)))
  = [("General", "#3b82f6", true); ("Work", "#ef4444", false);
     ("Office", "#10b981", false)].
Proof. vm_compute. reflexivity. Qed.
